(** * The MAISI diffusion-model training tutorial notebook

    A shallow embedding of [generation/maisi/maisi_diff_unet_training_tutorial.ipynb].
    The notebook is orchestration code: it simulates a data set, patches three
    JSON configuration files, and launches three training-framework scripts
    with [torchrun].  Its cells are embedded as computations in a state and
    exception monad over a [world] made of

    - the Python heap (dictionaries and lists are mutable, shared objects),
    - a directory tree (the file system, without symbolic links),
    - the process environment [os.environ] and the table of child processes,
    - the trace of observable actions (files written, directories created,
      processes launched, lines printed, log records).

    What the notebook cannot see into is taken as a parameter: MONAI's
    [create_test_image_3d], numpy's [RandomState], nibabel's computation of
    voxel sizes from an affine, and the behaviour of the launched scripts.

    The file has three parts: the embedding of the notebook; the predicates
    the properties are stated with, and a sample run; the properties, the
    last of which are the claims C1 to C10 about the notebook. *)

From Stdlib Require Import ZArith Lia Ascii String.
From Stdlib Require Import Floats.PrimFloat.
From stdpp Require Import base option list gmap strings fin_maps pretty.

Set Warnings "-register-all".

(** ** Python strings and [os.path] *)

Module Py.

(** [s.startswith("/")] *)
Definition starts_with_sep (s : string) : bool :=
  match s with
  | String c _ => Ascii.eqb c "/"%char
  | EmptyString => false
  end.

(** [s.endswith(suffix)]: [suffix] is [s] itself or a suffix of its tail. *)
Fixpoint endswith (s suffix : string) : bool :=
  String.eqb s suffix ||
  match s with
  | String _ s' => endswith s' suffix
  | EmptyString => false
  end.

(** [posixpath.join(a, b)]:
<<
    if b.startswith(sep):                  path = b
    elif not path or path.endswith(sep):   path += b
    else:                                  path += sep + b
>> *)
Definition os_path_join (a b : string) : string :=
  if starts_with_sep b then b
  else if String.eqb a "" || endswith a "/" then a +:+ b
  else a +:+ "/" +:+ b.

(** The characters [str.strip()] removes, among the code points below 128:
    tab, line feed, vertical tab, form feed, carriage return, the four
    separators 0x1c-0x1f, and space.  Strings are byte strings here, so the
    white space beyond ASCII is not recognised. *)
Definition is_space (c : ascii) : bool :=
  let n := N_of_ascii c in
  ((9 <=? n) && (n <=? 13) || (28 <=? n) && (n <=? 31) || (n =? 32))%N.

Fixpoint lstrip (s : string) : string :=
  match s with
  | String c s' => if is_space c then lstrip s' else s
  | EmptyString => EmptyString
  end.

Definition rstrip (s : string) : string := String.rev (lstrip (String.rev s)).

(** [s.strip()] *)
Definition strip (s : string) : string := rstrip (lstrip s).

(** [str(n)] for an [int]. *)
Definition str_int (n : Z) : string := pretty n.

(** A [bool(s)] test on a string: the empty string is false. *)
Definition truthy (s : string) : bool := negb (String.eqb s "").

(** [''.join(parts)] *)
Definition concat (parts : list string) : string :=
  fold_right String.append "" parts.

End Py.

(** ** JSON values *)

(** A JSON document as [json.load] decodes it and [json.dump] encodes it.  An
    object keeps its members in order, as a Python [dict] does; its keys are
    taken to be distinct, as those of a [dict] are (of a key given twice in a
    file, [json.load] keeps the last value). *)
Inductive json : Type :=
| JNull
| JBool (b : bool)
| JInt (n : Z)
| JFloat (x : float)
| JStr (s : string)
| JArr (items : list json)
| JObj (members : list (string * json)).

Module Json.

(** First member with the given key. *)
Fixpoint assoc {A : Type} (k : string) (kvs : list (string * A)) : option A :=
  match kvs with
  | [] => None
  | (k', v) :: rest => if String.eqb k k' then Some v else assoc k rest
  end.

(** [d[k] = v] on the members of a [dict]: an existing key keeps its place,
    a new key goes last. *)
Fixpoint assoc_set {A : Type} (k : string) (v : A) (kvs : list (string * A))
  : list (string * A) :=
  match kvs with
  | [] => [(k, v)]
  | (k', v') :: rest =>
      if String.eqb k k' then (k', v) :: rest else (k', v') :: assoc_set k v rest
  end.

(** Member [k] of an object; [None] on a missing key or a value that is no
    object. *)
Definition member (k : string) (j : json) : option json :=
  match j with
  | JObj kvs => assoc k kvs
  | _ => None
  end.


(** Nesting depth of containers. *)
Fixpoint depth (j : json) : nat :=
  match j with
  | JArr xs => S (fold_right (fun x n => Nat.max (depth x) n) 0 xs)
  | JObj kvs => S (fold_right (fun kv n => Nat.max (depth (snd kv)) n) 0 kvs)
  | _ => 0
  end.

End Json.

(** ** The Python heap *)

Module Heap.

Abbreviation loc := nat.

(** A Python value: immutable atoms, or a reference to a heap object. *)
Inductive val : Type :=
| VNone
| VBool (b : bool)
| VInt (n : Z)
| VFloat (x : float)
| VStr (s : string)
| VRef (l : loc).

(** Mutable objects. *)
Inductive obj : Type :=
| OList (items : list val)
| ODict (members : list (string * val)).

(** Objects are allocated at the end and never freed: a reference is an
    index into the list. *)
Abbreviation heap := (list obj).

(** A state monad with failure, over the heap or the heap with a memo. *)
Definition ST (S A : Type) : Type := S → option (A * S).

#[global] Instance ST_ret {S} : MRet (ST S) := λ A a s, Some (a, s).
#[global] Instance ST_bind {S} : MBind (ST S) := λ A B f m s,
  match m s with
  | Some (a, s') => f a s'
  | None => None
  end.

Definition st_get {S} : ST S S := λ s, Some (s, s).
Definition st_modify {S} (f : S → S) : ST S unit := λ s, Some (tt, f s).
Definition st_fail {S A} : ST S A := λ _, None.

(** What [json.load] builds from a decoded document.  A container is
    allocated, its children are built, and it is filled in: objects are
    numbered in preorder (the order of allocation cannot be observed from
    Python). *)
Fixpoint load (j : json) : ST heap val :=
  match j with
  | JNull => mret VNone
  | JBool b => mret (VBool b)
  | JInt n => mret (VInt n)
  | JFloat x => mret (VFloat x)
  | JStr s => mret (VStr s)
  | JArr xs =>
      h ← st_get;
      let l := List.length h in
      st_modify (λ h, h ++ [OList []]);;
      vs ← mapM load xs;
      st_modify (λ h, <[l := OList vs]> h);;
      mret (VRef l)
  | JObj kvs =>
      h ← st_get;
      let l := List.length h in
      st_modify (λ h, h ++ [ODict []]);;
      ms ← mapM (λ kv, match kv with (k, x) => v ← load x; mret (k, v) end) kvs;
      st_modify (λ h, <[l := ODict ms]> h);;
      mret (VRef l)
  end.

(** The document a value stands for, as [json.dump] reads it off the heap.
    [fuel] bounds the nesting; a dangling reference or a chain of references
    longer than [fuel] gives [None]. *)
Fixpoint reify (fuel : nat) (h : heap) (v : val) : option json :=
  match v with
  | VNone => Some JNull
  | VBool b => Some (JBool b)
  | VInt n => Some (JInt n)
  | VFloat x => Some (JFloat x)
  | VStr s => Some (JStr s)
  | VRef l =>
      match fuel with
      | O => None
      | S fuel' =>
          match h !! l with
          | Some (OList vs) => JArr <$> mapM (reify fuel' h) vs
          | Some (ODict ms) =>
              JObj <$> mapM (λ kv, match kv with
                                   | (k, x) => j ← reify fuel' h x; Some (k, j)
                                   end) ms
          | None => None
          end
      end
  end.

(** No chain of distinct references is longer than the heap, so a document
    that needs more fuel than that is circular: [json.dump] then raises
    [ValueError]. *)
Definition dumps (h : heap) (v : val) : option json := reify (List.length h) h v.

(** [copy.deepcopy(x, memo)]: atoms are returned as they are; an object met
    before is answered from the memo; otherwise the empty copy is created and
    memoised first, the children are copied, and the copy is filled in. *)
Fixpoint deepcopy (fuel : nat) (v : val) : ST (heap * gmap loc loc) val :=
  match v with
  | VRef l =>
      st ← st_get;
      match st.2 !! l with
      | Some l' => mret (VRef l')
      | None =>
          match fuel with
          | O => st_fail
          | S fuel' =>
              let l' := List.length st.1 in
              match st.1 !! l with
              | Some (OList vs) =>
                  st_modify (λ st, (st.1 ++ [OList []], <[l := l']> st.2));;
                  vs' ← mapM (deepcopy fuel') vs;
                  st_modify (λ st, (<[l' := OList vs']> st.1, st.2));;
                  mret (VRef l')
              | Some (ODict ms) =>
                  st_modify (λ st, (st.1 ++ [ODict []], <[l := l']> st.2));;
                  ms' ← mapM (λ kv, match kv with
                                    | (k, x) => x' ← deepcopy fuel' x; mret (k, x')
                                    end) ms;
                  st_modify (λ st, (<[l' := ODict ms']> st.1, st.2));;
                  mret (VRef l')
              | None => st_fail
              end
          end
      end
  | _ => mret v
  end.

(** [copy.deepcopy(x)]: a fresh memo, and as much fuel as there are objects. *)
Definition deepcopy_top (v : val) : ST heap val := λ h,
  match deepcopy (List.length h) v (h, ∅) with
  | Some (v', (h', _)) => Some (v', h')
  | None => None
  end.

(** The JSON value of an atom. *)
Definition atom_json (v : val) : option json :=
  match v with
  | VNone => Some JNull
  | VBool b => Some (JBool b)
  | VInt n => Some (JInt n)
  | VFloat x => Some (JFloat x)
  | VStr s => Some (JStr s)
  | VRef _ => None
  end.

Definition children (o : obj) : list val :=
  match o with
  | OList vs => vs
  | ODict ms => ms.*2
  end.

(** [span h v a b]: the objects reachable from [v] form a tree that lies
    within the locations [a, b), every container before its children and the
    children of a container one after the other.  [chain h vs a b] lays out a
    list of siblings that way. *)
Inductive span (h : heap) : val → nat → nat → Prop :=
| span_atom v (a b : nat) :
    is_Some (atom_json v) → (a ≤ b)%nat → (b ≤ List.length h)%nat → span h v a b
| span_ref (l : loc) o (a b : nat) :
    (a ≤ l)%nat → h !! l = Some o → chain h (children o) (S l) b →
    span h (VRef l) a b
with chain (h : heap) : list val → nat → nat → Prop :=
| chain_nil (a b : nat) : (a ≤ b)%nat → (b ≤ List.length h)%nat → chain h [] a b
| chain_cons v vs (a m b : nat) :
    span h v a m → chain h vs m b → chain h (v :: vs) a b.

(** [h'] is at least as long as [h] and agrees with it on [a, b). *)
Definition agree (a b : nat) (h h' : heap) : Prop :=
  (List.length h ≤ List.length h')%nat ∧ ∀ l : nat, (a ≤ l < b)%nat → h' !! l = h !! l.

(** [v] is a tree within [a, b) and stands for the document [doc]. *)
Definition holds (h : heap) (v : val) (a b : nat) (doc : json) : Prop :=
  span h v a b ∧ ∃ n : nat, reify n h v = Some doc.

End Heap.

(** ** Files and directories *)

Module Fs.

(** A numpy array: its shape and its elements in row-major order. *)
Record ndarray := { nd_shape : list Z; nd_data : list float }.

(** A [numpy.float32], kept as the double of the same value. *)
Record float32 := F32 { f32_value : float }.

(** [float(x)] of a [numpy.float32]. *)
Definition py_float (x : float32) : float := f32_value x.

(** A NIfTI image: voxel array, affine, and the voxel sizes of its header
    ([img.header.get_zooms()]). *)
Record nifti := {
  nii_data : ndarray;
  nii_affine : list (list float);
  nii_zooms : list float32
}.

(** [img.shape] *)
Definition nii_shape (img : nifti) : list Z := nd_shape (nii_data img).

(** What a regular file holds.  A JSON file is represented by the document
    it encodes: key order inside objects and white space ([sort_keys],
    [indent]) are layout of the text, not part of the document. *)
Inductive file : Type :=
| JsonFile (doc : json)
| NiftiFile (img : nifti)
| OtherFile (text : string).

(** A directory tree.  Entries are kept in the order [os.scandir] lists
    them. *)
Inductive node : Type :=
| File (f : file)
| Dir (entries : list (string * node)).

(** The components of a path, split at every ["/"]. *)
Fixpoint split_path (p : string) : list string :=
  match p with
  | EmptyString => [EmptyString]
  | String c p' =>
      if Ascii.eqb c "/"%char then EmptyString :: split_path p'
      else match split_path p' with
           | h :: t => String c h :: t
           | [] => [String c EmptyString]
           end
  end.

(** One step of path resolution: empty components and ["."] stay in place,
    [".."] goes up, a name goes down. *)
Definition norm_step (acc : list string) (c : string) : list string :=
  if String.eqb c "" || String.eqb c "." then acc
  else if String.eqb c ".." then removelast acc
  else acc ++ [c].

(** The names from the root to the file a path denotes; the empty path
    denotes nothing. *)
Definition resolve (cwd : list string) (path : string) : option (list string) :=
  if String.eqb path "" then None
  else Some (fold_left norm_step (split_path path)
               (if Py.starts_with_sep path then [] else cwd)).

(** The node at a resolved path. *)
Fixpoint get (t : node) (p : list string) : option node :=
  match p with
  | [] => Some t
  | n :: p' =>
      match t with
      | Dir es => c ← Json.assoc n es; get c p'
      | File _ => None
      end
  end.

Definition is_dir (o : option node) : bool :=
  match o with
  | Some (Dir _) => true
  | _ => false
  end.

(** Create or overwrite the regular file at [p].  The directory that holds
    it must exist, and [p] must not be a directory. *)
Fixpoint put (p : list string) (f : file) (t : node) : option node :=
  match p with
  | [] => None
  | n :: p' =>
      match t with
      | File _ => None
      | Dir es =>
          match p' with
          | [] =>
              if is_dir (Json.assoc n es) then None
              else Some (Dir (Json.assoc_set n (File f) es))
          | _ :: _ =>
              c ← Json.assoc n es;
              c' ← put p' f c;
              Some (Dir (Json.assoc_set n c' es))
          end
      end
  end.

(** Create the directory at [p] and every missing directory above it; fails
    when a regular file is in the way. *)
Fixpoint mkdirs (p : list string) (t : node) : option node :=
  match t with
  | File _ => None
  | Dir es =>
      match p with
      | [] => Some t
      | n :: p' =>
          c' ← mkdirs p' (default (Dir []) (Json.assoc n es));
          Some (Dir (Json.assoc_set n c' es))
      end
  end.

Definition dirnames (es : list (string * node)) : list string :=
  omap (λ e, match e with (n, Dir _) => Some n | _ => None end) es.

Definition filenames (es : list (string * node)) : list string :=
  omap (λ e, match e with (n, File _) => Some n | _ => None end) es.

(** [os.walk(top)], top down: the triple of the directory itself, then the
    walks of its subdirectories, each under [os.path.join(top, name)].
    Walking what is no directory yields nothing. *)
Fixpoint walk (top : string) (t : node) : list (string * list string * list string) :=
  match t with
  | File _ => []
  | Dir es =>
      (top, dirnames es, filenames es)
        :: flat_map (λ e, match e with
                          | (n, c) => walk (Py.os_path_join top n) c
                          end) es
  end.

(** A name an entry of a directory can have: not empty, not ["."] or
    [".."], and without ["/"]. *)
Fixpoint has_sep (s : string) : bool :=
  match s with
  | EmptyString => false
  | String c s' => Ascii.eqb c "/"%char || has_sep s'
  end.

Definition name_ok (n : string) : bool :=
  negb (String.eqb n "") && negb (String.eqb n ".") && negb (String.eqb n "..")
  && negb (has_sep n).

Fixpoint distinct (ns : list string) : bool :=
  match ns with
  | [] => true
  | n :: ns' => negb (existsb (String.eqb n) ns') && distinct ns'
  end.

(** The trees a file system can hold: in every directory the names are
    proper names, and no name is given twice. *)
Fixpoint well_formed (t : node) : bool :=
  match t with
  | File _ => true
  | Dir es =>
      distinct (map fst es)
      && forallb (λ e, match e with (n, c) => name_ok n && well_formed c end) es
  end.

End Fs.

(** ** Child processes *)

Module Proc.

(** A child process as its parent observes it through the [Popen] object:
    - [po_stdout]: what the coming calls of [stdout.readline()] give, each
      a line ([inl]) or an exception raised by the read ([inr], with its
      message); once the list is used up the stream is at its end;
    - [po_lag]: how many more calls of [poll()] find the child still running;
    - [po_returncode]: its exit status;
    - [po_stderr]: everything it writes to standard error;
    - [po_fs]: the file system as it leaves it.
    The child is taken to end: its output is a finite list, and it has exited
    after finitely many polls.  A child that blocks for ever, say on a pipe
    for its standard error that is full and that nobody reads, is outside
    this model. *)
Record popen := {
  po_stdout : list (string + string);
  po_lag : nat;
  po_returncode : Z;
  po_stderr : string;
  po_fs : Fs.node
}.

Definition with_stdout (p : popen) (out : list (string + string)) : popen :=
  {| po_stdout := out; po_lag := po_lag p; po_returncode := po_returncode p;
     po_stderr := po_stderr p; po_fs := po_fs p |}.

Definition with_lag (p : popen) (n : nat) : popen :=
  {| po_stdout := po_stdout p; po_lag := n; po_returncode := po_returncode p;
     po_stderr := po_stderr p; po_fs := po_fs p |}.

(** The lines still unread. *)
Definition pending_lines (out : list (string + string)) : list string :=
  omap (λ r, match r with inl s => Some s | inr _ => None end) out.

End Proc.

(** ** The world, and the monad of notebook code *)

(** Python exceptions, all of them subclasses of [Exception]. *)
Inductive exn : Type :=
| KeyError (key : string)
| TypeError (msg : string)
| OSError (path : string)
| ImageFileError (path : string)
| JSONDecodeError (path : string)
| ValueError (msg : string)
| Exception (msg : string).

(** Observable actions. *)
Inductive event : Type :=
| EvShell (cmd : string)
| EvExtern (name : string)
| EvMkdir (path : string)
| EvWrite (path : string) (f : Fs.file)
| EvPopen (argv : list string) (env : gmap string string)
| EvPrint (text : string)
| EvLog (msg : string) (args : list json).

Record world := {
  w_heap : Heap.heap;
  w_fs : Fs.node;
  w_cwd : list string;
  w_environ : gmap string string;
  w_procs : list Proc.popen;
  w_trace : list event
}.

Definition set_heap (h : Heap.heap) (w : world) : world :=
  {| w_heap := h; w_fs := w_fs w; w_cwd := w_cwd w; w_environ := w_environ w;
     w_procs := w_procs w; w_trace := w_trace w |}.

Definition set_fs (t : Fs.node) (w : world) : world :=
  {| w_heap := w_heap w; w_fs := t; w_cwd := w_cwd w; w_environ := w_environ w;
     w_procs := w_procs w; w_trace := w_trace w |}.

Definition set_procs (ps : list Proc.popen) (w : world) : world :=
  {| w_heap := w_heap w; w_fs := w_fs w; w_cwd := w_cwd w; w_environ := w_environ w;
     w_procs := ps; w_trace := w_trace w |}.

Definition emit (ev : event) (w : world) : world :=
  {| w_heap := w_heap w; w_fs := w_fs w; w_cwd := w_cwd w; w_environ := w_environ w;
     w_procs := w_procs w; w_trace := w_trace w ++ [ev] |}.

(** The outcome of running code: a value, a raised exception, or a loop cut
    off for lack of fuel. *)
Inductive result (A : Type) : Type :=
| Ok (a : A) (w : world)
| Raise (e : exn) (w : world)
| Spin (w : world).

Arguments Ok {A} a w.
Arguments Raise {A} e w.
Arguments Spin {A} w.

Definition M (A : Type) : Type := world → result A.

#[global] Instance M_ret : MRet M := λ A a w, Ok a w.
#[global] Instance M_bind : MBind M := λ A B f m w,
  match m w with
  | Ok a w' => f a w'
  | Raise e w' => Raise e w'
  | Spin w' => Spin w'
  end.

Definition raise {A} (e : exn) : M A := λ w, Raise e w.

(** [try: body / except Exception as e: handler(e)] *)
Definition try_except {A} (body : M A) (handler : exn → M A) : M A := λ w,
  match body w with
  | Raise e w' => handler e w'
  | r => r
  end.

(** [try: body / finally: cleanup] *)
Definition try_finally {A} (body : M A) (cleanup : M unit) : M A := λ w,
  match body w with
  | Ok a w' => (cleanup;; mret a) w'
  | Raise e w' => (cleanup;; raise e) w'
  | Spin w' => Spin w'
  end.

(** [for x in xs: body(x)] *)
Fixpoint for_ {A} (xs : list A) (body : A → M unit) : M unit :=
  match xs with
  | [] => mret tt
  | x :: xs' => body x;; for_ xs' body
  end.

Definition when (b : bool) (body : M unit) : M unit :=
  if b then body else mret tt.

(** [str(e)] of an exception: its message. *)
Definition exn_str (e : exn) : string :=
  match e with
  | KeyError k => "'" +:+ k +:+ "'"
  | TypeError m => m
  | OSError p => p
  | ImageFileError p => p
  | JSONDecodeError p => p
  | ValueError m => m
  | Exception m => m
  end.

(** ** Library calls *)

Definition print (text : string) : M unit := λ w, Ok tt (emit (EvPrint text) w).

(** [logger.info(msg)]; the values an f-string interpolates are kept beside
    the text, each [{}] standing for one of them. *)
Definition logger_info (msg : string) (args : list json) : M unit :=
  λ w, Ok tt (emit (EvLog msg args) w).

Definition lookup_path (path : string) (w : world) : option Fs.node :=
  p ← Fs.resolve (w_cwd w) path; Fs.get (w_fs w) p.

(** [os.path.isdir(path)] *)
Definition os_path_isdir (path : string) : M bool :=
  λ w, Ok (Fs.is_dir (lookup_path path w)) w.

(** [os.makedirs(path, exist_ok=exist_ok)] *)
Definition os_makedirs (path : string) (exist_ok : bool) : M unit := λ w,
  match Fs.resolve (w_cwd w) path with
  | None => Raise (OSError path) w
  | Some p =>
      match Fs.get (w_fs w) p with
      | Some (Fs.Dir _) => if exist_ok then Ok tt w else Raise (OSError path) w
      | Some (Fs.File _) => Raise (OSError path) w
      | None =>
          match Fs.mkdirs p (w_fs w) with
          | Some t' => Ok tt (emit (EvMkdir path) (set_fs t' w))
          | None => Raise (OSError path) w
          end
      end
  end.

(** [os.listdir(path)] *)
Definition os_listdir (path : string) : M (list string) := λ w,
  match lookup_path path w with
  | Some (Fs.Dir es) => Ok (map fst es) w
  | _ => Raise (OSError path) w
  end.

(** [os.walk(top)], read to its end.  Errors of the scan are ignored, as
    [os.walk] does by default. *)
Definition os_walk (top : string) : M (list (string * list string * list string)) :=
  λ w, Ok (match lookup_path top w with
           | Some t => Fs.walk top t
           | None => []
           end) w.

(** [with open(path, "w") as f:] followed by one write of the whole
    content. *)
Definition write_file (path : string) (f : Fs.file) : M unit := λ w,
  match p ← Fs.resolve (w_cwd w) path; Fs.put p f (w_fs w) with
  | Some t' => Ok tt (emit (EvWrite path f) (set_fs t' w))
  | None => Raise (OSError path) w
  end.

(** [with open(path, "r") as f:] followed by a read to the end. *)
Definition read_file (path : string) : M Fs.file := λ w,
  match lookup_path path w with
  | Some (Fs.File f) => Ok f w
  | _ => Raise (OSError path) w
  end.

(** A computation on the heap, run in the world; [e] is raised if it
    fails. *)
Definition on_heap {A} (c : Heap.ST Heap.heap A) (e : exn) : M A := λ w,
  match c (w_heap w) with
  | Some (a, h') => Ok a (set_heap h' w)
  | None => Raise e w
  end.

(** [json.load(f)] on the file at [path]. *)
Definition json_load (path : string) : M Heap.val :=
  f ← read_file path;
  match f with
  | Fs.JsonFile doc => on_heap (Heap.load doc) (JSONDecodeError path)
  | _ => raise (JSONDecodeError path)
  end.

(** [json.dump(doc, f, ...)] into the file at [path], for a document that is
    already a JSON value.  [sort_keys] and [indent] shape the text only. *)
Definition json_dump_doc (doc : json) (path : string)
    (sort_keys : bool) (indent : option Z) : M unit :=
  write_file path (Fs.JsonFile doc).

(** [json.dump(obj, f, ...)] into the file at [path], for an object of the
    heap.  The file is opened first; a circular object then fails with
    [ValueError]. *)
Definition json_dump (obj : Heap.val) (path : string)
    (sort_keys : bool) (indent : option Z) : M unit := λ w,
  match Heap.dumps (w_heap w) obj with
  | Some doc => json_dump_doc doc path sort_keys indent w
  | None => (write_file path (Fs.OtherFile "");;
             raise (ValueError "Circular reference detected")) w
  end.

(** [copy.deepcopy(x)] *)
Definition copy_deepcopy (x : Heap.val) : M Heap.val :=
  on_heap (Heap.deepcopy_top x) (Exception "maximum recursion depth exceeded").

(** [d[key]] *)
Definition getitem (d : Heap.val) (key : string) : M Heap.val := λ w,
  match d with
  | Heap.VRef l =>
      match w_heap w !! l with
      | Some (Heap.ODict ms) =>
          match Json.assoc key ms with
          | Some v => Ok v w
          | None => Raise (KeyError key) w
          end
      | _ => Raise (TypeError "indices must be integers") w
      end
  | _ => Raise (TypeError "object is not subscriptable") w
  end.

(** [d[key] = v] *)
Definition setitem (d : Heap.val) (key : string) (v : Heap.val) : M unit := λ w,
  match d with
  | Heap.VRef l =>
      match w_heap w !! l with
      | Some (Heap.ODict ms) =>
          Ok tt (set_heap (<[l := Heap.ODict (Json.assoc_set key v ms)]> (w_heap w)) w)
      | _ => Raise (TypeError "indices must be integers") w
      end
  | _ => Raise (TypeError "object does not support item assignment") w
  end.

(** A value used where [os.path] wants a string. *)
Definition as_path (v : Heap.val) : M string :=
  match v with
  | Heap.VStr s => mret s
  | _ => raise (TypeError "expected str, bytes or os.PathLike object")
  end.

(** [doc[key]] on a literal. *)
Definition doc_getitem (doc : json) (key : string) : M json :=
  match doc with
  | JObj kvs =>
      match Json.assoc key kvs with
      | Some j => mret j
      | None => raise (KeyError key)
      end
  | _ => raise (TypeError "object is not subscriptable")
  end.

(** The items a [for] loop over a literal list goes through. *)
Definition doc_iter (doc : json) : M (list json) :=
  match doc with
  | JArr xs => mret xs
  | JObj kvs => mret (map (λ kv, JStr kv.1) kvs)
  | _ => raise (TypeError "object is not iterable")
  end.

Definition doc_as_path (doc : json) : M string :=
  match doc with
  | JStr s => mret s
  | _ => raise (TypeError "expected str, bytes or os.PathLike object")
  end.

(** [nib.save(img, path)] *)
Definition nib_save (img : Fs.nifti) (path : string) : M unit :=
  write_file path (Fs.NiftiFile img).

(** [nib.load(path)] *)
Definition nib_load (path : string) : M Fs.nifti :=
  λ w,
  match lookup_path path w with
  | Some (Fs.File (Fs.NiftiFile img)) => Ok img w
  | Some (Fs.File _) => Raise (ImageFileError path) w
  | _ => Raise (OSError path) w
  end.

(** [np.eye(n)] *)
Definition np_eye (n : nat) : list (list float) :=
  map (λ i, map (λ j, if Nat.eqb i j then 1%float else 0%float) (seq 0 n)) (seq 0 n).

(** [os.environ.copy()] *)
Definition os_environ_copy : M (gmap string string) := λ w, Ok (w_environ w) w.

(** [process.stdout.readline()] *)
Definition readline (process : nat) : M string := λ w,
  match w_procs w !! process with
  | Some p =>
      match Proc.po_stdout p with
      | [] => Ok "" w
      | inl line :: rest =>
          Ok line (set_procs (<[process := Proc.with_stdout p rest]> (w_procs w)) w)
      | inr msg :: rest =>
          Raise (Exception msg)
            (set_procs (<[process := Proc.with_stdout p rest]> (w_procs w)) w)
      end
  | None => Raise (ValueError "I/O operation on closed file") w
  end.

(** [process.poll()] *)
Definition poll (process : nat) : M (option Z) := λ w,
  match w_procs w !! process with
  | Some p =>
      match Proc.po_lag p with
      | O => Ok (Some (Proc.po_returncode p)) w
      | S n => Ok None (set_procs (<[process := Proc.with_lag p n]> (w_procs w)) w)
      end
  | None => Raise (ValueError "no such process") w
  end.

(** [process.communicate()]: waits for the child to end and returns what is
    left of its output and all of its standard error. *)
Definition communicate (process : nat) : M (string * string) := λ w,
  match w_procs w !! process with
  | Some p =>
      Ok (Py.concat (Proc.pending_lines (Proc.po_stdout p)), Proc.po_stderr p)
         (set_fs (Proc.po_fs p)
            (set_procs (<[process := Proc.with_lag (Proc.with_stdout p []) 0]>
                          (w_procs w)) w))
  | None => Raise (ValueError "no such process") w
  end.

(** Enough iterations for the streaming loop of [run_torchrun]: every
    iteration but the last uses up a line or one unit of lag. *)
Definition stream_fuel (process : nat) (w : world) : nat :=
  match w_procs w !! process with
  | Some p => S (List.length (Proc.po_stdout p) + Proc.po_lag p)
  | None => 1
  end.

(** ** The notebook *)

Section Notebook.

(** The state of a numpy random generator, and the state of a new
    [np.random.RandomState(seed)]. *)
Variable rng : Type.
Variable RandomState : Z → rng.

(** [monai.data.create_test_image_3d(height, width, depth, rad_max=..,
    num_seg_classes=.., random_state=..)]: the image and its segmentation,
    and the state in which the draws leave the generator it was given. *)
Variable create_test_image_3d :
  Z → Z → Z → Z → Z → rng → (Fs.ndarray * Fs.ndarray) * rng.

(** The voxel sizes nibabel writes into the header of an image built from an
    array and an affine. *)
Variable zooms_of_affine : list (list float) → list Fs.float32.

(** What [subprocess.Popen(argv, env=env)] starts in a given world; [None]
    when the program cannot be started. *)
Variable spawn : list string → gmap string string → world → option Proc.popen.

(** [nib.Nifti1Image(data, affine=affine)] *)
Definition Nifti1Image (data : Fs.ndarray) (affine : list (list float)) : Fs.nifti :=
  {| Fs.nii_data := data; Fs.nii_affine := affine;
     Fs.nii_zooms := zooms_of_affine affine |}.

(** [subprocess.Popen(argv, stdout=PIPE, stderr=PIPE, text=True, env=env)];
    the result is the index of the child in the process table.  The call is
    recorded whether or not the program can be started. *)
Definition subprocess_Popen (argv : list string) (env : gmap string string) : M nat :=
  λ w,
  match spawn argv env w with
  | Some p => Ok (List.length (w_procs w))
                (emit (EvPopen argv env) (set_procs (w_procs w ++ [p]) w))
  | None => Raise (OSError (default "" (head argv))) (emit (EvPopen argv env) w)
  end.

(** *** Cell 58cbde9b: set up the environment *)

Definition quote : string := String "034"%char EmptyString.

Definition cell_58cbde9b : M unit := λ w,
  Ok tt (emit (EvShell ("python -c " +:+ quote +:+ "import monai" +:+ quote +:+
                        " || pip install -q " +:+ quote +:+
                        "monai-weekly[pillow, tqdm]" +:+ quote)) w).

(** *** Cell e3bf0346: imports, [print_config()], [setup_logging] *)

Definition cell_e3bf0346 : M unit := λ w,
  Ok tt (emit (EvExtern "setup_logging")
           (emit (EvExtern "print_config") w)).

(** *** Cell fc32a7fe: the simulated data list *)

Definition sim_datalist : json :=
  JObj [("training", JArr [JObj [("image", JStr "tr_image_001.nii.gz")];
                           JObj [("image", JStr "tr_image_002.nii.gz")]])].

Definition sim_dim : Z * Z * Z := (224, 224, 96)%Z.

(** *** Cell 1b199078: generate the simulated images *)

Record sim_vars := {
  work_dir : string;
  dataroot_dir : string;
  datalist_file : string
}.

Definition cell_1b199078 : M sim_vars :=
  let work_dir := "./temp_work_dir" in
  exists_ ← os_path_isdir work_dir;
  when (negb exists_) (os_makedirs work_dir false);;
  let dataroot_dir := Py.os_path_join work_dir "sim_dataroot" in
  exists_ ← os_path_isdir dataroot_dir;
  when (negb exists_) (os_makedirs dataroot_dir false);;
  let datalist_file := Py.os_path_join work_dir "sim_datalist.json" in
  json_dump_doc sim_datalist datalist_file false None;;
  training ← doc_getitem sim_datalist "training";
  items ← doc_iter training;
  for_ items (λ d,
    (* the generator is made for this call and dropped after it *)
    let '((im, _), _) :=
      create_test_image_3d sim_dim.1.1 sim_dim.1.2 sim_dim.2 10 1 (RandomState 42) in
    name ← doc_getitem d "image";
    name ← doc_as_path name;
    let image_fpath := Py.os_path_join dataroot_dir name in
    nib_save (Nifti1Image im (np_eye 4)) image_fpath);;
  logger_info "Generated simulated images." [];;
  mret {| work_dir := work_dir; dataroot_dir := dataroot_dir;
          datalist_file := datalist_file |}.

(** *** Cell 6c7b434c: set up directories and configurations *)

Record cfg_vars := {
  env_config : Heap.val;
  model_config : Heap.val;
  model_def : Heap.val;
  env_config_out : Heap.val;
  model_config_out : Heap.val;
  model_def_out : Heap.val;
  env_config_filepath : string;
  model_config_filepath : string;
  model_def_filepath : string;
  num_gpus : Z
}.

Definition env_config_path : string := "./configs/environment_maisi_diff_model.json".
Definition model_config_path : string := "./configs/config_maisi_diff_model.json".
Definition model_def_path : string := "./configs/config_maisi.json".

Definition cell_6c7b434c (v : sim_vars) : M cfg_vars :=
  (* Load environment configuration, model configuration and model definition *)
  env_config ← json_load env_config_path;
  model_config ← json_load model_config_path;
  model_def ← json_load model_def_path;
  env_config_out ← copy_deepcopy env_config;
  model_config_out ← copy_deepcopy model_config;
  model_def_out ← copy_deepcopy model_def;
  (* Set up directories based on configurations *)
  setitem env_config_out "data_base_dir" (Heap.VStr (dataroot_dir v));;
  x ← getitem env_config_out "embedding_base_dir";
  x ← as_path x;
  setitem env_config_out "embedding_base_dir"
    (Heap.VStr (Py.os_path_join (work_dir v) x));;
  setitem env_config_out "json_data_list" (Heap.VStr (datalist_file v));;
  x ← getitem env_config_out "model_dir";
  x ← as_path x;
  setitem env_config_out "model_dir" (Heap.VStr (Py.os_path_join (work_dir v) x));;
  x ← getitem env_config_out "output_dir";
  x ← as_path x;
  setitem env_config_out "output_dir" (Heap.VStr (Py.os_path_join (work_dir v) x));;
  setitem env_config_out "trained_autoencoder_path" Heap.VNone;;
  (* Create necessary directories *)
  x ← getitem env_config_out "embedding_base_dir";
  x ← as_path x;
  os_makedirs x true;;
  x ← getitem env_config_out "model_dir";
  x ← as_path x;
  os_makedirs x true;;
  x ← getitem env_config_out "output_dir";
  x ← as_path x;
  os_makedirs x true;;
  let env_config_filepath :=
    Py.os_path_join (work_dir v) "environment_maisi_diff_model.json" in
  json_dump env_config_out env_config_filepath true (Some 4%Z);;
  (* Update model configuration for demo *)
  let max_epochs := 2%Z in
  x ← getitem model_config_out "diffusion_unet_train";
  setitem x "n_epochs" (Heap.VInt max_epochs);;
  let model_config_filepath :=
    Py.os_path_join (work_dir v) "config_maisi_diff_model.json" in
  json_dump model_config_out model_config_filepath true (Some 4%Z);;
  (* Update model definition for demo *)
  x ← getitem model_def_out "autoencoder_def";
  setitem x "num_splits" (Heap.VInt 4);;
  let model_def_filepath := Py.os_path_join (work_dir v) "config_maisi.json" in
  json_dump model_def_out model_def_filepath true (Some 4%Z);;
  (* Print files and folders under work_dir *)
  names ← os_listdir (work_dir v);
  logger_info "files and folders under work_dir: {}." [JArr (map JStr names)];;
  (* Adjust based on the number of GPUs you want to use *)
  let num_gpus := 1%Z in
  logger_info "number of GPUs: {}." [JInt num_gpus];;
  mret {| env_config := env_config; model_config := model_config;
          model_def := model_def; env_config_out := env_config_out;
          model_config_out := model_config_out; model_def_out := model_def_out;
          env_config_filepath := env_config_filepath;
          model_config_filepath := model_config_filepath;
          model_def_filepath := model_def_filepath; num_gpus := num_gpus |}.

(** *** Cell 95ea6972: [run_torchrun] *)

(** The [while True:] loop that prints the output in real time. *)
Fixpoint stream_output (fuel : nat) (process : nat) : M unit :=
  match fuel with
  | O => Spin
  | S fuel' =>
      output ← readline process;
      status ← (if String.eqb output "" then poll process else mret None);
      if String.eqb output "" && bool_decide (is_Some status) then mret tt
      else
        when (Py.truthy output) (print (Py.strip output));;
        stream_output fuel' process
  end.

Definition run_torchrun (module : string) (module_args : list string)
    (num_gpus : Z) : M unit :=
  (* Define the arguments for torchrun *)
  let num_nodes := 1%Z in
  (* Build the torchrun command *)
  let torchrun_command :=
    ["torchrun"; "--nproc_per_node"; Py.str_int num_gpus;
     "--nnodes"; Py.str_int num_nodes; "-m"; module] ++ module_args in
  (* Set the OMP_NUM_THREADS environment variable *)
  env ← os_environ_copy;
  let env := <["OMP_NUM_THREADS" := "1"]> env in
  (* Execute the command *)
  process ← subprocess_Popen torchrun_command env;
  (* Print the output in real-time *)
  try_finally
    (try_except
       (λ w, stream_output (stream_fuel process w) process w)
       (λ e, print ("An error occurred: " +:+ exn_str e)))
    ((* Capture and print any remaining output *)
     out ← communicate process;
     print out.1;;
     when (Py.truthy out.2) (print out.2)).

(** *** Cells f45ea863, ade6389d, 1626526d: the three stages *)

Definition stage_args (v : cfg_vars) : list string :=
  ["--env_config"; env_config_filepath v;
   "--model_config"; model_config_filepath v;
   "--model_def"; model_def_filepath v].

Definition cell_f45ea863 (v : cfg_vars) : M unit :=
  logger_info "Creating training data..." [];;
  let module := "scripts.diff_model_create_training_data" in
  let module_args := stage_args v in
  run_torchrun module module_args (num_gpus v).

Definition cell_ade6389d (v : cfg_vars) : M unit :=
  logger_info "Training the model..." [];;
  let module := "scripts.diff_model_train" in
  let module_args := stage_args v in
  run_torchrun module module_args (num_gpus v).

Definition cell_1626526d (v : cfg_vars) : M unit :=
  logger_info "Running inference..." [];;
  let module := "scripts.diff_model_infer" in
  let module_args := stage_args v in
  run_torchrun module module_args (num_gpus v);;
  logger_info "Completed all steps." [].

(** *** Cell 0221a658: the [.json] files beside the embeddings *)

(** List all .gz files in the folder and its subfolders. *)
Definition list_gz_files (folder_path : string) : M (list string) :=
  triples ← os_walk folder_path;
  mret (flat_map (λ t, match t with
                       | (root, _, files) =>
                           map (Py.os_path_join root)
                             (filter (λ file, Is_true (Py.endswith file ".gz")) files)
                       end) triples).

(** The dictionary written beside one image. *)
Definition sidecar (img : Fs.nifti) : json :=
  (* Get the dimensions and spacing *)
  let dimensions := Fs.nii_shape img in
  let dimensions := take 3 dimensions in
  let spacing := take 3 (Fs.nii_zooms img) in
  let spacing := take 3 spacing in
  let spacing := map Fs.py_float spacing in
  JObj [("dim", JArr (map JInt dimensions));
        ("spacing", JArr (map JFloat spacing));
        ("top_region_index", JArr [JInt 0; JInt 1; JInt 0; JInt 0]);
        ("bottom_region_index", JArr [JInt 0; JInt 0; JInt 1; JInt 0])].

(** Create .json files for each .gz file with the specified keys and
    values. *)
Definition create_json_files (gz_files : list string) : M unit :=
  for_ gz_files (λ gz_file,
    (* Load the NIfTI image *)
    img ← nib_load gz_file;
    let data := sidecar img in
    logger_info "data: {}." [data];;
    (* Create the .json filename *)
    let json_filename := gz_file +:+ ".json" in
    (* Write the dictionary to the .json file *)
    json_dump_doc data json_filename false (Some 4%Z)).

Definition cell_0221a658 (v : cfg_vars) : M unit :=
  x ← getitem (env_config_out v) "embedding_base_dir";
  folder_path ← as_path x;
  gz_files ← list_gz_files folder_path;
  create_json_files gz_files;;
  logger_info "Completed creating .json files for all embedding files." [].

(** *** The notebook, run from top to bottom *)

Definition notebook : M unit :=
  cell_58cbde9b;;
  cell_e3bf0346;;
  v1 ← cell_1b199078;
  v2 ← cell_6c7b434c v1;
  cell_f45ea863 v2;;
  cell_0221a658 v2;;
  cell_ade6389d v2;;
  cell_1626526d v2.

End Notebook.

(** ** What a run is observed by *)

Definition world_of {A} (r : result A) : world :=
  match r with
  | Ok _ w => w
  | Raise _ w => w
  | Spin w => w
  end.

(** The calls of [subprocess.Popen] in a trace: command line and environment. *)
Definition launches (tr : list event) : list (list string * gmap string string) :=
  omap (λ ev, match ev with EvPopen argv env => Some (argv, env) | _ => None end) tr.

(** The texts given to [print]. *)
Definition prints (tr : list event) : list string :=
  omap (λ ev, match ev with EvPrint s => Some s | _ => None end) tr.

(** The files written: path and content. *)
Definition writes (tr : list event) : list (string * Fs.file) :=
  omap (λ ev, match ev with EvWrite path f => Some (path, f) | _ => None end) tr.

(** What [list_gz_files(folder_path)] returns in a world. *)
Definition gz_files_of (folder_path : string) (w : world) : list string :=
  flat_map (λ t, match t with
                 | (root, _, files) =>
                     map (Py.os_path_join root)
                       (filter (λ file, Is_true (Py.endswith file ".gz")) files)
                 end)
    (match lookup_path folder_path w with
     | Some t => Fs.walk folder_path t
     | None => []
     end).

(** The image [nib.load(path)] gives, if the file is one. *)
Definition image_at (path : string) (w : world) : option Fs.nifti :=
  match lookup_path path w with
  | Some (Fs.File (Fs.NiftiFile img)) => Some img
  | _ => None
  end.

(** The command line [run_torchrun] builds. *)
Definition torchrun_command (module : string) (module_args : list string)
    (num_gpus : Z) : list string :=
  ["torchrun"; "--nproc_per_node"; Py.str_int num_gpus; "--nnodes"; "1"; "-m"; module]
    ++ module_args.

(** The world after some reads of a child's output: its entry in the process
    table replaced, and the lines printed meanwhile. *)
Definition advance (process : nat) (p : Proc.popen) (out : list string) (w : world)
  : world :=
  {| w_heap := w_heap w; w_fs := w_fs w; w_cwd := w_cwd w; w_environ := w_environ w;
     w_procs := <[process := p]> (w_procs w);
     w_trace := w_trace w ++ map EvPrint out |}.

(** * Predicates of the development and a sample run *)

(** ** What [run_torchrun] leaves behind *)

(** What [run_torchrun] prints once the loop is over: the rest of the
    standard output, and the standard error unless it is empty. *)
Definition epilogue (p : Proc.popen) : list string :=
  Py.concat (Proc.pending_lines (Proc.po_stdout p))
    :: (if Py.truthy (Proc.po_stderr p) then [Proc.po_stderr p] else []).

(** The world [run_torchrun] ends in, from the world [w1] right after the
    launch: the child [p'] as the loop left it, the lines [out] printed. *)
Definition finished (h : nat) (p' : Proc.popen) (out : list string) (w1 : world)
  : world :=
  {| w_heap := w_heap w1; w_fs := Proc.po_fs p'; w_cwd := w_cwd w1;
     w_environ := w_environ w1;
     w_procs := <[h := Proc.with_lag (Proc.with_stdout p' []) 0]> (w_procs w1);
     w_trace := w_trace w1 ++ map EvPrint (out ++ epilogue p') |}.



(** ** Trees in the heap *)

Section HeapPredicates.

Import Heap.

(** [json.load] of a document puts a tree for it at the end of the heap. *)
Definition loads_well (j : json) : Prop :=
  ∀ h, ∃ v ext,
    load j h = Some (v, h ++ ext)
    ∧ holds (h ++ ext) v (length h) (length h + length ext) j.

(** The empty container [copy.deepcopy] allocates for an object, and the
    object once its copied children are in. *)
Definition blank (o : obj) : obj :=
  match o with
  | OList _ => OList []
  | ODict _ => ODict []
  end.

Definition refill (o : obj) (vs : list val) : obj :=
  match o with
  | OList _ => OList vs
  | ODict ms => ODict (zip ms.*1 vs)
  end.

(** Copying a tree that the memo does not know yet: the copy is a tree of
    fresh objects at the end of the heap, it stands for the same document,
    and the memo changes on the original tree only. *)
Definition copies_well (fuel : nat) (h : heap) (v : val) (a b : nat) : Prop :=
  ∀ H (memo : gmap loc loc),
    agree a b h H →
    (∀ l, a ≤ l < b → memo !! l = None) →
    b - a ≤ fuel →
    ∃ v' ext memo',
      deepcopy fuel v (H, memo) = Some (v', (H ++ ext, memo'))
      ∧ span (H ++ ext) v' (length H) (length H + length ext)
      ∧ (∀ n, reify n (H ++ ext) v' = reify n h v)
      ∧ (∀ l, ¬ (a ≤ l < b) → memo' !! l = memo !! l).

(** The depth of the deepest of some documents. *)
Definition max_depth (js : list json) : nat :=
  fold_right (λ x n, Nat.max (Json.depth x) n) 0 js.

(** Two heaps of the same size that differ between [a] and [b] only. *)
Definition same_outside (a b : nat) (h h' : heap) : Prop :=
  length h' = length h ∧ ∀ i, ¬ (a ≤ i < b) → h' !! i = h !! i.

(** [stored h v doc]: the value [v] is a tree in the heap [h] and denotes
    the document [doc]. *)
Definition stored (h : heap) (v : val) (doc : json) : Prop :=
  ∃ a b, holds h v a b doc.

End HeapPredicates.

(** ** Walks and the files beside the embeddings *)

(** The [.gz] paths of some triples of [os.walk], as [list_gz_files]
    collects them. *)
Definition gz_of (triples : list (string * list string * list string)) : list string :=
  flat_map (λ t, match t with
                 | (root, _, files) =>
                     map (Py.os_path_join root)
                       (filter (λ file : string, Is_true (Py.endswith file ".gz")) files)
                 end) triples.

(** The walk of one entry of the directory [top]. *)
Definition walk_child (top : string) (e : string * Fs.node) :=
  match e with (n, c) => Fs.walk (Py.os_path_join top n) c end.

Abbreviation is_gz := (λ file : string, Is_true (Py.endswith file ".gz")).

(** The [.gz] paths below what a look-up of [top] gave. *)
Definition gz_under (top : string) (o : option Fs.node) : list string :=
  match o with
  | Some t => gz_of (Fs.walk top t)
  | None => []
  end.

(** The path [p] denotes the file [f] of the directory [d]; its name ends in
    [.gz] and it holds the image [img]. *)
Definition gz_entry (w : world) (p : string) (d : list string) (f : string)
    (img : Fs.nifti) : Prop :=
  Fs.resolve (w_cwd w) p = Some (d ++ [f])
  ∧ Fs.resolve (w_cwd w) (p +:+ ".json") = Some (d ++ [f +:+ ".json"])
  ∧ Py.endswith f ".gz" = true
  ∧ Fs.get (w_fs w) (d ++ [f]) = Some (Fs.File (Fs.NiftiFile img)).

(** [p] is an image whose [.json] file can be written. *)
Definition ready (w : world) (p : string) : Prop :=
  ∃ d f img, gz_entry w p d f img
    ∧ Fs.is_dir (Fs.get (w_fs w) (d ++ [f +:+ ".json"])) = false.

(** [p] is an image whose [.json] file is written. *)
Definition settled (w : world) (p : string) : Prop :=
  ∃ d f img, gz_entry w p d f img
    ∧ Fs.get (w_fs w) (d ++ [f +:+ ".json"])
      = Some (Fs.File (Fs.JsonFile (sidecar img))).

(** What [create_json_files] does for one file. *)
Definition sidecar_events (w : world) (p : string) : list event :=
  match image_at p w with
  | Some img =>
      [EvLog "data: {}." [sidecar img];
       EvWrite (p +:+ ".json") (Fs.JsonFile (sidecar img))]
  | None => []
  end.

(** Two worlds that differ in the files and the trace only. *)
Definition same_but_files (w w' : world) : Prop :=
  w_heap w' = w_heap w ∧ w_cwd w' = w_cwd w ∧ w_environ w' = w_environ w
  ∧ w_procs w' = w_procs w.

(** The world after the [.json] file of the image [f] in [d] was written. *)
Definition wrote (w w' : world) (d : list string) (f : string) (img : Fs.nifti)
  : Prop :=
  w_cwd w' = w_cwd w
  ∧ Fs.put (d ++ [f +:+ ".json"]) (Fs.JsonFile (sidecar img)) (w_fs w) = Some (w_fs w').

(** The write [create_json_files] makes for one file. *)
Definition sidecar_write (w : world) (p : string) : option (string * Fs.file) :=
  img ← image_at p w; Some (p +:+ ".json", Fs.JsonFile (sidecar img)).


(** The step that writes the [.json] files: cell 0221a658 without its
    look-up of the folder and its last log line. *)
Definition write_sidecars (folder_path : string) : M unit :=
  gz_files ← list_gz_files folder_path;
  create_json_files gz_files.


(** The write of [create_json_files] for one [.gz] file. *)
Definition sidecar_for (p : string) (wr : string * Fs.file) : Prop :=
  ∃ img, wr = (p +:+ ".json", Fs.JsonFile (sidecar img)).

(** ** The cells *)

(** A step is [silent] when it writes no file and starts no process. *)
Definition silent (w w' : world) : Prop :=
  writes (w_trace w') = writes (w_trace w)
  ∧ launches (w_trace w') = launches (w_trace w).

(** The environment configuration after the six assignments of the cell. *)
Definition patch_env (v : sim_vars) (e m o : string) (kvs : list (string * json))
    : list (string * json) :=
  Json.assoc_set "trained_autoencoder_path" JNull
    (Json.assoc_set "output_dir" (JStr (Py.os_path_join (work_dir v) o))
       (Json.assoc_set "model_dir" (JStr (Py.os_path_join (work_dir v) m))
          (Json.assoc_set "json_data_list" (JStr (datalist_file v))
             (Json.assoc_set "embedding_base_dir"
                (JStr (Py.os_path_join (work_dir v) e))
                (Json.assoc_set "data_base_dir" (JStr (dataroot_dir v)) kvs))))).

(** [d[outer][inner] = x] *)
Definition patch_sub (outer inner : string) (x : json)
    (sub kvs : list (string * json)) : list (string * json) :=
  Json.assoc_set outer (JObj (Json.assoc_set inner x sub)) kvs.

(** The three files the configuration cell writes. *)
Definition config_writes (v : sim_vars) (env cfg def : json) : list (string * Fs.file) :=
  [(Py.os_path_join (work_dir v) "environment_maisi_diff_model.json", Fs.JsonFile env);
   (Py.os_path_join (work_dir v) "config_maisi_diff_model.json", Fs.JsonFile cfg);
   (Py.os_path_join (work_dir v) "config_maisi.json", Fs.JsonFile def)].

Section SimulatedImages.

Context (rng : Type) (RandomState : Z → rng).
Context (create_test_image_3d :
           Z → Z → Z → Z → Z → rng → (Fs.ndarray * Fs.ndarray) * rng).
Context (zooms_of_affine : list (list float) → list Fs.float32).

(** The image of one iteration of the loop of cell 1b199078. *)
Definition sim_image : Fs.nifti :=
  Nifti1Image zooms_of_affine
    (create_test_image_3d 224 224 96 10 1 (RandomState 42)).1.1 (np_eye 4).

(** The three files the cell writes. *)
Definition sim_writes : list (string * Fs.file) :=
  [("./temp_work_dir/sim_datalist.json", Fs.JsonFile sim_datalist);
   ("./temp_work_dir/sim_dataroot/tr_image_001.nii.gz", Fs.NiftiFile sim_image);
   ("./temp_work_dir/sim_dataroot/tr_image_002.nii.gz", Fs.NiftiFile sim_image)].

(** The variables the cell leaves. *)
Definition the_sim_vars : sim_vars :=
  {| work_dir := "./temp_work_dir";
     dataroot_dir := "./temp_work_dir/sim_dataroot";
     datalist_file := "./temp_work_dir/sim_datalist.json" |}.

End SimulatedImages.

(** The NIfTI images among some writes. *)
Definition volumes (ws : list (string * Fs.file)) : list (string * Fs.nifti) :=
  omap (λ wr, match wr.2 with Fs.NiftiFile img => Some (wr.1, img) | _ => None end) ws.


(** The same, for the files of the work directory and one GPU. *)
Definition the_stage_commands : list (list string) :=
  map (λ module,
         ["torchrun"; "--nproc_per_node"; "1"; "--nnodes"; "1"; "-m"; module;
          "--env_config"; "./temp_work_dir/environment_maisi_diff_model.json";
          "--model_config"; "./temp_work_dir/config_maisi_diff_model.json";
          "--model_def"; "./temp_work_dir/config_maisi.json"])
    ["scripts.diff_model_create_training_data"; "scripts.diff_model_train";
     "scripts.diff_model_infer"].


(** ** A sample run *)

(** The line feed. *)
Definition newline : string := String "010"%char EmptyString.

(** A generator of test images; a random state is a number, and a draw adds
    one to it. *)
Definition sample_create (h w d rad nseg : Z) (state : Z)
    : (Fs.ndarray * Fs.ndarray) * Z :=
  (({| Fs.nd_shape := [h; w; d]; Fs.nd_data := [0.5%float] |},
    {| Fs.nd_shape := [h; w; d]; Fs.nd_data := [] |}),
   (state + 1)%Z).

(** Voxels of size one. *)
Definition sample_zooms (affine : list (list float)) : list Fs.float32 :=
  [Fs.F32 1; Fs.F32 1; Fs.F32 1].

(** An embedding as the first stage writes it. *)
Definition sample_embedding : Fs.nifti :=
  {| Fs.nii_data := {| Fs.nd_shape := [4; 32; 32; 32]%Z; Fs.nd_data := [] |};
     Fs.nii_affine := np_eye 4;
     Fs.nii_zooms := [Fs.F32 1; Fs.F32 1.25; Fs.F32 0.75; Fs.F32 1] |}.

(** A [torchrun] that prints two lines, logs one line on stderr and, for the
    first stage, leaves one embedding. *)
Definition sample_spawn (argv : list string) (env : gmap string string) (w : world)
    : option Proc.popen :=
  Some {| Proc.po_stdout := [inl ("step 1" +:+ newline); inl ("  done  " +:+ newline)];
          Proc.po_lag := 2;
          Proc.po_returncode := 0;
          Proc.po_stderr := "[INFO] log" +:+ newline;
          Proc.po_fs :=
            match argv !! 6 with
            | Some "scripts.diff_model_create_training_data" =>
                default (w_fs w)
                  (Fs.put ["temp_work_dir"; "embeddings"; "tr_image_001_emb.nii.gz"]
                     (Fs.NiftiFile sample_embedding) (w_fs w))
            | _ => w_fs w
            end |}.

(** The three configuration files, cut down to a few keys. *)
Definition sample_env : json :=
  JObj [("data_base_dir", JStr "./data");
        ("embedding_base_dir", JStr "./embeddings");
        ("json_data_list", JStr "./dataset.json");
        ("model_dir", JStr "./models");
        ("model_filename", JStr "diff_unet_ckpt.pt");
        ("output_dir", JStr "./predictions");
        ("output_prefix", JStr "unet_3d");
        ("trained_autoencoder_path", JStr "models/autoencoder_epoch273.pt")].

(** The model configuration. *)
Definition sample_config : json :=
  JObj [("diffusion_unet_train",
         JObj [("batch_size", JInt 1); ("lr", JFloat 0.0001220703125);
               ("n_epochs", JInt 1000)]);
        ("diffusion_unet_inference",
         JObj [("dim", JArr [JInt 128; JInt 128; JInt 128]); ("random_seed", JNull)])].

(** The model definition. *)
Definition sample_def : json :=
  JObj [("spatial_dims", JInt 3);
        ("autoencoder_def",
         JObj [("_target_", JStr "AutoencoderKlMaisi"); ("num_splits", JInt 16)])].

(** A fresh checkout: the three files under [./configs], nothing else. *)
Definition sample_world : world :=
  {| w_heap := [];
     w_fs := Fs.Dir
               [("configs",
                 Fs.Dir [("environment_maisi_diff_model.json",
                          Fs.File (Fs.JsonFile sample_env));
                         ("config_maisi_diff_model.json",
                          Fs.File (Fs.JsonFile sample_config));
                         ("config_maisi.json", Fs.File (Fs.JsonFile sample_def))])];
     w_cwd := [];
     w_environ := {["PATH" := "/usr/bin"]};
     w_procs := [];
     w_trace := [] |}.

(** The notebook run in it, with seeds for random states. *)
Abbreviation sample_run :=
  (notebook Z id sample_create sample_zooms sample_spawn sample_world).

(** A folder of embeddings, with a file that is none. *)
Definition sample_embeddings : world :=
  {| w_heap := [];
     w_fs := Fs.Dir
               [("embeddings",
                 Fs.Dir [("tr_image_001_emb.nii.gz",
                          Fs.File (Fs.NiftiFile sample_embedding));
                         ("notes.txt", Fs.File (Fs.OtherFile "two volumes"));
                         ("more",
                          Fs.Dir [("tr_image_002_emb.nii.gz",
                                   Fs.File (Fs.NiftiFile sample_embedding))])])];
     w_cwd := [];
     w_environ := ∅;
     w_procs := [];
     w_trace := [] |}.




(** The variables of the configuration cell when it is not run: nothing
    loaded, the paths of the three files. *)
Definition sample_cfg_vars : cfg_vars :=
  {| env_config := Heap.VNone; model_config := Heap.VNone; model_def := Heap.VNone;
     env_config_out := Heap.VNone; model_config_out := Heap.VNone;
     model_def_out := Heap.VNone;
     env_config_filepath := "./temp_work_dir/environment_maisi_diff_model.json";
     model_config_filepath := "./temp_work_dir/config_maisi_diff_model.json";
     model_def_filepath := "./temp_work_dir/config_maisi.json";
     num_gpus := 1 |}.

(** ** The claims on streaming and on the files written, as worded *)




(** ** Further predicates and sample worlds *)

(** What the cell of the simulated data relies on: the work directory is
    there or can be made, no regular file has the name of the data root, and
    no directory has the name of one of the three files. *)
Definition sim_precondition (w : world) : bool :=
  let t := w_fs w in
  let p := w_cwd w ++ ["temp_work_dir"] in
  (Fs.is_dir (Fs.get t p)
   || bool_decide (Fs.get t p = None) && bool_decide (is_Some (Fs.mkdirs p t)))
  && (Fs.is_dir (Fs.get t (p ++ ["sim_dataroot"]))
      || bool_decide (Fs.get t (p ++ ["sim_dataroot"]) = None))
  && negb (Fs.is_dir (Fs.get t (p ++ ["sim_datalist.json"])))
  && negb (Fs.is_dir (Fs.get t (p ++ ["sim_dataroot"; "tr_image_001.nii.gz"])))
  && negb (Fs.is_dir (Fs.get t (p ++ ["sim_dataroot"; "tr_image_002.nii.gz"]))).

(** A step that leaves the files and the list of writes alone. *)
Definition kept (w w' : world) : Prop :=
  w_fs w' = w_fs w ∧ w_cwd w' = w_cwd w ∧ writes (w_trace w') = writes (w_trace w).

(** A step after which every directory is still a directory and every regular
    file, those at the paths [except] apart, holds what it held. *)
Definition grows (except : list (list string)) (w w' : world) : Prop :=
  w_cwd w' = w_cwd w
  ∧ (∀ q, Fs.is_dir (Fs.get (w_fs w) q) = true → Fs.is_dir (Fs.get (w_fs w') q) = true)
  ∧ (∀ q f, Fs.get (w_fs w) q = Some (Fs.File f) → q ∉ except →
            Fs.get (w_fs w') q = Some (Fs.File f)).

(** The names of the three files the configuration cell writes. *)
Definition config_names : list string :=
  ["environment_maisi_diff_model.json"; "config_maisi_diff_model.json";
   "config_maisi.json"].

(** One turn of the loop of [create_json_files]. *)
Definition sidecar_turn (p : string) : M unit :=
  img ← nib_load p;
  logger_info "data: {}." [sidecar img];;
  json_dump_doc (sidecar img) (p +:+ ".json") false (Some 4%Z).

(** The [.gz] files of a tree, each by its names from the root of the tree,
    in the order of the walk. *)
Fixpoint gz_nodes (t : Fs.node) : list (list string) :=
  match t with
  | Fs.File _ => []
  | Fs.Dir es =>
      map (λ f, [f]) (filter is_gz (Fs.filenames es))
        ++ flat_map (λ e, match e with (n, c) => map (cons n) (gz_nodes c) end) es
  end.

(** A listed path leads to the regular file it stands for. *)
Definition leads (cwd pt : list string) (t : Fs.node) (p : string) (q : list string)
  : Prop :=
  Fs.resolve cwd p = Some (pt ++ q) ∧ ∃ file, Fs.get t q = Some (Fs.File file).

(** A [torchrun] that is not installed. *)
Definition missing_spawn (argv : list string) (env : gmap string string) (w : world)
    : option Proc.popen := None.

(** A folder of embeddings in which one [.gz] file is no image. *)
Definition damaged_embeddings : world :=
  {| w_heap := [];
     w_fs := Fs.Dir
               [("embeddings",
                 Fs.Dir [("tr_image_001_emb.nii.gz",
                          Fs.File (Fs.NiftiFile sample_embedding));
                         ("broken.nii.gz", Fs.File (Fs.OtherFile "cut short"));
                         ("tr_image_003_emb.nii.gz",
                          Fs.File (Fs.NiftiFile sample_embedding))])];
     w_cwd := [];
     w_environ := ∅;
     w_procs := [];
     w_trace := [] |}.

(** An environment file without [embedding_base_dir], beside the other two
    files. *)
Definition short_env : json :=
  JObj [("data_base_dir", JStr "./data"); ("model_dir", JStr "./models");
        ("output_dir", JStr "./predictions")].

(** A checkout with that environment file. *)
Definition short_world : world :=
  {| w_heap := [];
     w_fs := Fs.Dir
               [("configs",
                 Fs.Dir [("environment_maisi_diff_model.json",
                          Fs.File (Fs.JsonFile short_env));
                         ("config_maisi_diff_model.json",
                          Fs.File (Fs.JsonFile sample_config));
                         ("config_maisi.json", Fs.File (Fs.JsonFile sample_def))])];
     w_cwd := [];
     w_environ := ∅;
     w_procs := [];
     w_trace := [] |}.

(** * Properties *)

(** ** Streaming the output of a child *)



Lemma advance_nil h p w :
  w_procs w !! h = Some p → advance h p [] w = w.
Proof.
  intros Hp. destruct w as [hp fs cwd env ps tr]. unfold advance. simpl in *.
  rewrite list_insert_id by done. by rewrite app_nil_r.
Qed.

Lemma advance_advance h p1 p2 out1 out2 w :
  advance h p2 out2 (advance h p1 out1 w) = advance h p2 (out1 ++ out2) w.
Proof.
  unfold advance. simpl. rewrite list_insert_insert_eq.
  by rewrite map_app, app_assoc.
Qed.

Lemma advance_lookup h p out w :
  h < length (w_procs w) → w_procs (advance h p out w) !! h = Some p.
Proof. intros Hlt. simpl. by apply list_lookup_insert_eq. Qed.

Lemma emit_advance h p out s w :
  emit (EvPrint s) (advance h p out w) = advance h p (out ++ [s]) w.
Proof. unfold emit, advance. simpl. rewrite map_app. simpl. by rewrite <- app_assoc. Qed.

Lemma eqb_empty_false s : s ≠ "" → String.eqb s "" = false.
Proof. intros Hs. by apply String.eqb_neq. Qed.

(** One iteration that reads a non-empty line prints it, stripped. *)
Lemma stream_output_line fuel h w p s rest :
  w_procs w !! h = Some p →
  Proc.po_stdout p = inl s :: rest →
  s ≠ "" →
  stream_output (S fuel) h w
  = stream_output fuel h (advance h (Proc.with_stdout p rest) [Py.strip s] w).
Proof.
  intros Hp Hout Hs. simpl. unfold mbind, M_bind, readline at 1.
  rewrite Hp, Hout. rewrite (eqb_empty_false s Hs). simpl.
  unfold Py.truthy. rewrite (eqb_empty_false s Hs). simpl.
  unfold mbind, M_bind, print. done.
Qed.


(** At the end of the stream, a child that has exited ends the loop. *)
Lemma stream_output_exit fuel h w p :
  w_procs w !! h = Some p →
  Proc.po_stdout p = [] →
  Proc.po_lag p = 0 →
  stream_output (S fuel) h w = Ok tt w.
Proof.
  intros Hp Hout Hlag. simpl. unfold mbind, M_bind, readline at 1.
  rewrite Hp, Hout. simpl. unfold mbind, M_bind, poll. by rewrite Hp, Hlag.
Qed.

(** At the end of the stream, a child still running is polled again. *)
Lemma stream_output_wait fuel h w p lag :
  w_procs w !! h = Some p →
  Proc.po_stdout p = [] →
  Proc.po_lag p = S lag →
  stream_output (S fuel) h w
  = stream_output fuel h (advance h (Proc.with_lag p lag) [] w).
Proof.
  intros Hp Hout Hlag. cbn [stream_output].
  unfold mbind, M_bind, readline at 1. rewrite Hp, Hout.
  cbn -[stream_output]. unfold mbind, M_bind, poll at 1. rewrite Hp, Hlag.
  cbn -[stream_output]. unfold advance, set_procs. simpl. by rewrite app_nil_r.
Qed.

(** An empty read while the child has exited ends the loop as well. *)
Lemma stream_output_empty_exit fuel h w p rest :
  w_procs w !! h = Some p →
  Proc.po_stdout p = inl "" :: rest →
  Proc.po_lag p = 0 →
  stream_output (S fuel) h w = Ok tt (advance h (Proc.with_stdout p rest) [] w).
Proof.
  intros Hp Hout Hlag. cbn [stream_output].
  unfold mbind, M_bind, readline at 1. rewrite Hp, Hout.
  cbn -[stream_output]. unfold mbind, M_bind, poll at 1. cbn -[stream_output].
  rewrite list_lookup_insert_eq by (by eapply lookup_lt_Some).
  cbn -[stream_output]. rewrite Hlag. cbn -[stream_output].
  unfold advance, set_procs. simpl. by rewrite app_nil_r.
Qed.

Lemma stream_output_empty_wait fuel h w p rest lag :
  w_procs w !! h = Some p →
  Proc.po_stdout p = inl "" :: rest →
  Proc.po_lag p = S lag →
  stream_output (S fuel) h w
  = stream_output fuel h
      (advance h (Proc.with_lag (Proc.with_stdout p rest) lag) [] w).
Proof.
  intros Hp Hout Hlag. cbn [stream_output].
  unfold mbind, M_bind, readline at 1. rewrite Hp, Hout.
  cbn -[stream_output]. unfold mbind, M_bind, poll at 1. cbn -[stream_output].
  rewrite list_lookup_insert_eq by (by eapply lookup_lt_Some).
  cbn -[stream_output]. rewrite Hlag. cbn -[stream_output].
  unfold advance, set_procs. simpl.
  by rewrite list_insert_insert_eq, app_nil_r.
Qed.


(** A read that fails raises. *)
Lemma stream_output_fault fuel h w p msg rest :
  w_procs w !! h = Some p →
  Proc.po_stdout p = inr msg :: rest →
  stream_output (S fuel) h w
  = Raise (Exception msg) (advance h (Proc.with_stdout p rest) [] w).
Proof.
  intros Hp Hout. simpl. unfold mbind, M_bind, readline at 1. rewrite Hp, Hout.
  unfold advance. simpl. by rewrite app_nil_r.
Qed.

(** With the fuel [run_torchrun] gives it, the loop is never cut off: it ends
    normally or with the exception of a read, having only printed and read. *)
Lemma stream_output_ends fuel : ∀ h w p,
  w_procs w !! h = Some p →
  length (Proc.po_stdout p) + Proc.po_lag p < fuel →
  ∃ p' out,
    (stream_output fuel h w = Ok tt (advance h p' out w)
     ∨ ∃ msg, stream_output fuel h w = Raise (Exception msg) (advance h p' out w))
    ∧ Proc.po_stderr p' = Proc.po_stderr p
    ∧ Proc.po_fs p' = Proc.po_fs p.
Proof.
  induction fuel as [|fuel IH]; intros h w p Hp Hlt; [lia|].
  assert (Hh : h < length (w_procs w)) by by eapply lookup_lt_Some.
  assert (Hnext : ∀ p1 out1,
    Proc.po_stderr p1 = Proc.po_stderr p → Proc.po_fs p1 = Proc.po_fs p →
    length (Proc.po_stdout p1) + Proc.po_lag p1 < fuel →
    stream_output (S fuel) h w = stream_output fuel h (advance h p1 out1 w) →
    ∃ p' out,
      (stream_output (S fuel) h w = Ok tt (advance h p' out w)
       ∨ ∃ msg, stream_output (S fuel) h w
                = Raise (Exception msg) (advance h p' out w))
      ∧ Proc.po_stderr p' = Proc.po_stderr p
      ∧ Proc.po_fs p' = Proc.po_fs p).
  { intros p1 out1 He1 Hf1 Hlt1 Hstep.
    destruct (IH h (advance h p1 out1 w) p1) as (p' & out & Hres & He & Hf);
      [by apply advance_lookup|done|].
    exists p', (out1 ++ out). rewrite Hstep. rewrite advance_advance in Hres.
    split_and!; [done|congruence|congruence]. }
  destruct (Proc.po_stdout p) as [|[s|msg] rest] eqn:Hout.
  - (* the end of the stream *)
    destruct (Proc.po_lag p) as [|lag] eqn:Hlag.
    + exists p, []. split_and!; [left|done|done].
      rewrite advance_nil by done. by eapply stream_output_exit.
    + apply (Hnext (Proc.with_lag p lag) []); [done|done| |].
      * simpl. rewrite Hout. simpl in *. lia.
      * by eapply stream_output_wait.
  - (* a line *)
    destruct (String.eqb_spec s "") as [->|Hs].
    + destruct (Proc.po_lag p) as [|lag] eqn:Hlag.
      * exists (Proc.with_stdout p rest), []. split_and!; [left|done|done].
        by eapply stream_output_empty_exit.
      * apply (Hnext (Proc.with_lag (Proc.with_stdout p rest) lag) []);
          [done|done| |].
        -- simpl. simpl in Hlt. lia.
        -- by eapply stream_output_empty_wait.
    + apply (Hnext (Proc.with_stdout p rest) [Py.strip s]); [done|done| |].
      * simpl. simpl in Hlt. lia.
      * by eapply stream_output_line.
  - (* a failing read *)
    exists (Proc.with_stdout p rest), []. split_and!; [right|done|done].
    exists msg. by apply stream_output_fault.
Qed.

(** ** [run_torchrun] *)

Lemma try_finally_Ok {A} (body : M A) cleanup w a w1 w2 :
  body w = Ok a w1 → cleanup w1 = Ok tt w2 → try_finally body cleanup w = Ok a w2.
Proof. intros Hb Hc. unfold try_finally, mbind, M_bind. by rewrite Hb, Hc. Qed.

Lemma try_except_Ok {A} (body : M A) handler w a w1 :
  body w = Ok a w1 → try_except body handler w = Ok a w1.
Proof. intros Hb. unfold try_except. by rewrite Hb. Qed.

Lemma try_except_Raise {A} (body : M A) handler w e w1 :
  body w = Raise e w1 → try_except body handler w = handler e w1.
Proof. intros Hb. unfold try_except. by rewrite Hb. Qed.

Lemma launches_app tr1 tr2 : launches (tr1 ++ tr2) = launches tr1 ++ launches tr2.
Proof. unfold launches. by rewrite omap_app. Qed.

Lemma launches_prints out : launches (map EvPrint out) = [].
Proof. induction out; [done|]. done. Qed.

Lemma prints_app tr1 tr2 : prints (tr1 ++ tr2) = prints tr1 ++ prints tr2.
Proof. unfold prints. by rewrite omap_app. Qed.


Section RunTorchrun.

Context (spawn : list string → gmap string string → world → option Proc.popen).
Context (module : string) (module_args : list string) (num_gpus : Z).

Let argv := torchrun_command module module_args num_gpus.

(** The [finally] block. *)
Lemma epilogue_runs h p' out w1 :
  h < length (w_procs w1) →
  (out0 ← communicate h; print out0.1;; when (Py.truthy out0.2) (print out0.2))
    (advance h p' out w1)
  = Ok tt (finished h p' out w1).
Proof.
  intros Hh. unfold mbind, M_bind, communicate.
  rewrite advance_lookup by done. simpl.
  unfold finished, epilogue, print.
  destruct (Py.truthy (Proc.po_stderr p')); simpl.
  - f_equal. unfold emit, set_fs, set_procs, advance. simpl. f_equal.
    + by rewrite list_insert_insert_eq.
    + rewrite map_app. simpl. by rewrite <- !app_assoc.
  - f_equal. unfold emit, set_fs, set_procs, advance. simpl. f_equal.
    + by rewrite list_insert_insert_eq.
    + rewrite map_app. simpl. by rewrite <- !app_assoc.
Qed.

Lemma run_torchrun_unfold w :
  run_torchrun spawn module module_args num_gpus w
  = let env := <["OMP_NUM_THREADS" := "1"]> (w_environ w) in
    match spawn argv env w with
    | None => Raise (OSError "torchrun") (emit (EvPopen argv env) w)
    | Some p =>
        let h := length (w_procs w) in
        let w1 := emit (EvPopen argv env) (set_procs (w_procs w ++ [p]) w) in
        try_finally
          (try_except (stream_output (S (length (Proc.po_stdout p) + Proc.po_lag p)) h)
             (λ e, print ("An error occurred: " +:+ exn_str e)))
          (out0 ← communicate h; print out0.1;; when (Py.truthy out0.2) (print out0.2))
          w1
    end.
Proof.
  assert (Hargv : ["torchrun"; "--nproc_per_node"; Py.str_int num_gpus;
                   "--nnodes"; Py.str_int 1; "-m"; module] ++ module_args = argv)
    by (vm_compute; reflexivity).
  unfold run_torchrun. rewrite Hargv.
  unfold mbind, M_bind, os_environ_copy, subprocess_Popen.
  destruct (spawn argv _ w) as [p|]; [|reflexivity].
  unfold try_finally, try_except, stream_fuel. cbn -[stream_output].
  by rewrite list_lookup_middle.
Qed.

(** Whatever the child does, [run_torchrun] returns, and it returns [None]. *)
Lemma run_torchrun_returns w p :
  spawn argv (<["OMP_NUM_THREADS" := "1"]> (w_environ w)) w = Some p →
  ∃ p' out,
    run_torchrun spawn module module_args num_gpus w
    = Ok tt (finished (length (w_procs w)) p' out
               (emit (EvPopen argv (<["OMP_NUM_THREADS" := "1"]> (w_environ w)))
                  (set_procs (w_procs w ++ [p]) w)))
    ∧ Proc.po_stderr p' = Proc.po_stderr p
    ∧ Proc.po_fs p' = Proc.po_fs p.
Proof.
  intros Hsp. rewrite run_torchrun_unfold. cbv zeta. rewrite Hsp.
  set (w1 := emit _ _). set (h := length (w_procs w)).
  assert (Hp : w_procs w1 !! h = Some p) by (simpl; by rewrite list_lookup_middle).
  assert (Hh : h < length (w_procs w1)) by by eapply lookup_lt_Some.
  destruct (stream_output_ends (S (length (Proc.po_stdout p) + Proc.po_lag p)) h w1 p)
    as (p' & out & [Hres | [msg Hres]] & He & Hf); [done|lia| |].
  - exists p', out. split_and!; [|done|done].
    eapply try_finally_Ok; [by apply try_except_Ok|by apply epilogue_runs].
  - exists p', (out ++ ["An error occurred: " +:+ msg]). split_and!; [|done|done].
    eapply try_finally_Ok.
    + erewrite try_except_Raise by done. reflexivity.
    + rewrite emit_advance. by apply epilogue_runs.
Qed.


End RunTorchrun.

(** ** The heap: trees, frames, [json.load] and [copy.deepcopy] *)

Section HeapTheory.

Import Heap.

Scheme span_mut := Minimality for span Sort Prop
  with chain_mut := Minimality for chain Sort Prop.
Combined Scheme span_chain_ind from span_mut, chain_mut.

Lemma mapM_ST_cons {S A B} (f : A → ST S B) x xs s :
  mapM f (x :: xs) s
  = match f x s with
    | Some (y, s1) =>
        match mapM f xs s1 with
        | Some (ys, s2) => Some (y :: ys, s2)
        | None => None
        end
    | None => None
    end.
Proof.
  simpl. unfold mbind, ST_bind. destruct (f x s) as [[y s1]|]; [|done].
  by destruct (mapM f xs s1) as [[ys s2]|].
Qed.

(** Mapping over the members of a dictionary is mapping over its values. *)
Lemma mapM_ST_keyed {S A B} (f : A → ST S B) (ms : list (string * A)) s :
  mapM (λ kv, match kv with (k, x) => y ← f x; mret (k, y) end) ms s
  = match mapM f ms.*2 s with
    | Some (ys, s') => Some (zip ms.*1 ys, s')
    | None => None
    end.
Proof.
  revert s. induction ms as [|[k x] ms IH]; intros s; [done|].
  rewrite fmap_cons, mapM_ST_cons. cbn [snd].
  rewrite (mapM_ST_cons f). unfold mbind at 1, ST_bind at 1.
  destruct (f x s) as [[y s1]|]; [|done]. cbn.
  rewrite IH. by destruct (mapM f ms.*2 s1) as [[ys s2]|].
Qed.

Lemma mapM_option_keyed {A B} (g : A → option B) (ms : list (string * A)) :
  mapM (λ kv, match kv with (k, x) => j ← g x; Some (k, j) end) ms
  = zip ms.*1 <$> mapM g ms.*2.
Proof.
  induction ms as [|[k x] ms IH]; [done|].
  cbn. destruct (g x) as [j|]; [|done]. cbn. rewrite IH.
  by destruct (mapM g ms.*2).
Qed.

Lemma reify_ref n h l :
  reify (S n) h (VRef l)
  = o ← h !! l;
    match o with
    | OList vs => JArr <$> mapM (reify n h) vs
    | ODict ms => JObj ∘ zip ms.*1 <$> mapM (reify n h) ms.*2
    end.
Proof.
  cbn [reify]. destruct (h !! l) as [[vs|ms]|]; cbn; [done| |done].
  rewrite mapM_option_keyed. by destruct (mapM _ _).
Qed.

Lemma reify_atom n h v j : atom_json v = Some j → reify n h v = Some j.
Proof. by destruct v, n. Qed.

(** *** Layout *)

Lemma span_chain_le h :
  (∀ v a b, span h v a b → a ≤ b ≤ length h)
  ∧ (∀ vs a b, chain h vs a b → a ≤ b ≤ length h).
Proof. apply span_chain_ind; intros; lia. Qed.

Lemma span_le h v a b : span h v a b → a ≤ b ≤ length h.
Proof. apply span_chain_le. Qed.

Lemma chain_le h vs a b : chain h vs a b → a ≤ b ≤ length h.
Proof. apply span_chain_le. Qed.

Lemma span_chain_weaken h :
  (∀ v a b, span h v a b → ∀ a' b', a' ≤ a → b ≤ b' ≤ length h → span h v a' b')
  ∧ (∀ vs a b, chain h vs a b → ∀ a' b', a' ≤ a → b ≤ b' ≤ length h → chain h vs a' b').
Proof.
  apply span_chain_ind.
  - intros v a b Hv Hab Hb a' b' Ha' Hb'. apply span_atom; [done|lia|lia].
  - intros l o a b Hal Hl _ IH a' b' Ha' Hb'.
    eapply span_ref; [lia|done|]. apply IH; [lia|done].
  - intros a b Hab Hb a' b' Ha' Hb'. apply chain_nil; lia.
  - intros v vs a m b Hv IHv Hvs IHvs a' b' Ha' Hb'.
    apply chain_le in Hvs as Hmb.
    apply (chain_cons h v vs a' m b'); [apply IHv; lia|apply IHvs; lia].
Qed.

Lemma span_weaken h v a b a' b' :
  span h v a b → a' ≤ a → b ≤ b' ≤ length h → span h v a' b'.
Proof. intros H. by apply span_chain_weaken. Qed.

Lemma chain_weaken h vs a b a' b' :
  chain h vs a b → a' ≤ a → b ≤ b' ≤ length h → chain h vs a' b'.
Proof. intros H. by apply span_chain_weaken. Qed.

Lemma agree_refl a b h : agree a b h h.
Proof. by split. Qed.

Lemma agree_sub a b a' b' h h' :
  agree a b h h' → a ≤ a' → b' ≤ b → agree a' b' h h'.
Proof. intros [Hlen Hag] Ha Hb. split; [done|]. intros l Hl. apply Hag. lia. Qed.

Lemma agree_trans a b h1 h2 h3 :
  agree a b h1 h2 → agree a b h2 h3 → agree a b h1 h3.
Proof.
  intros [Hl1 H1] [Hl2 H2]. split; [lia|]. intros l Hl.
  by rewrite H2, H1.
Qed.

Lemma agree_app a b h ext : b ≤ length h → agree a b h (h ++ ext).
Proof.
  intros Hb. split; [rewrite length_app; lia|].
  intros l Hl. apply lookup_app_l. lia.
Qed.

Lemma agree_insert a b h l o : ¬ (a ≤ l < b) → agree a b h (<[l := o]> h).
Proof.
  intros Hl. split; [by rewrite length_insert|].
  intros l' Hl'. apply list_lookup_insert_ne. lia.
Qed.

(** A tree stays a tree when the heap changes outside of it. *)
Lemma span_chain_agree h :
  (∀ v a b, span h v a b → ∀ h', agree a b h h' → span h' v a b)
  ∧ (∀ vs a b, chain h vs a b → ∀ h', agree a b h h' → chain h' vs a b).
Proof.
  apply span_chain_ind.
  - intros v a b Hv Hab Hb h' [Hlen _]. apply span_atom; [done|lia|lia].
  - intros l o a b Hal Hl Hch IH h' Hag.
    apply chain_le in Hch as Hlb.
    eapply span_ref; [done| |].
    + destruct Hag as [_ Hag]. rewrite Hag; [done|lia].
    + apply IH. eapply agree_sub; [done|lia|lia].
  - intros a b Hab Hb h' [Hlen _]. apply chain_nil; lia.
  - intros v vs a m b Hv IHv Hvs IHvs h' Hag.
    apply span_le in Hv as Ham. apply chain_le in Hvs as Hmb.
    eapply chain_cons; [apply IHv|apply IHvs]; (eapply agree_sub; [done|lia|lia]).
Qed.

Lemma span_agree h h' v a b : span h v a b → agree a b h h' → span h' v a b.
Proof. intros H. by apply span_chain_agree. Qed.

Lemma chain_agree h h' vs a b : chain h vs a b → agree a b h h' → chain h' vs a b.
Proof. intros H. by apply span_chain_agree. Qed.

(** The document of a tree depends on the heap inside the tree only. *)
Lemma reify_agree_mut h :
  (∀ v a b, span h v a b →
     ∀ h' n, agree a b h h' → reify n h' v = reify n h v)
  ∧ (∀ vs a b, chain h vs a b →
     ∀ h' n, agree a b h h' → mapM (reify n h') vs = mapM (reify n h) vs).
Proof.
  apply span_chain_ind.
  - intros v a b [j Hj] _ _ h' n _. by rewrite !(reify_atom _ _ _ j).
  - intros l o a b Hal Hl Hch IH h' n Hag.
    apply chain_le in Hch as Hlb.
    destruct n as [|n]; [done|]. rewrite !reify_ref.
    destruct Hag as [Hlen Hag]. rewrite Hag by lia. rewrite !Hl. cbn.
    assert (Hag' : agree (S l) b h h') by (split; [done|intros; apply Hag; lia]).
    destruct o as [vs|ms]; cbn [children] in IH.
    + by rewrite (IH h' n Hag').
    + by rewrite (IH h' n Hag').
  - done.
  - intros v vs a m b Hv IHv Hvs IHvs h' n Hag.
    apply span_le in Hv as Ham. apply chain_le in Hvs as Hmb.
    cbn. rewrite (IHv h' n), (IHvs h' n); [done| |];
      (eapply agree_sub; [done|lia|lia]).
Qed.

Lemma reify_agree h h' v a b n :
  span h v a b → agree a b h h' → reify n h' v = reify n h v.
Proof. intros H. by apply reify_agree_mut. Qed.

Lemma mapM_reify_agree h h' vs a b n :
  chain h vs a b → agree a b h h' → mapM (reify n h') vs = mapM (reify n h) vs.
Proof. intros H. by apply reify_agree_mut. Qed.

Lemma holds_agree h h' v a b doc :
  holds h v a b doc → agree a b h h' → holds h' v a b doc.
Proof.
  intros [Hsp [n Hre]] Hag. split; [by eapply span_agree|].
  exists n. by rewrite (reify_agree h h' v a b).
Qed.

(** More fuel does not change a document. *)
Lemma reify_mono n : ∀ h v j m, reify n h v = Some j → n ≤ m → reify m h v = Some j.
Proof.
  induction n as [|n IH]; intros h v j m Hre Hnm.
  - destruct v; by destruct m.
  - destruct v; try (by destruct m).
    destruct m as [|m]; [lia|]. rewrite reify_ref in *.
    destruct (h !! l) as [o|]; [|done]. cbn in *.
    assert (Hmap : ∀ vs js, mapM (reify n h) vs = Some js → mapM (reify m h) vs = Some js).
    { intros vs js Hm. apply mapM_Some in Hm. apply mapM_Some.
      eapply Forall2_impl; [done|]. intros x y Hxy. eapply IH; [done|lia]. }
    destruct o as [vs|ms].
    + destruct (mapM (reify n h) vs) as [js|] eqn:E; [|done].
      by rewrite (Hmap _ _ E).
    + destruct (mapM (reify n h) ms.*2) as [js|] eqn:E; [|done].
      by rewrite (Hmap _ _ E).
Qed.

Lemma mapM_reify_mono n m h vs js :
  mapM (reify n h) vs = Some js → n ≤ m → mapM (reify m h) vs = Some js.
Proof.
  intros Hm Hnm. apply mapM_Some in Hm. apply mapM_Some.
  eapply Forall2_impl; [done|]. intros x y Hxy. by apply (reify_mono n).
Qed.

(** *** [json.load] *)

Lemma json_ind' (P : json → Prop) :
  P JNull → (∀ b, P (JBool b)) → (∀ n, P (JInt n)) → (∀ x, P (JFloat x)) →
  (∀ s, P (JStr s)) →
  (∀ xs, Forall P xs → P (JArr xs)) →
  (∀ kvs, Forall P kvs.*2 → P (JObj kvs)) →
  ∀ j, P j.
Proof.
  intros HN HB HI HF HS HA HO. fix IH 1.
  intros [|b|n|x|s|xs|kvs]; [apply HN|apply HB|apply HI|apply HF|apply HS| |].
  - apply HA. induction xs as [|x xs IHxs]; constructor; [apply IH|apply IHxs].
  - apply HO. induction kvs as [|[k x] kvs IHkvs]; constructor; [apply IH|apply IHkvs].
Qed.

Lemma insert_placeholder (h : heap) o0 o ext :
  <[length h := o]> ((h ++ [o0]) ++ ext) = h ++ o :: ext.
Proof.
  rewrite <- app_assoc. rewrite insert_app_r_alt by lia.
  by rewrite Nat.sub_diag.
Qed.

Lemma depth_arr_le xs x n : Json.depth (JArr xs) ≤ S n → x ∈ xs → Json.depth x ≤ n.
Proof.
  cbn. intros Hd Hx. apply le_S_n in Hd.
  induction xs as [|y xs IH]; [by apply elem_of_nil in Hx|].
  cbn in Hd. apply elem_of_cons in Hx as [->|Hx]; [lia|]. apply IH; [lia|done].
Qed.

Lemma depth_obj_arr kvs : Json.depth (JObj kvs) = Json.depth (JArr kvs.*2).
Proof. cbn. f_equal. induction kvs as [|[k x] kvs IH]; [done|]. cbn. by rewrite IH. Qed.

Lemma depth_arr_pos xs : 1 ≤ Json.depth (JArr xs).
Proof. cbn. lia. Qed.

Lemma load_children xs :
  Forall loads_well xs →
  ∀ h, ∃ vs ext,
    mapM load xs h = Some (vs, h ++ ext)
    ∧ chain (h ++ ext) vs (length h) (length h + length ext)
    ∧ ∃ n, mapM (reify n (h ++ ext)) vs = Some xs.
Proof.
  induction 1 as [|x xs Hx _ IH]; intros h.
  - exists [], []. rewrite app_nil_r. split_and!; [done| |by exists 0].
    apply chain_nil; cbn; lia.
  - destruct (Hx h) as (v & ext1 & Hv & Hsp & n1 & Hre).
    destruct (IH (h ++ ext1)) as (vs & ext2 & Hvs & Hch & n2 & Hres).
    exists (v :: vs), (ext1 ++ ext2). rewrite mapM_ST_cons, Hv, Hvs.
    rewrite !app_assoc. rewrite <- !app_assoc.
    assert (Hag : agree (length h) (length h + length ext1) (h ++ ext1)
                    (h ++ ext1 ++ ext2)).
    { rewrite (app_assoc h). apply agree_app. rewrite length_app. lia. }
    rewrite <- (app_assoc h) in Hch. rewrite !length_app in Hch.
    split_and!; [done| |].
    + rewrite length_app.
      eapply chain_cons; [by eapply span_agree|].
      by rewrite Nat.add_assoc.
    + exists (n1 `max` n2). cbn.
      rewrite (reify_agree (h ++ ext1) _ v _ _ _ Hsp Hag).
      rewrite (reify_mono n1 _ _ _ (n1 `max` n2) Hre) by lia.
      cbn. rewrite <- (app_assoc h) in Hres.
      by rewrite (mapM_reify_mono n2 (n1 `max` n2) _ _ _ Hres) by lia.
Qed.

(** Filling in a container after its children were laid out behind it. *)
Lemma fill_container (o0 o : obj) (h : heap) vs ext :
  chain ((h ++ [o0]) ++ ext) vs (length (h ++ [o0])) (length (h ++ [o0]) + length ext) →
  children o = vs →
  span (h ++ o :: ext) (VRef (length h)) (length h) (length h + length (o :: ext))
  ∧ ∀ n, mapM (reify n (h ++ o :: ext)) vs
         = mapM (reify n ((h ++ [o0]) ++ ext)) vs.
Proof.
  intros Hch Hmk. rewrite length_app in Hch. cbn in Hch.
  assert (Hag : agree (S (length h)) (length h + 1 + length ext)
                  ((h ++ [o0]) ++ ext) (h ++ o :: ext)).
  { rewrite <- (insert_placeholder h o0 o ext). apply agree_insert. lia. }
  rewrite Nat.add_1_r in Hch, Hag.
  split.
  - eapply span_ref; [done|by apply list_lookup_middle|].
    rewrite Hmk. cbn.
    replace (length h + S (length ext)) with (S (length h) + length ext) by lia.
    by eapply chain_agree.
  - intros n. by eapply mapM_reify_agree.
Qed.

Lemma load_arr xs h :
  load (JArr xs) h
  = match mapM load xs (h ++ [OList []]) with
    | Some (vs, h') => Some (VRef (length h), <[length h := OList vs]> h')
    | None => None
    end.
Proof. reflexivity. Qed.

Lemma load_obj kvs h :
  load (JObj kvs) h
  = match mapM load kvs.*2 (h ++ [ODict []]) with
    | Some (vs, h') =>
        Some (VRef (length h), <[length h := ODict (zip kvs.*1 vs)]> h')
    | None => None
    end.
Proof.
  transitivity
    (match mapM (λ kv, match kv with (k, x) => v ← load x; mret (k, v) end) kvs
             (h ++ [ODict []]) with
     | Some (ms, h') => Some (VRef (length h), <[length h := ODict ms]> h')
     | None => None
     end); [reflexivity|].
  rewrite mapM_ST_keyed. by destruct (mapM load kvs.*2 _) as [[vs h']|].
Qed.

Lemma load_spec j : loads_well j.
Proof.
  induction j as [|b|n|x|s|xs IH|kvs IH] using json_ind'; intros h.
  1-5: (eexists _, []; rewrite app_nil_r; split; [reflexivity|]; split;
        [apply span_atom; [by eexists|lia|cbn; lia] | by exists 0]).
  - destruct (load_children xs IH (h ++ [OList []])) as (vs & ext & Hvs & Hch & n & Hre).
    exists (VRef (length h)), (OList vs :: ext). split.
    + rewrite load_arr, Hvs. by rewrite insert_placeholder.
    + destruct (fill_container (OList []) (OList vs) h vs ext Hch eq_refl)
        as [Hsp Hmap].
      split; [done|]. exists (S n).
      rewrite reify_ref, list_lookup_middle by done. cbn.
      by rewrite Hmap, Hre.
  - destruct (load_children kvs.*2 IH (h ++ [ODict []]))
      as (vs & ext & Hvs & Hch & n & Hre).
    assert (Hlen : length vs = length kvs).
    { apply length_mapM in Hre as Hlen. by rewrite length_fmap in Hlen. }
    exists (VRef (length h)), (ODict (zip kvs.*1 vs) :: ext). split.
    + rewrite load_obj, Hvs. by rewrite insert_placeholder.
    + destruct (fill_container (ODict []) (ODict (zip kvs.*1 vs)) h vs ext)
        as [Hsp Hmap]; [done| |].
      { cbn. rewrite snd_zip; [done|]. rewrite length_fmap. lia. }
      split; [done|]. exists (S n).
      rewrite reify_ref, list_lookup_middle by done. cbn.
      rewrite snd_zip by (rewrite length_fmap; lia).
      rewrite fst_zip by (rewrite length_fmap; lia).
      rewrite Hmap, Hre.
      cbn. by rewrite zip_fst_snd.
Qed.

(** *** [copy.deepcopy] *)

Lemma deepcopy_atom fuel v st : is_Some (atom_json v) → deepcopy fuel v st = Some (v, st).
Proof. intros [j Hj]. by destruct v, fuel. Qed.

Lemma deepcopy_ref fuel l (H : heap) (memo : gmap loc loc) :
  deepcopy fuel (VRef l) (H, memo)
  = match memo !! l with
    | Some l' => Some (VRef l', (H, memo))
    | None =>
        match fuel with
        | O => None
        | S fuel' =>
            match H !! l with
            | Some o =>
                match mapM (deepcopy fuel') (children o)
                        (H ++ [blank o], <[l := length H]> memo) with
                | Some (vs', (H', memo')) =>
                    Some (VRef (length H), (<[length H := refill o vs']> H', memo'))
                | None => None
                end
            | None => None
            end
        end
    end.
Proof.
  destruct fuel as [|fuel']; cbn [deepcopy]; unfold mbind at 1, ST_bind at 1; cbn.
  - by destruct (memo !! l).
  - destruct (memo !! l); [done|]. destruct (H !! l) as [[vs|ms]|]; [| |done].
    + cbn. unfold mbind at 1, ST_bind at 1. cbn.
      unfold mbind at 1, ST_bind at 1.
      by destruct (mapM (deepcopy fuel') vs _) as [[vs' [H' memo']]|].
    + cbn. unfold mbind at 1, ST_bind at 1. cbn.
      unfold mbind at 1, ST_bind at 1.
      rewrite mapM_ST_keyed.
      by destruct (mapM (deepcopy fuel') ms.*2 _) as [[vs' [H' memo']]|].
Qed.

Lemma children_refill o vs : length vs = length (children o) → children (refill o vs) = vs.
Proof.
  destruct o as [ws|ms]; [done|]. cbn. intros Hlen.
  rewrite snd_zip; [done|]. rewrite !length_fmap in *. lia.
Qed.

Lemma reify_refill n (h1 h2 : heap) o vs' l l' :
  h1 !! l = Some o → h2 !! l' = Some (refill o vs') →
  length vs' = length (children o) →
  mapM (reify n h2) vs' = mapM (reify n h1) (children o) →
  reify (S n) h2 (VRef l') = reify (S n) h1 (VRef l).
Proof.
  intros Hl Hl' Hlen Hmap. rewrite !reify_ref, Hl, Hl'. cbn.
  destruct o as [vs|ms]; cbn in *; [by rewrite Hmap|].
  rewrite snd_zip by (rewrite !length_fmap in *; lia).
  rewrite fst_zip by (rewrite !length_fmap in *; lia).
  by rewrite Hmap.
Qed.

Lemma deepcopy_children fuel h :
  (∀ v a b, span h v a b → copies_well fuel h v a b) →
  ∀ vs a b, chain h vs a b →
  ∀ H (memo : gmap loc loc),
    agree a b h H →
    (∀ l, a ≤ l < b → memo !! l = None) →
    b - a ≤ fuel →
    ∃ vs' ext memo',
      mapM (deepcopy fuel) vs (H, memo) = Some (vs', (H ++ ext, memo'))
      ∧ chain (H ++ ext) vs' (length H) (length H + length ext)
      ∧ length vs' = length vs
      ∧ (∀ n, mapM (reify n (H ++ ext)) vs' = mapM (reify n h) vs)
      ∧ (∀ l, ¬ (a ≤ l < b) → memo' !! l = memo !! l).
Proof.
  intros IHfuel vs a b Hch.
  induction Hch as [a b Hab Hb|v vs a m b Hv Hvs IH]; intros H memo Hag Hmemo Hfuel.
  - exists [], [], memo. rewrite app_nil_r. split_and!; try done.
    destruct Hag as [Hlen _]. apply chain_nil; cbn; lia.
  - apply span_le in Hv as Ham. apply chain_le in Hvs as Hmb.
    destruct (IHfuel v a m Hv H memo) as (v' & ext1 & memo1 & Hcp & Hsp & Hre & Hm1).
    { eapply agree_sub; [done|lia|lia]. }
    { intros l Hl. apply Hmemo. lia. }
    { lia. }
    destruct (IH (H ++ ext1) memo1) as (vs' & ext2 & memo2 & Hcps & Hch' & Hlen & Hres & Hm2).
    { eapply agree_trans; [eapply agree_sub; [done|lia|lia]|].
      destruct Hag as [Hlen _]. apply agree_app. lia. }
    { intros l Hl. rewrite Hm1 by lia. apply Hmemo. lia. }
    { lia. }
    exists (v' :: vs'), (ext1 ++ ext2), memo2.
    rewrite mapM_ST_cons, Hcp, Hcps. rewrite <- !app_assoc.
    rewrite !length_app in *.
    assert (Hag1 : agree (length H) (length H + length ext1) (H ++ ext1)
                     (H ++ ext1 ++ ext2)).
    { rewrite (app_assoc H). apply agree_app. rewrite length_app. lia. }
    rewrite <- (app_assoc H) in Hch'.
    split_and!; [done| | | |].
    + eapply chain_cons; [by eapply span_agree|]. by rewrite Nat.add_assoc.
    + cbn. lia.
    + intros n. cbn.
      rewrite (reify_agree (H ++ ext1) _ v' _ _ n Hsp Hag1), Hre.
      rewrite <- (app_assoc H) in Hres. by rewrite Hres.
    + intros l Hl. rewrite Hm2 by lia. apply Hm1. lia.
Qed.

Lemma deepcopy_spec fuel : ∀ h v a b, span h v a b → copies_well fuel h v a b.
Proof.
  induction fuel as [|fuel IH]; intros h v a b Hsp H memo Hag Hmemo Hfuel.
  - (* no fuel: the tree has no object *)
    destruct Hsp as [v a b Hv Hab Hb|l o a b Hal Hl Hch].
    + exists v, [], memo. rewrite app_nil_r, deepcopy_atom by done.
      destruct Hag as [Hlen _], Hv as [j Hj]. split_and!; [done| |  |done].
      * apply span_atom; [by eexists|lia|cbn; lia].
      * intros n. by rewrite !(reify_atom _ _ _ j).
    + apply chain_le in Hch. lia.
  - destruct Hsp as [v a b Hv Hab Hb|l o a b Hal Hl Hch].
    + exists v, [], memo. rewrite app_nil_r, deepcopy_atom by done.
      destruct Hag as [Hlen _], Hv as [j Hj]. split_and!; [done| |  |done].
      * apply span_atom; [by eexists|lia|cbn; lia].
      * intros n. by rewrite !(reify_atom _ _ _ j).
    + apply chain_le in Hch as Hlb.
      assert (HHl : H !! l = Some o).
      { destruct Hag as [_ Hag]. rewrite Hag; [done|lia]. }
      destruct (deepcopy_children fuel h (IH h) (children o) (S l) b Hch
                  (H ++ [blank o]) (<[l := length H]> memo))
        as (vs' & ext & memo' & Hcp & Hch' & Hlen & Hre & Hm).
      { eapply agree_trans; [eapply agree_sub; [done|lia|lia]|].
        destruct Hag as [Hlen _]. apply agree_app. lia. }
      { intros l0 Hl0. rewrite lookup_insert_ne by lia. apply Hmemo. lia. }
      { lia. }
      exists (VRef (length H)), (refill o vs' :: ext), memo'.
      rewrite deepcopy_ref, Hmemo, HHl, Hcp by lia.
      rewrite insert_placeholder.
      destruct (fill_container (blank o) (refill o vs') H vs' ext Hch')
        as [Hsp' Hmap]; [by apply children_refill|].
      split_and!; [done|done| |].
      * intros [|n]; [done|].
        eapply reify_refill; [done|by apply list_lookup_middle|done|].
        by rewrite Hmap, Hre.
      * intros l0 Hl0. rewrite Hm by lia. apply lookup_insert_ne. lia.
Qed.

(** [copy.deepcopy(x)] of a tree. *)
Lemma deepcopy_top_holds h v a b doc :
  holds h v a b doc →
  ∃ v' ext,
    deepcopy_top v h = Some (v', h ++ ext)
    ∧ holds (h ++ ext) v' (length h) (length h + length ext) doc.
Proof.
  intros [Hsp [n Hre]]. apply span_le in Hsp as Hab.
  destruct (deepcopy_spec (length h) h v a b Hsp h ∅)
    as (v' & ext & memo' & Hcp & Hsp' & Hre' & _);
    [apply agree_refl|intros; apply lookup_empty|lia|].
  exists v', ext. unfold deepcopy_top. rewrite Hcp. split; [done|].
  split; [done|]. exists n. by rewrite Hre'.
Qed.

(** *** The fuel a document needs *)

Lemma depth_arr js : Json.depth (JArr js) = S (max_depth js).
Proof. done. Qed.

Lemma depth_obj kvs : Json.depth (JObj kvs) = S (max_depth kvs.*2).
Proof. by rewrite depth_obj_arr. Qed.

Lemma mapM_reify_depth n h vs js :
  (∀ v j, reify n h v = Some j → reify (Json.depth j) h v = Some j) →
  mapM (reify n h) vs = Some js →
  mapM (reify (max_depth js) h) vs = Some js.
Proof.
  intros IH Hm. apply mapM_Some in Hm.
  induction Hm as [|v j vs js Hv _ IHm]; [done|].
  change (max_depth (j :: js)) with (Json.depth j `max` max_depth js).
  set (N := Json.depth j `max` max_depth js).
  assert (HN : Json.depth j ≤ N ∧ max_depth js ≤ N) by lia.
  cbn. rewrite (reify_mono _ _ _ _ N (IH v j Hv)) by lia. cbn.
  by rewrite (mapM_reify_mono _ N _ _ _ IHm) by lia.
Qed.

Lemma reify_depth n : ∀ h v j,
  reify n h v = Some j → reify (Json.depth j) h v = Some j.
Proof.
  induction n as [|n IH]; intros h v j Hre.
  - destruct v; try done; by inversion Hre.
  - destruct v; try (by inversion Hre).
    rewrite reify_ref in Hre. destruct (h !! l) as [o|] eqn:Hl; [|done].
    cbn in Hre. destruct o as [vs|ms].
    + destruct (mapM (reify n h) vs) as [js|] eqn:E; [|done].
      inversion Hre; subst j. rewrite depth_arr, reify_ref, Hl. cbn.
      by rewrite (mapM_reify_depth n h vs js (IH h) E).
    + destruct (mapM (reify n h) ms.*2) as [js|] eqn:E; [|done].
      inversion Hre; subst j.
      apply length_mapM in E as Hlen. rewrite !length_fmap in Hlen.
      rewrite depth_obj, snd_zip by (rewrite length_fmap; lia).
      rewrite reify_ref, Hl. cbn.
      by rewrite (mapM_reify_depth n h ms.*2 js (IH h) E).
Qed.

Lemma span_depth_mut h :
  (∀ v a b, span h v a b → ∀ n j, reify n h v = Some j → Json.depth j ≤ b - a)
  ∧ (∀ vs a b, chain h vs a b →
       ∀ n js, mapM (reify n h) vs = Some js → max_depth js ≤ b - a).
Proof.
  apply span_chain_ind.
  - intros v a b [j0 Hj0] _ _ n j Hre.
    rewrite (reify_atom _ _ _ j0 Hj0) in Hre. inversion Hre; subst j.
    destruct v; inversion Hj0; cbn; lia.
  - intros l o a b Hal Hl Hch IH n j Hre. apply chain_le in Hch as Hlb.
    destruct n as [|n]; [done|]. rewrite reify_ref, Hl in Hre. cbn in Hre.
    destruct o as [vs|ms]; cbn [children] in IH.
    + destruct (mapM (reify n h) vs) as [js|] eqn:E; [|done].
      inversion Hre; subst j. rewrite depth_arr.
      specialize (IH n js E). lia.
    + destruct (mapM (reify n h) ms.*2) as [js|] eqn:E; [|done].
      inversion Hre; subst j.
      apply length_mapM in E as Hlen. rewrite !length_fmap in Hlen.
      rewrite depth_obj, snd_zip by (rewrite length_fmap; lia).
      specialize (IH n js E). lia.
  - intros a b _ _ n js Hm. inversion Hm; subst. cbn. lia.
  - intros v vs a m b Hv IHv Hvs IHvs n js Hm.
    apply span_le in Hv as Ham. apply chain_le in Hvs as Hmb.
    cbn in Hm. destruct (reify n h v) as [j|] eqn:Ej; [|done]. cbn in Hm.
    destruct (mapM (reify n h) vs) as [js'|] eqn:Ejs; [|done].
    inversion Hm; subst js.
    change (max_depth (j :: js')) with (Json.depth j `max` max_depth js').
    specialize (IHv n j Ej). specialize (IHvs n js' Ejs). lia.
Qed.

(** [json.dump] reads the document of a tree. *)
Lemma holds_dumps h v a b doc : holds h v a b doc → dumps h v = Some doc.
Proof.
  intros [Hsp [n Hre]]. unfold dumps.
  apply (reify_mono (Json.depth doc)); [by eapply reify_depth|].
  apply span_le in Hsp as Hab.
  pose proof (proj1 (span_depth_mut h) v a b Hsp n doc Hre). lia.
Qed.

Lemma holds_atom h v a b doc j : holds h v a b doc → atom_json v = Some j → doc = j.
Proof.
  intros [_ [n Hre]] Hj. rewrite (reify_atom _ _ _ j Hj) in Hre. by inversion Hre.
Qed.

(** *** Dictionaries *)

Lemma assoc_set_eq {A} k (v : A) l : Json.assoc k (Json.assoc_set k v l) = Some v.
Proof.
  induction l as [|[k' v'] l IH]; cbn.
  - by rewrite String.eqb_refl.
  - destruct (String.eqb k k') eqn:E; cbn; rewrite E; [done|apply IH].
Qed.

Lemma assoc_set_ne {A} k k' (v : A) l :
  k ≠ k' → Json.assoc k' (Json.assoc_set k v l) = Json.assoc k' l.
Proof.
  intros Hne. induction l as [|[k0 v0] l IH]; cbn.
  - apply String.eqb_neq in Hne. rewrite String.eqb_sym in Hne. by rewrite Hne.
  - destruct (String.eqb k k0) eqn:E; cbn.
    + apply String.eqb_eq in E as <-.
      apply String.eqb_neq in Hne. rewrite String.eqb_sym in Hne. by rewrite Hne.
    + destruct (String.eqb k' k0); [done|apply IH].
Qed.

Lemma holds_dict_inv h l a b kvs :
  holds h (VRef l) a b (JObj kvs) →
  ∃ ms n js,
    h !! l = Some (ODict ms) ∧ a ≤ l ∧ chain h ms.*2 (S l) b
    ∧ mapM (reify n h) ms.*2 = Some js ∧ kvs = zip ms.*1 js.
Proof.
  intros [Hsp [n Hre]]. inversion Hsp as [? ? ? [j Hj]|? o ? ? Hal Hl Hch]; subst; [done|].
  destruct n as [|n]; [done|]. rewrite reify_ref, Hl in Hre. cbn in Hre.
  destruct o as [vs|ms].
  - by destruct (mapM (reify n h) vs).
  - destruct (mapM (reify n h) ms.*2) as [js|] eqn:E; [|done].
    inversion Hre. by exists ms, n, js.
Qed.

Lemma holds_dict_intro h l a b ms n js :
  a ≤ l → h !! l = Some (ODict ms) → chain h ms.*2 (S l) b →
  mapM (reify n h) ms.*2 = Some js →
  holds h (VRef l) a b (JObj (zip ms.*1 js)).
Proof.
  intros Hal Hl Hch Hm. split; [by eapply span_ref|].
  exists (S n). rewrite reify_ref, Hl. cbn. by rewrite Hm.
Qed.

(** Storing an atom under a key. *)
Lemma chain_set_atom h k va ja n ms : ∀ a b js,
  chain h ms.*2 a b → mapM (reify n h) ms.*2 = Some js →
  atom_json va = Some ja →
  chain h (Json.assoc_set k va ms).*2 a b
  ∧ ∃ js', mapM (reify n h) (Json.assoc_set k va ms).*2 = Some js'
           ∧ zip (Json.assoc_set k va ms).*1 js' = Json.assoc_set k ja (zip ms.*1 js).
Proof.
  induction ms as [|[k0 v0] ms IH]; intros a b js Hch Hm Hva.
  - apply chain_le in Hch as Hab. inversion Hm; subst js. split.
    + cbn. eapply (chain_cons _ _ _ a a b); [|apply chain_nil; lia].
      apply span_atom; [by eexists|lia|lia].
    + exists [ja]. cbn. by rewrite (reify_atom _ _ _ ja Hva).
  - inversion Hch as [|? ? ? m ? Hv0 Hms]; subst.
    apply span_le in Hv0 as Ham. apply chain_le in Hms as Hmb.
    cbn in Hm. destruct (reify n h v0) as [j0|] eqn:Ej; [|done]. cbn in Hm.
    destruct (mapM (reify n h) ms.*2) as [js0|] eqn:Ejs; [|done].
    inversion Hm; subst js. cbn. destruct (String.eqb k k0) eqn:E.
    + split.
      * cbn. eapply chain_cons; [|done]. apply span_atom; [by eexists|lia|lia].
      * exists (ja :: js0). cbn. rewrite (reify_atom _ _ _ ja Hva). cbn.
        by rewrite Ejs.
    + destruct (IH m b js0 Hms eq_refl Hva) as (Hch' & js' & Hm' & Hz).
      split; [cbn; by eapply chain_cons|].
      exists (j0 :: js'). cbn. rewrite Ej. cbn. rewrite Hm'. cbn. by rewrite Hz.
Qed.

Lemma setitem_holds h l a b kvs ms k va ja :
  holds h (VRef l) a b (JObj kvs) →
  h !! l = Some (ODict ms) →
  atom_json va = Some ja →
  holds (<[l := ODict (Json.assoc_set k va ms)]> h) (VRef l) a b
    (JObj (Json.assoc_set k ja kvs)).
Proof.
  intros Hh Hl Hva.
  destruct (holds_dict_inv _ _ _ _ _ Hh) as (ms' & n & js & Hl' & Hal & Hch & Hm & ->).
  rewrite Hl in Hl'. inversion Hl'; subst ms'.
  destruct (chain_set_atom h k va ja n ms (S l) b js Hch Hm Hva) as (Hch' & js' & Hm' & Hz).
  rewrite <- Hz.
  assert (Hag : agree (S l) b h (<[l := ODict (Json.assoc_set k va ms)]> h))
    by (apply agree_insert; lia).
  eapply holds_dict_intro; [done| |by eapply chain_agree|].
  - apply list_lookup_insert_eq. by eapply lookup_lt_Some.
  - by rewrite (mapM_reify_agree h _ _ (S l) b).
Qed.

Lemma same_outside_agree a b a' b' h h' :
  same_outside a' b' h h' → (b ≤ a' ∨ b' ≤ a) → agree a b h h'.
Proof.
  intros [Hlen Hsame] Hdisj. split; [lia|]. intros i Hi. apply Hsame. lia.
Qed.

Lemma chain_focus h k x ms : ∀ a b n js,
  chain h ms.*2 a b → mapM (reify n h) ms.*2 = Some js →
  Json.assoc k ms = Some x →
  ∃ jx a' b',
    a ≤ a' ∧ b' ≤ b ∧ span h x a' b' ∧ reify n h x = Some jx
    ∧ Json.assoc k (zip ms.*1 js) = Some jx
    ∧ ∀ h' n' jx',
        same_outside a' b' h h' → span h' x a' b' → reify n' h' x = Some jx' →
        chain h' ms.*2 a b
        ∧ ∃ N js', mapM (reify N h') ms.*2 = Some js'
                   ∧ zip ms.*1 js' = Json.assoc_set k jx' (zip ms.*1 js).
Proof.
  induction ms as [|[k0 v0] ms IH]; intros a b n js Hch Hm Hk; [done|].
  inversion Hch as [|? ? ? m ? Hv0 Hms]; subst.
  apply span_le in Hv0 as Ham. apply chain_le in Hms as Hmb.
  cbn in Hm. destruct (reify n h v0) as [j0|] eqn:Ej; [|done]. cbn in Hm.
  destruct (mapM (reify n h) ms.*2) as [js0|] eqn:Ejs; [|done].
  inversion Hm; subst js. cbn in Hk. cbn. destruct (String.eqb k k0) eqn:E.
  - inversion Hk; subst v0. exists j0, a, m. split_and!; try done; try lia.
    intros h' n' jx' Hsame Hsp' Hre'.
    assert (Hag : agree m b h h') by (eapply same_outside_agree; [done|lia]).
    split; [eapply chain_cons; [done|by eapply chain_agree]|].
    exists (n `max` n'), (jx' :: js0). cbn.
    rewrite (reify_mono _ _ _ _ _ Hre') by lia. cbn.
    rewrite (mapM_reify_mono n (n `max` n') h' ms.*2 js0); [done| |lia].
    by rewrite (mapM_reify_agree h _ _ m b).
  - destruct (IH m b n js0 Hms Ejs Hk)
      as (jx & a' & b' & Ha' & Hb' & Hsp & Hre & Has & Hput).
    exists jx, a', b'. split_and!; try done; try lia.
    intros h' n' jx' Hsame Hsp' Hre'.
    destruct (Hput h' n' jx' Hsame Hsp' Hre') as (Hch' & N & js' & Hm' & Hz).
    assert (Hag : agree a m h h') by (eapply same_outside_agree; [done|lia]).
    split; [eapply chain_cons; [by eapply span_agree|done]|].
    exists (n `max` N), (j0 :: js'). cbn.
    rewrite (reify_mono n _ _ j0); [|by rewrite (reify_agree h _ _ a m)|lia]. cbn.
    rewrite (mapM_reify_mono N _ _ _ js'); [|done|lia]. cbn. by rewrite Hz.
Qed.

Lemma getitem_holds h l a b kvs ms k x :
  holds h (VRef l) a b (JObj kvs) →
  h !! l = Some (ODict ms) →
  Json.assoc k ms = Some x →
  ∃ jx a' b',
    l < a' ∧ b' ≤ b ∧ Json.assoc k kvs = Some jx ∧ holds h x a' b' jx
    ∧ ∀ h' jx',
        same_outside a' b' h h' → holds h' x a' b' jx' →
        holds h' (VRef l) a b (JObj (Json.assoc_set k jx' kvs)).
Proof.
  intros Hh Hl Hk.
  destruct (holds_dict_inv _ _ _ _ _ Hh) as (ms' & n & js & Hl' & Hal & Hch & Hm & ->).
  rewrite Hl in Hl'. inversion Hl'; subst ms'.
  destruct (chain_focus h k x ms (S l) b n js Hch Hm Hk)
    as (jx & a' & b' & Ha' & Hb' & Hsp & Hre & Has & Hput).
  exists jx, a', b'. split_and!; [lia|done|done|by split; [|exists n]|].
  intros h' jx' Hsame [Hsp' [n' Hre']].
  destruct (Hput h' n' jx' Hsame Hsp' Hre') as (Hch' & N & js' & Hm' & Hz).
  rewrite <- Hz. eapply holds_dict_intro; [done| |done|done].
  destruct Hsame as [_ Hsame]. rewrite Hsame by lia. done.
Qed.

End HeapTheory.

(** ** Paths *)

Lemma append_cons c s t : String c s +:+ t = String c (s +:+ t).
Proof. reflexivity. Qed.

Lemma append_nil_r s : s +:+ "" = s.
Proof. induction s as [|c s IH]; [done|]. by rewrite append_cons, IH. Qed.

Lemma append_assoc s t u : (s +:+ t) +:+ u = s +:+ t +:+ u.
Proof. induction s as [|c s IH]; [done|]. by rewrite !append_cons, IH. Qed.

Lemma length_append s t : String.length (s +:+ t) = String.length s + String.length t.
Proof. induction s as [|c s IH]; [done|]. rewrite append_cons. cbn. by rewrite IH. Qed.

Lemma eqb_length s t : String.eqb s t = true → String.length s = String.length t.
Proof. intros H. apply String.eqb_eq in H. by subst. Qed.

Lemma eqb_longer s t : String.length s ≠ String.length t → String.eqb s t = false.
Proof.
  intros Hlen. destruct (String.eqb s t) eqn:E; [|done].
  by apply eqb_length in E.
Qed.

(** [endswith] is the suffix relation. *)
Lemma endswith_spec s suffix :
  Py.endswith s suffix = true ↔ ∃ pre, s = pre +:+ suffix.
Proof.
  split.
  - induction s as [|c s IH]; cbn [Py.endswith]; intros H.
    + rewrite orb_false_r in H. apply String.eqb_eq in H. by exists "".
    + apply orb_true_iff in H as [H|H].
      * apply String.eqb_eq in H. by exists "".
      * destruct (IH H) as [pre ->]. by exists (String c pre).
  - intros [pre ->]. induction pre as [|c pre IH].
    + change ("" +:+ suffix) with suffix.
      destruct suffix; cbn; [done|]. by rewrite Ascii.eqb_refl, String.eqb_refl.
    + rewrite append_cons. cbn [Py.endswith]. rewrite IH. apply orb_true_r.
Qed.

Lemma endswith_length s suffix :
  Py.endswith s suffix = true → String.length suffix ≤ String.length s.
Proof. intros [pre ->]%endswith_spec. rewrite length_append. lia. Qed.

(** A name that ends in [".json"] does not end in [".gz"]. *)
Lemma endswith_json_gz s : Py.endswith (s +:+ ".json") ".gz" = false.
Proof.
  induction s as [|c s IH]; [done|].
  rewrite append_cons. cbn [Py.endswith]. rewrite IH, orb_false_r.
  apply eqb_longer. cbn. rewrite length_append. cbn. lia.
Qed.

Lemma append_json_inj s t : s +:+ ".json" = t +:+ ".json" → s = t.
Proof.
  revert t. induction s as [|c s IH]; intros [|d t] H; [done| | |].
  - exfalso. apply (f_equal String.length) in H.
    rewrite !length_append in H. cbn in H. lia.
  - exfalso. apply (f_equal String.length) in H.
    rewrite !length_append in H. cbn in H. lia.
  - rewrite !append_cons in H. inversion H. f_equal. by apply IH.
Qed.


Lemma name_ok_inv n :
  Fs.name_ok n = true → n ≠ "" ∧ n ≠ "." ∧ n ≠ ".." ∧ Fs.has_sep n = false.
Proof.
  unfold Fs.name_ok. rewrite !andb_true_iff, !negb_true_iff.
  intros [[[H1 H2] H3] H4]. by rewrite !String.eqb_neq in *.
Qed.


Lemma starts_with_sep_name n : Fs.has_sep n = false → Py.starts_with_sep n = false.
Proof. destruct n as [|c n]; [done|]. cbn. by intros [? _]%orb_false_iff. Qed.


Lemma split_path_nonempty p : Fs.split_path p ≠ [].
Proof.
  induction p as [|c p IH]; cbn; [done|].
  destruct (Ascii.eqb c "/"); [done|]. by destruct (Fs.split_path p).
Qed.

Lemma split_path_sep a b :
  Fs.split_path (a +:+ "/" +:+ b) = Fs.split_path a ++ Fs.split_path b.
Proof.
  induction a as [|c a IH]; [done|].
  rewrite append_cons. cbn [Fs.split_path]. rewrite IH.
  destruct (Ascii.eqb c "/"); [done|].
  pose proof (split_path_nonempty a). by destruct (Fs.split_path a).
Qed.

Lemma split_path_name n : Fs.has_sep n = false → Fs.split_path n = [n].
Proof.
  induction n as [|c n IH]; [done|]. cbn.
  intros [-> Hn]%orb_false_iff. by rewrite (IH Hn).
Qed.

Lemma norm_step_name acc n : Fs.name_ok n = true → Fs.norm_step acc n = acc ++ [n].
Proof.
  intros (H1 & H2 & H3 & _)%name_ok_inv. unfold Fs.norm_step.
  apply String.eqb_neq in H1, H2, H3. by rewrite H1, H2, H3.
Qed.

Lemma starts_with_sep_append a b :
  a ≠ "" → Py.starts_with_sep (a +:+ b) = Py.starts_with_sep a.
Proof. by destruct a. Qed.

Lemma append_nonempty a b : a ≠ "" → String.eqb (a +:+ b) "" = false.
Proof. by destruct a. Qed.

(** Joining a name to a path goes one step down from where the path
    leads. *)
Lemma resolve_join cwd root name p :
  Fs.resolve cwd root = Some p → Fs.name_ok name = true →
  Fs.resolve cwd (Py.os_path_join root name) = Some (p ++ [name]).
Proof.
  intros Hr Hn. pose proof (name_ok_inv _ Hn) as (_ & _ & _ & Hsep).
  unfold Fs.resolve in *. destruct (String.eqb_spec root "") as [->|Hroot]; [done|].
  inversion Hr as [Hp]. clear Hr.
  unfold Py.os_path_join. rewrite (starts_with_sep_name _ Hsep).
  apply String.eqb_neq in Hroot as Hroot'. rewrite Hroot'. cbn [orb].
  destruct (Py.endswith root "/") eqn:Hend.
  - apply endswith_spec in Hend as [pre ->].
    rewrite append_nonempty, starts_with_sep_append by done.
    rewrite append_assoc. rewrite split_path_sep, (split_path_name _ Hsep).
    rewrite <- (append_nil_r "/") at 2. rewrite split_path_sep.
    rewrite !fold_left_app. cbn. by rewrite norm_step_name.
  - rewrite append_nonempty, starts_with_sep_append by done.
    rewrite split_path_sep, (split_path_name _ Hsep).
    rewrite fold_left_app. cbn. by rewrite norm_step_name.
Qed.

(** ** Directory trees *)

Lemma node_ind' (P : Fs.node → Prop) :
  (∀ f, P (Fs.File f)) →
  (∀ es, Forall (λ e, P e.2) es → P (Fs.Dir es)) →
  ∀ t, P t.
Proof.
  intros HF HD. fix IH 1. intros [f|es]; [apply HF|].
  apply HD. induction es as [|[n c] es IHes]; constructor; [apply IH|apply IHes].
Qed.

Lemma assoc_elem {A} n (c : A) es : Json.assoc n es = Some c → (n, c) ∈ es.
Proof.
  induction es as [|[n0 c0] es IH]; cbn; [done|].
  destruct (String.eqb_spec n n0) as [->|Hne].
  - intros [= ->]. apply list_elem_of_here.
  - intros H. apply list_elem_of_further. by apply IH.
Qed.

Lemma existsb_eqb_elem n (ns : list string) : existsb (String.eqb n) ns = true ↔ n ∈ ns.
Proof.
  rewrite existsb_exists. split.
  - intros (x & Hx & ->%String.eqb_eq). by apply list_elem_of_In.
  - intros Hn. exists n. split; [by apply list_elem_of_In|apply String.eqb_refl].
Qed.

Lemma assoc_distinct {A} n (c : A) es :
  Fs.distinct (map fst es) = true → (n, c) ∈ es → Json.assoc n es = Some c.
Proof.
  induction es as [|[n0 c0] es IH]; cbn; intros Hd Hin; [by apply elem_of_nil in Hin|].
  apply andb_true_iff in Hd as [Hn0 Hd]. apply negb_true_iff in Hn0.
  apply elem_of_cons in Hin as [[= -> ->]|Hin].
  - by rewrite String.eqb_refl.
  - destruct (String.eqb_spec n n0) as [->|Hne]; [|by apply IH].
    exfalso. apply not_true_iff_false in Hn0. apply Hn0.
    apply existsb_eqb_elem. apply list_elem_of_In, in_map_iff.
    exists (n0, c). split; [done|]. by apply list_elem_of_In.
Qed.

Lemma well_formed_dir es :
  Fs.well_formed (Fs.Dir es) = true →
  Fs.distinct (map fst es) = true
  ∧ ∀ n c, (n, c) ∈ es → Fs.name_ok n = true ∧ Fs.well_formed c = true.
Proof.
  cbn. intros [Hd Hall]%andb_true_iff. split; [done|].
  intros n c Hin. rewrite forallb_forall in Hall.
  specialize (Hall (n, c)). cbn in Hall.
  apply andb_true_iff. apply Hall. by apply list_elem_of_In.
Qed.

Lemma filenames_elem es f : f ∈ Fs.filenames es ↔ ∃ file, (f, Fs.File file) ∈ es.
Proof.
  unfold Fs.filenames. rewrite list_elem_of_omap. split.
  - intros ([n [file|es']] & Hin & [= ->]). by exists file.
  - intros [file Hin]. by exists (f, Fs.File file).
Qed.

Lemma get_app t p q : Fs.get t (p ++ q) = t' ← Fs.get t p; Fs.get t' q.
Proof.
  revert t. induction p as [|n p IH]; intros t; [done|].
  cbn. destruct t as [f|es]; [done|]. destruct (Json.assoc n es); cbn; [apply IH|done].
Qed.

Lemma get_well_formed t : ∀ p t',
  Fs.well_formed t = true → Fs.get t p = Some t' → Fs.well_formed t' = true.
Proof.
  intros p. revert t. induction p as [|n p IH]; intros t t' Hwf Hg.
  - by inversion Hg; subst.
  - destruct t as [f|es]; [done|]. cbn in Hg.
    destruct (Json.assoc n es) as [c|] eqn:Ha; [|done]. cbn in Hg.
    apply (IH c); [|done].
    by apply (proj2 (well_formed_dir es Hwf) n c), assoc_elem.
Qed.



(** ** Writing a file *)

Lemma assoc_set_lookup {A} n n0 (c : A) es :
  Json.assoc n0 (Json.assoc_set n c es)
  = if String.eqb n0 n then Some c else Json.assoc n0 es.
Proof.
  induction es as [|[k v] es IH]; cbn.
  - by destruct (String.eqb n0 n).
  - destruct (String.eqb_spec n k) as [->|Hnk]; cbn.
    + by destruct (String.eqb n0 k).
    + destruct (String.eqb_spec n0 k) as [->|Hn0k].
      * destruct (String.eqb_spec k n) as [->|]; [done|done].
      * apply IH.
Qed.

Lemma put_one n f es :
  Fs.put [n] f (Fs.Dir es)
  = if Fs.is_dir (Json.assoc n es) then None
    else Some (Fs.Dir (Json.assoc_set n (Fs.File f) es)).
Proof. done. Qed.

Lemma put_more n n1 p2 f es :
  Fs.put (n :: n1 :: p2) f (Fs.Dir es)
  = c ← Json.assoc n es; c' ← Fs.put (n1 :: p2) f c;
    Some (Fs.Dir (Json.assoc_set n c' es)).
Proof. done. Qed.

Lemma put_inv p f T T' :
  Fs.put p f T = Some T' →
  ∃ n p' es, p = n :: p' ∧ T = Fs.Dir es ∧
    ((p' = [] ∧ Fs.is_dir (Json.assoc n es) = false
      ∧ T' = Fs.Dir (Json.assoc_set n (Fs.File f) es))
     ∨ (p' ≠ [] ∧ ∃ c c', Json.assoc n es = Some c ∧ Fs.put p' f c = Some c'
        ∧ T' = Fs.Dir (Json.assoc_set n c' es))).
Proof.
  destruct p as [|n p']; [done|]. destruct T as [g|es]; [done|].
  intros H. exists n, p', es. split_and!; [done|done|].
  destruct p' as [|n1 p2].
  - left. rewrite put_one in H.
    destruct (Fs.is_dir (Json.assoc n es)) eqn:E; [done|]. by inversion H.
  - right. split; [done|]. rewrite put_more in H.
    destruct (Json.assoc n es) as [c|]; [|done]. cbn [mbind option_bind] in H.
    destruct (Fs.put (n1 :: p2) f c) as [c'|] eqn:E; [|done].
    exists c, c'. by inversion H.
Qed.

Lemma get_file_below g q : q ≠ [] → Fs.get (Fs.File g) q = None.
Proof. by destruct q. Qed.

Lemma get_not_dir_below o q :
  Fs.is_dir o = false → q ≠ [] → (t ← o; Fs.get t q) = None.
Proof. destruct o as [[g|es]|]; [|done|done]. intros _ Hq. by apply get_file_below. Qed.

(** The file written is there. *)
Lemma put_get_same p f : ∀ T T', Fs.put p f T = Some T' → Fs.get T' p = Some (Fs.File f).
Proof.
  induction p as [|n p IH]; intros T T' H; [done|].
  destruct (put_inv _ _ _ _ H) as (n' & p' & es & [= <- <-] & -> & Hcase).
  destruct Hcase as [(-> & _ & ->)|(Hp & c & c' & Ha & Hput & ->)].
  - cbn. by rewrite assoc_set_lookup, String.eqb_refl.
  - cbn. rewrite assoc_set_lookup, String.eqb_refl. cbn. by eapply IH.
Qed.

(** What is no directory is as it was, the file written apart. *)
Lemma put_get_other p f : ∀ T T' q,
  Fs.put p f T = Some T' → q ≠ p → Fs.is_dir (Fs.get T q) = false →
  Fs.get T' q = Fs.get T q.
Proof.
  induction p as [|n p IH]; intros T T' q H Hq Hnd; [done|].
  destruct (put_inv _ _ _ _ H) as (n' & p' & es & [= <- <-] & -> & Hcase).
  destruct q as [|n0 q']; [done|]. cbn.
  destruct Hcase as [(-> & Hn & ->)|(Hp & c & c' & Ha & Hput & ->)].
  - rewrite assoc_set_lookup. destruct (String.eqb_spec n0 n) as [->|Hne]; [|done].
    assert (Hq' : q' ≠ []) by congruence.
    cbn. rewrite get_file_below by done. by rewrite get_not_dir_below.
  - rewrite assoc_set_lookup. destruct (String.eqb_spec n0 n) as [->|Hne]; [|done].
    rewrite Ha. cbn. apply IH; [done|congruence|].
    cbn in Hnd. by rewrite Ha in Hnd.
Qed.

(** Directories stay directories, and nothing else becomes one. *)
Lemma put_is_dir p f : ∀ T T' q,
  Fs.put p f T = Some T' → Fs.is_dir (Fs.get T' q) = Fs.is_dir (Fs.get T q).
Proof.
  induction p as [|n p IH]; intros T T' q H; [done|].
  destruct (put_inv _ _ _ _ H) as (n' & p' & es & [= <- <-] & -> & Hcase).
  destruct q as [|n0 q'].
  - by destruct Hcase as [(-> & Hn & ->)|(Hp & c & c' & Ha & Hput & ->)].
  - cbn. destruct Hcase as [(-> & Hn & ->)|(Hp & c & c' & Ha & Hput & ->)].
    + rewrite assoc_set_lookup. destruct (String.eqb_spec n0 n) as [->|Hne]; [|done].
      destruct q' as [|n1 q2].
      * cbn. rewrite <- Hn. by destruct (Json.assoc n es).
      * rewrite (get_not_dir_below (Json.assoc n es)) by done. done.
    + rewrite assoc_set_lookup. destruct (String.eqb_spec n0 n) as [->|Hne]; [|done].
      rewrite Ha. cbn. by apply IH.
Qed.

(** A file can be written into an existing directory, unless a directory
    has its name. *)
Lemma put_succeeds f : ∀ d T n,
  Fs.is_dir (Fs.get T d) = true → Fs.is_dir (Fs.get T (d ++ [n])) = false →
  is_Some (Fs.put (d ++ [n]) f T).
Proof.
  induction d as [|n0 d IH]; intros T n Hd Hn.
  - destruct T as [g|es]; [done|]. cbn in *.
    assert (Hn' : Fs.is_dir (Json.assoc n es) = false).
    { by destruct (Json.assoc n es) as [[|]|]. }
    rewrite Hn'. by eexists.
  - destruct T as [g|es]; [done|]. cbn in Hd, Hn.
    destruct (Json.assoc n0 es) as [c|] eqn:Ha; [|done]. cbn in Hd, Hn.
    destruct (IH c n Hd Hn) as [c' Hc'].
    change ((n0 :: d) ++ [n]) with (n0 :: (d ++ [n])).
    destruct (d ++ [n]) as [|n1 p2] eqn:E; [by destruct d|].
    rewrite put_more, Ha. cbn [mbind option_bind]. rewrite Hc'. by eexists.
Qed.

Lemma get_parent_is_dir T d n x :
  Fs.get T (d ++ [n]) = Some x → Fs.is_dir (Fs.get T d) = true.
Proof.
  rewrite get_app. destruct (Fs.get T d) as [[g|es]|]; [done|done|done].
Qed.

(** ** Listing the [.gz] files *)

Lemma gz_of_app a b : gz_of (a ++ b) = gz_of a ++ gz_of b.
Proof. apply flat_map_app. Qed.

Lemma walk_dir top es :
  Fs.walk top (Fs.Dir es)
  = (top, Fs.dirnames es, Fs.filenames es) :: flat_map (walk_child top) es.
Proof. done. Qed.

Lemma gz_of_walk_dir top es :
  gz_of (Fs.walk top (Fs.Dir es))
  = map (Py.os_path_join top)
      (filter (λ file, Is_true (Py.endswith file ".gz")) (Fs.filenames es))
    ++ gz_of (flat_map (walk_child top) es).
Proof. done. Qed.

Lemma filenames_file k g es : Fs.filenames ((k, Fs.File g) :: es) = k :: Fs.filenames es.
Proof. done. Qed.

Lemma filenames_dir k x es : Fs.filenames ((k, Fs.Dir x) :: es) = Fs.filenames es.
Proof. done. Qed.

Lemma assoc_set_cons {A} n (c : A) k v es :
  Json.assoc_set n c ((k, v) :: es)
  = if String.eqb n k then (k, c) :: es else (k, v) :: Json.assoc_set n c es.
Proof. done. Qed.

Lemma walk_children_cons top k c es :
  flat_map (walk_child top) ((k, c) :: es)
  = Fs.walk (Py.os_path_join top k) c ++ flat_map (walk_child top) es.
Proof. done. Qed.

(** Putting a file that is no [.gz] file where no directory was. *)
Lemma set_file_listing top n f es :
  Fs.is_dir (Json.assoc n es) = false →
  Py.endswith n ".gz" = false →
  filter is_gz (Fs.filenames (Json.assoc_set n (Fs.File f) es))
  = filter is_gz (Fs.filenames es)
  ∧ flat_map (walk_child top) (Json.assoc_set n (Fs.File f) es)
    = flat_map (walk_child top) es.
Proof.
  intros Hd Hn. induction es as [|[k c] es IH].
  - split; [|done]. cbn [Json.assoc_set]. rewrite filenames_file.
    rewrite filter_cons_False; [done|]. rewrite Hn. exact id.
  - rewrite assoc_set_cons. cbn [Json.assoc] in Hd.
    destruct (String.eqb_spec n k) as [->|Hnk].
    + destruct c as [g|es']; [|done]. by rewrite !filenames_file, !walk_children_cons.
    + destruct (IH Hd) as [IH1 IH2]. rewrite !walk_children_cons, IH2.
      split; [|done]. destruct c as [g|es'].
      * rewrite !filenames_file, !filter_cons. by rewrite IH1.
      * by rewrite !filenames_dir.
Qed.

(** Changing a subdirectory whose own listing of [.gz] files stays. *)
Lemma set_dir_listing top n c c' es :
  Json.assoc n es = Some (Fs.Dir c) →
  gz_of (Fs.walk (Py.os_path_join top n) (Fs.Dir c'))
  = gz_of (Fs.walk (Py.os_path_join top n) (Fs.Dir c)) →
  Fs.filenames (Json.assoc_set n (Fs.Dir c') es) = Fs.filenames es
  ∧ gz_of (flat_map (walk_child top) (Json.assoc_set n (Fs.Dir c') es))
    = gz_of (flat_map (walk_child top) es).
Proof.
  intros Ha Hgz. induction es as [|[k x] es IH]; [done|].
  rewrite assoc_set_cons. cbn [Json.assoc] in Ha.
  destruct (String.eqb_spec n k) as [->|Hnk].
  - inversion Ha; subst x. rewrite !filenames_dir. split; [done|].
    rewrite !walk_children_cons, !gz_of_app. by rewrite Hgz.
  - destruct (IH Ha) as [IH1 IH2]. split.
    + destruct x; by rewrite ?filenames_file, ?filenames_dir, IH1.
    + rewrite !walk_children_cons, !gz_of_app. by rewrite IH2.
Qed.

Lemma put_dir p f es T' : p ≠ [] → Fs.put p f (Fs.Dir es) = Some T' → ∃ es', T' = Fs.Dir es'.
Proof.
  intros _ H. destruct (put_inv _ _ _ _ H) as (n & p' & es0 & -> & [= <-] & Hcase).
  destruct Hcase as [(-> & _ & ->)|(Hp & c & c' & Ha & Hput & ->)]; by eexists.
Qed.

(** Writing a file that is no [.gz] file leaves the list of [.gz] files of
    the whole tree as it was. *)
Lemma put_listing p f : ∀ T T' top n,
  Fs.put p f T = Some T' → last p = Some n → Py.endswith n ".gz" = false →
  gz_of (Fs.walk top T') = gz_of (Fs.walk top T).
Proof.
  induction p as [|n0 p IH]; intros T T' top n H Hlast Hn; [done|].
  destruct (put_inv _ _ _ _ H) as (n' & p' & es & [= <- <-] & -> & Hcase).
  destruct Hcase as [(-> & Hd & ->)|(Hp & c & c' & Ha & Hput & ->)].
  - inversion Hlast; subst n0.
    destruct (set_file_listing top n f es Hd Hn) as [H1 H2].
    by rewrite !gz_of_walk_dir, H1, H2.
  - assert (Hlast' : last p = Some n) by (by destruct p).
    destruct c as [g|esc]; [by destruct p|].
    destruct (put_dir _ _ _ _ Hp Hput) as [esc' ->].
    destruct (set_dir_listing top n0 esc esc' es Ha) as [H1 H2].
    { by eapply IH. }
    by rewrite !gz_of_walk_dir, H1, H2.
Qed.

(** The same below any directory. *)
Lemma put_listing_under p f : ∀ T T' pt top n,
  Fs.put p f T = Some T' → last p = Some n → Py.endswith n ".gz" = false →
  gz_under top (Fs.get T' pt) = gz_under top (Fs.get T pt).
Proof.
  induction p as [|n0 p IH]; intros T T' pt top n H Hlast Hn; [done|].
  destruct pt as [|m pt'].
  { cbn. by eapply put_listing. }
  destruct (put_inv _ _ _ _ H) as (n' & p' & es & [= <- <-] & -> & Hcase).
  cbn [Fs.get].
  destruct Hcase as [(-> & Hd & ->)|(Hp & c & c' & Ha & Hput & ->)].
  - rewrite assoc_set_lookup. destruct (String.eqb_spec m n0) as [->|Hne]; [|done].
    cbn. destruct (Json.assoc n0 es) as [[g|?]|]; [|done|]; by destruct pt'.
  - assert (Hlast' : last p = Some n) by (by destruct p).
    rewrite assoc_set_lookup. destruct (String.eqb_spec m n0) as [->|Hne]; [|done].
    rewrite Ha. cbn. by eapply IH.
Qed.

(** ** The [.json] files beside the embeddings *)

Section Sidecars.

Lemma gz_entry_image w p d f img : gz_entry w p d f img → image_at p w = Some img.
Proof.
  intros (Hr & _ & _ & Hg). unfold image_at, lookup_path. rewrite Hr. cbn.
  by rewrite Hg.
Qed.

Lemma snoc_inj (d d' : list string) f f' : d ++ [f] = d' ++ [f'] → d = d' ∧ f = f'.
Proof. intros H. by apply app_inj_tail in H. Qed.

(** One turn of the loop of [create_json_files]. *)
Lemma sidecar_step w p d f img :
  gz_entry w p d f img →
  Fs.is_dir (Fs.get (w_fs w) (d ++ [f +:+ ".json"])) = false →
  ∃ T1,
    Fs.put (d ++ [f +:+ ".json"]) (Fs.JsonFile (sidecar img)) (w_fs w) = Some T1
    ∧ (img0 ← nib_load p;
       logger_info "data: {}." [sidecar img0];;
       json_dump_doc (sidecar img0) (p +:+ ".json") false (Some 4%Z)) w
      = Ok tt (emit (EvWrite (p +:+ ".json") (Fs.JsonFile (sidecar img)))
                 (set_fs T1 (emit (EvLog "data: {}." [sidecar img]) w))).
Proof.
  intros Hent Hnd.
  pose proof (gz_entry_image _ _ _ _ _ Hent) as Himg.
  destruct Hent as (Hr & Hrj & Hgz & Hg).
  destruct (put_succeeds (Fs.JsonFile (sidecar img)) d (w_fs w) (f +:+ ".json"))
    as [T1 HT1]; [by eapply get_parent_is_dir|done|].
  exists T1. split; [done|].
  unfold mbind, M_bind, nib_load. unfold image_at in Himg.
  destruct (lookup_path p w) as [[[?|img'|?]|?]|]; try done.
  inversion Himg; subst img'. cbn.
  unfold json_dump_doc, write_file. cbn. rewrite Hrj. cbn. by rewrite HT1.
Qed.

Lemma wrote_entry w w' d f img q d' f' img' :
  wrote w w' d f img → gz_entry w q d' f' img' → gz_entry w' q d' f' img'.
Proof.
  intros [Hcwd Hput] (Hr & Hrj & Hgz & Hg).
  unfold gz_entry. rewrite Hcwd. split_and!; try done.
  rewrite (put_get_other _ _ _ _ _ Hput); [done| |by rewrite Hg].
  intros [_ ->]%snoc_inj. by rewrite endswith_json_gz in Hgz.
Qed.

Lemma wrote_ready w w' d f img q :
  wrote w w' d f img → ready w q → ready w' q.
Proof.
  intros Hw (d' & f' & img' & Hent & Hnd). exists d', f', img'.
  split; [by eapply wrote_entry|].
  destruct Hw as [_ Hput]. by rewrite (put_is_dir _ _ _ _ _ Hput).
Qed.

Lemma wrote_settled w w' p d f img q :
  gz_entry w p d f img → wrote w w' d f img → settled w q → settled w' q.
Proof.
  intros Hp Hw (d' & f' & img' & Hent & Hdone). exists d', f', img'.
  split; [by eapply wrote_entry|].
  destruct Hw as [_ Hput].
  destruct (decide (d' ++ [f' +:+ ".json"] = d ++ [f +:+ ".json"])) as [Heq|Hne].
  - apply snoc_inj in Heq as [-> Hf]. apply append_json_inj in Hf as ->.
    destruct Hp as (_ & _ & _ & Hg), Hent as (_ & _ & _ & Hg').
    rewrite Hg in Hg'. inversion Hg'; subst img'.
    by eapply put_get_same.
  - rewrite (put_get_other _ _ _ _ _ Hput); [done|done|by rewrite Hdone].
Qed.

Lemma wrote_here w w' p d f img :
  gz_entry w p d f img → wrote w w' d f img → settled w' p.
Proof.
  intros Hp Hw. exists d, f, img. split; [by eapply wrote_entry|].
  destruct Hw as [_ Hput]. by eapply put_get_same.
Qed.

Lemma wrote_listing w w' d f img pt top :
  wrote w w' d f img →
  gz_under top (Fs.get (w_fs w') pt) = gz_under top (Fs.get (w_fs w) pt).
Proof.
  intros [_ Hput]. eapply put_listing_under; [done|apply last_snoc|].
  apply endswith_json_gz.
Qed.

Lemma ready_image w w' q :
  (∀ d f img, gz_entry w q d f img → gz_entry w' q d f img) →
  ready w q → image_at q w' = image_at q w.
Proof.
  intros Hkeep (d & f & img & Hent & _).
  rewrite (gz_entry_image _ _ _ _ _ Hent).
  by rewrite (gz_entry_image _ _ _ _ _ (Hkeep _ _ _ Hent)).
Qed.

Lemma sidecar_events_ready w w' q :
  (∀ d f img, gz_entry w q d f img → gz_entry w' q d f img) →
  ready w q → sidecar_events w' q = sidecar_events w q.
Proof. intros Hk Hr. unfold sidecar_events. by rewrite (ready_image w w' q). Qed.

Lemma flat_map_ext_elem {A B} (g1 g2 : A → list B) l :
  (∀ x, x ∈ l → g1 x = g2 x) → flat_map g1 l = flat_map g2 l.
Proof.
  induction l as [|x l IH]; intros H; [done|]. cbn.
  rewrite (H x) by apply list_elem_of_here. rewrite IH; [done|].
  intros y Hy. apply H. by apply list_elem_of_further.
Qed.

(** [create_json_files] on images that are ready: it ends normally, having
    logged and written one [.json] file per image, in order. *)
Lemma create_json_files_spec gzs : ∀ w,
  Forall (ready w) gzs →
  ∃ w',
    create_json_files gzs w = Ok tt w'
    ∧ w_trace w' = w_trace w ++ flat_map (sidecar_events w) gzs
    ∧ same_but_files w w'
    ∧ Forall (settled w') gzs
    ∧ (∀ q d f img, gz_entry w q d f img → gz_entry w' q d f img)
    ∧ (∀ q, ready w q → ready w' q)
    ∧ (∀ q, settled w q → settled w' q)
    ∧ (∀ pt top, gz_under top (Fs.get (w_fs w') pt)
                 = gz_under top (Fs.get (w_fs w) pt)).
Proof.
  induction gzs as [|p gzs IH]; intros w Hall.
  - exists w. cbn. rewrite app_nil_r. by split_and!.
  - inversion Hall as [|? ? Hp Hrest]; subst.
    destruct Hp as (d & f & img & Hent & Hnd).
    destruct (sidecar_step w p d f img Hent Hnd) as (T1 & Hput & Hbody).
    set (w1 := emit (EvWrite (p +:+ ".json") (Fs.JsonFile (sidecar img)))
                 (set_fs T1 (emit (EvLog "data: {}." [sidecar img]) w))) in *.
    assert (Hw : wrote w w1 d f img) by done.
    destruct (IH w1) as (w' & Hrun & Htr & Hsame & Hdone & Hk & Hr & Hs & Hl).
    { eapply Forall_impl; [done|]. intros q. by eapply wrote_ready. }
    exists w'. split_and!.
    + unfold create_json_files in *. cbn [for_]. unfold mbind at 1, M_bind at 1.
      by rewrite Hbody.
    + rewrite Htr. cbn [flat_map]. unfold sidecar_events at 2.
      rewrite (gz_entry_image _ _ _ _ _ Hent). cbn.
      rewrite <- !app_assoc. cbn. do 3 f_equal.
      apply flat_map_ext_elem. intros q Hq.
      apply sidecar_events_ready; [intros; by eapply wrote_entry|].
      rewrite Forall_forall in Hrest. by apply Hrest.
    + destruct Hsame as (H1 & H2 & H3 & H4). by split_and!.
    + constructor; [|done]. apply Hs. by eapply wrote_here.
    + intros q d' f' img' Hq. apply Hk. by eapply wrote_entry.
    + intros q Hq. apply Hr. by eapply wrote_ready.
    + intros q Hq. apply Hs. by eapply wrote_settled.
    + intros pt top. rewrite Hl. by eapply wrote_listing.
Qed.

Lemma writes_app tr1 tr2 : writes (tr1 ++ tr2) = writes tr1 ++ writes tr2.
Proof. unfold writes. by rewrite omap_app. Qed.

Lemma writes_sidecar_events w gzs :
  writes (flat_map (sidecar_events w) gzs) = omap (sidecar_write w) gzs.
Proof.
  induction gzs as [|p gzs IH]; [done|]. cbn [flat_map]. rewrite writes_app, IH.
  cbn [omap list_omap]. unfold sidecar_events at 1, sidecar_write at 2.
  by destruct (image_at p w).
Qed.

Lemma gz_files_of_under folder w :
  gz_files_of folder w = gz_under folder (lookup_path folder w).
Proof. unfold gz_files_of, gz_under, gz_of. by destruct (lookup_path folder w). Qed.


Lemma lookup_path_get w path cp :
  Fs.resolve (w_cwd w) path = Some cp → lookup_path path w = Fs.get (w_fs w) cp.
Proof. intros H. unfold lookup_path. by rewrite H. Qed.




Lemma settled_ready w p : settled w p → ready w p.
Proof.
  intros (d & f & img & Hent & Hdone). exists d, f, img. split; [done|].
  by rewrite Hdone.
Qed.

Lemma list_gz_files_run folder w :
  list_gz_files folder w = Ok (gz_files_of folder w) w.
Proof. done. Qed.



End Sidecars.

(** ** Running notebook code *)

Import Heap.

Lemma bind_Ok {A B} (c : M A) (k : A → M B) w b w' :
  (c ≫= k) w = Ok b w' → ∃ a w1, c w = Ok a w1 ∧ k a w1 = Ok b w'.
Proof.
  unfold mbind, M_bind. destruct (c w) as [a w1|e w1|w1]; [|done|done].
  intros H. by exists a, w1.
Qed.

Lemma ret_Ok {A} (a b : A) w w' : (mret a : M A) w = Ok b w' → b = a ∧ w' = w.
Proof. by intros [= -> ->]. Qed.

Lemma when_Ok (b : bool) body w w' :
  when b body w = Ok tt w' → (b = true ∧ body w = Ok tt w') ∨ (b = false ∧ w' = w).
Proof. destruct b; cbn; [by left|]. intros [= ->]. by right. Qed.

Lemma writes_emit ev w :
  writes (w_trace (emit ev w))
  = writes (w_trace w) ++ match ev with EvWrite p f => [(p, f)] | _ => [] end.
Proof. cbn. rewrite writes_app. by destruct ev. Qed.

Lemma silent_refl w : silent w w.
Proof. by split. Qed.

Lemma silent_trans w1 w2 w3 : silent w1 w2 → silent w2 w3 → silent w1 w3.
Proof. intros [? ?] [? ?]. split; congruence. Qed.

Lemma silent_set_heap h w : silent w (set_heap h w).
Proof. by split. Qed.

(** *** The heap operations of the configuration cell *)

Lemma json_load_Ok path v w w' :
  json_load path w = Ok v w' →
  ∃ doc ext,
    lookup_path path w = Some (Fs.File (Fs.JsonFile doc))
    ∧ (∀ p, lookup_path p w' = lookup_path p w)
    ∧ silent w w'
    ∧ w_heap w' = w_heap w ++ ext
    ∧ holds (w_heap w') v (length (w_heap w)) (length (w_heap w')) doc.
Proof.
  unfold json_load. intros (f & w1 & Hread & Hload)%bind_Ok.
  unfold read_file in Hread.
  destruct (lookup_path path w) as [[f'|?]|] eqn:Hl; [|done|done].
  inversion Hread; subst f' w1. destruct f as [doc|?|?]; [|done|done].
  unfold on_heap in Hload.
  destruct (load_spec doc (w_heap w)) as (v0 & ext & Hv0 & Hh). rewrite Hv0 in Hload.
  inversion Hload; subst. exists doc, ext. cbn. rewrite length_app.
  split_and!; try done; apply silent_set_heap.
Qed.

Lemma copy_deepcopy_Ok x y w w' a b doc :
  holds (w_heap w) x a b doc →
  copy_deepcopy x w = Ok y w' →
  ∃ ext,
    silent w w'
    ∧ w_heap w' = w_heap w ++ ext
    ∧ holds (w_heap w') y (length (w_heap w)) (length (w_heap w')) doc.
Proof.
  intros Hx. unfold copy_deepcopy, on_heap.
  destruct (deepcopy_top_holds _ _ _ _ _ Hx) as (y0 & ext & Hcp & Hy). rewrite Hcp.
  intros [= <- <-]. exists ext. cbn. rewrite length_app.
  split_and!; try done; apply silent_set_heap.
Qed.

Lemma holds_ref_range h l a b doc : holds h (VRef l) a b doc → a ≤ l < b ∧ b ≤ length h.
Proof.
  intros [Hsp _]. apply span_le in Hsp as Hab.
  inversion Hsp as [? ? ? [j Hj]|? o ? ? Hal Hl Hch]; subst; [done|].
  apply chain_le in Hch. lia.
Qed.

Lemma holds_le h v a b doc : holds h v a b doc → a ≤ b ≤ length h.
Proof. intros [Hsp _]. by apply span_le in Hsp. Qed.

Lemma holds_dict h l a b doc ms :
  holds h (VRef l) a b doc → h !! l = Some (ODict ms) → ∃ kvs, doc = JObj kvs.
Proof.
  intros [_ [n Hre]] Hl. destruct n as [|n]; [done|].
  rewrite reify_ref, Hl in Hre. cbn in Hre.
  destruct (mapM (reify n h) ms.*2); [|done]. inversion Hre. by eexists.
Qed.

Lemma same_outside_insert a b (h : heap) l o :
  a ≤ l < b → same_outside a b h (<[l := o]> h).
Proof.
  intros Hl. split; [by rewrite length_insert|].
  intros i Hi. apply list_lookup_insert_ne. lia.
Qed.

Lemma same_outside_refl a b h : same_outside a b h h.
Proof. by split. Qed.

Lemma same_outside_trans a b h1 h2 h3 :
  same_outside a b h1 h2 → same_outside a b h2 h3 → same_outside a b h1 h3.
Proof.
  intros [L1 H1] [L2 H2]. split; [lia|]. intros i Hi. by rewrite H2, H1.
Qed.

Lemma same_outside_sub a b a' b' h h' :
  same_outside a' b' h h' → a ≤ a' → b' ≤ b → same_outside a b h h'.
Proof. intros [L H] Ha Hb. split; [done|]. intros i Hi. apply H. lia. Qed.

Lemma holds_app h ext v a b doc : holds h v a b doc → holds (h ++ ext) v a b doc.
Proof.
  intros H. eapply holds_agree; [done|]. apply agree_app. by eapply holds_le.
Qed.

Lemma holds_outside h h' v a b a' b' doc :
  holds h v a b doc → same_outside a' b' h h' → b ≤ a' ∨ b' ≤ a →
  holds h' v a b doc.
Proof.
  intros H Hso Hd. eapply holds_agree; [done|]. by eapply same_outside_agree.
Qed.

(** [d[key] = atom] on a dictionary that is a tree. *)
Lemma setitem_Ok d key v jv w w' a b doc :
  holds (w_heap w) d a b doc →
  atom_json v = Some jv →
  setitem d key v w = Ok tt w' →
  ∃ kvs,
    doc = JObj kvs
    ∧ silent w w'
    ∧ holds (w_heap w') d a b (JObj (Json.assoc_set key jv kvs))
    ∧ same_outside a b (w_heap w) (w_heap w').
Proof.
  intros Hd Hv. unfold setitem. destruct d as [| | | | |l]; try done.
  destruct (w_heap w !! l) as [[?|ms]|] eqn:Hl; [done| |done].
  intros [= <-]. destruct (holds_dict _ _ _ _ _ _ Hd Hl) as [kvs ->].
  exists kvs. cbn. split_and!; [done|apply silent_set_heap|by apply setitem_holds|].
  apply same_outside_insert. by eapply holds_ref_range.
Qed.

(** [d[key]] on a dictionary that is a tree. *)
Lemma getitem_Ok d key x w w' a b doc :
  holds (w_heap w) d a b doc →
  getitem d key w = Ok x w' →
  w' = w
  ∧ ∃ kvs jx a' b',
      doc = JObj kvs ∧ Json.assoc key kvs = Some jx
      ∧ a < a' ∧ b' ≤ b ∧ holds (w_heap w) x a' b' jx
      ∧ ∀ h' jx',
          same_outside a' b' (w_heap w) h' → holds h' x a' b' jx' →
          holds h' d a b (JObj (Json.assoc_set key jx' kvs)).
Proof.
  intros Hd. unfold getitem. destruct d as [| | | | |l]; try done.
  destruct (w_heap w !! l) as [[?|ms]|] eqn:Hl; [done| |done].
  destruct (Json.assoc key ms) as [x0|] eqn:Hk; [|done].
  intros [= <- <-]. split; [done|].
  destruct (holds_dict _ _ _ _ _ _ Hd Hl) as [kvs ->].
  destruct (getitem_holds _ _ _ _ _ _ _ _ Hd Hl Hk)
    as (jx & a' & b' & Ha' & Hb' & Has & Hx & Hput).
  pose proof (holds_ref_range _ _ _ _ _ Hd) as Hrange.
  exists kvs, jx, a', b'. split_and!; try done. lia.
Qed.

Lemma as_path_Ok v s w w' : as_path v w = Ok s w' → v = VStr s ∧ w' = w.
Proof. destruct v; try done. by intros [= -> ->]. Qed.

(** [os.path.join(.., d[key])]: the entry has to be a string. *)
Lemma getitem_path_Ok d key x s w w1 w' a b kvs :
  holds (w_heap w) d a b (JObj kvs) →
  getitem d key w = Ok x w1 → as_path x w1 = Ok s w' →
  w1 = w ∧ w' = w ∧ Json.assoc key kvs = Some (JStr s).
Proof.
  intros Hd Hget Hpath.
  destruct (getitem_Ok _ _ _ _ _ _ _ _ Hd Hget)
    as (-> & kvs' & jx & a' & b' & [= <-] & Hk & _ & _ & Hx & _).
  destruct x; try done. inversion Hpath; subst.
  split_and!; [done|done|]. rewrite Hk. f_equal. by eapply holds_atom.
Qed.

(** *** The other operations *)

Lemma os_makedirs_Ok path exist_ok w w' :
  os_makedirs path exist_ok w = Ok tt w' →
  w_heap w' = w_heap w ∧ silent w w'.
Proof.
  unfold os_makedirs, silent. destruct (Fs.resolve _ _); [|done].
  destruct (Fs.get _ _) as [[?|?]|]; [done| |].
  - destruct exist_ok; [|done]. by intros [= <-].
  - destruct (Fs.mkdirs _ _); [|done]. intros [= <-]. cbn.
    by rewrite writes_app, launches_app, !app_nil_r.
Qed.

Lemma json_dump_Ok obj path sk ind w w' :
  json_dump obj path sk ind w = Ok tt w' →
  ∃ doc,
    dumps (w_heap w) obj = Some doc
    ∧ w_heap w' = w_heap w
    ∧ w_trace w' = w_trace w ++ [EvWrite path (Fs.JsonFile doc)].
Proof.
  unfold json_dump. destruct (dumps (w_heap w) obj) as [doc|].
  - unfold json_dump_doc, write_file. destruct (_ ≫= _); [|done].
    intros [= <-]. by exists doc.
  - intros (? & ? & _ & H)%bind_Ok. done.
Qed.

Lemma os_listdir_Ok path names w w' : os_listdir path w = Ok names w' → w' = w.
Proof.
  unfold os_listdir. destruct (lookup_path path w) as [[?|?]|]; try done.
  by intros [= _ ->].
Qed.

Lemma logger_info_Ok msg args w w' :
  logger_info msg args w = Ok tt w' → w_heap w' = w_heap w ∧ silent w w'.
Proof.
  intros [= <-]. split; [done|]. split; cbn.
  - by rewrite writes_app, app_nil_r.
  - by rewrite launches_app, app_nil_r.
Qed.

(** ** The configuration cell *)

Lemma stored_agree h h' v doc :
  stored h v doc → agree 0 (length h) h h' → stored h' v doc.
Proof.
  intros (a & b & Hv) A. exists a, b. eapply holds_agree; [done|].
  apply holds_le in Hv. eapply agree_sub; [done|lia..].
Qed.

Lemma stored_dumps h v doc : stored h v doc → dumps h v = Some doc.
Proof. intros (a & b & Hv). by eapply holds_dumps. Qed.

Lemma agree_extend n h h1 ext : agree 0 n h h1 → n ≤ length h → agree 0 n h (h1 ++ ext).
Proof.
  intros A Hn. eapply agree_trans; [done|]. apply agree_app. destruct A. lia.
Qed.

Lemma agree_outside n h h1 h2 a b :
  agree 0 n h h1 → same_outside a b h1 h2 → n ≤ a → agree 0 n h h2.
Proof.
  intros A Q Hn. eapply agree_trans; [done|]. eapply same_outside_agree; [done|lia].
Qed.

Ltac step H x w Hx := apply bind_Ok in H as (x & w & Hx & H).

(** One assignment [d[key] = atom] of the cell: [C] describes [d] before and
    after, [Q] what has changed since the copies were made, [S] that nothing
    was written. *)
Ltac set_step H C Q S kvs Ek :=
  let wn := fresh "w" in let Hs := fresh "Hs" in
  let Ss := fresh "Ss" in let C' := fresh "C" in let Q' := fresh "Q" in
  apply bind_Ok in H as ([] & wn & Hs & H);
  eapply setitem_Ok in Hs as (kvs & Ek & Ss & C' & Q'); [|exact C|reflexivity];
  apply (same_outside_trans _ _ _ _ _ Q) in Q';
  apply (silent_trans _ _ _ S) in Ss;
  clear C Q S; rename C' into C, Q' into Q, Ss into S.

(** One read [os.path.join(.., d[key])]. *)
Ltac path_step H C s K :=
  let x := fresh "x" in let wa := fresh "w" in let wb := fresh "w" in
  let Hg := fresh "Hg" in let Hp := fresh "Hp" in
  apply bind_Ok in H as (x & wa & Hg & H);
  apply bind_Ok in H as (s & wb & Hp & H);
  destruct (getitem_path_Ok _ _ _ _ _ _ _ _ _ _ C Hg Hp) as (-> & -> & K);
  clear Hg Hp x.

(** One [os.makedirs(.., exist_ok=True)]. *)
Ltac mkdir_step H C Q S :=
  let wn := fresh "w" in let Hm := fresh "Hm" in
  let Eh := fresh "Eh" in let Sm := fresh "Sm" in
  apply bind_Ok in H as ([] & wn & Hm & H);
  apply os_makedirs_Ok in Hm as (Eh & Sm);
  rewrite <- Eh in C, Q; apply (silent_trans _ _ _ S) in Sm;
  clear S Eh; rename Sm into S.

Lemma cell_6c7b434c_spec v w r w' :
  cell_6c7b434c v w = Ok r w' →
  ∃ env cfg def e m o train ae,
    lookup_path env_config_path w = Some (Fs.File (Fs.JsonFile (JObj env)))
    ∧ lookup_path model_config_path w = Some (Fs.File (Fs.JsonFile (JObj cfg)))
    ∧ lookup_path model_def_path w = Some (Fs.File (Fs.JsonFile (JObj def)))
    ∧ Json.assoc "embedding_base_dir" env = Some (JStr e)
    ∧ Json.assoc "model_dir" env = Some (JStr m)
    ∧ Json.assoc "output_dir" env = Some (JStr o)
    ∧ Json.assoc "diffusion_unet_train" cfg = Some (JObj train)
    ∧ Json.assoc "autoencoder_def" def = Some (JObj ae)
    ∧ writes (w_trace w')
      = writes (w_trace w)
        ++ config_writes v (JObj (patch_env v e m o env))
             (JObj (patch_sub "diffusion_unet_train" "n_epochs" (JInt 2) train cfg))
             (JObj (patch_sub "autoencoder_def" "num_splits" (JInt 4) ae def))
    ∧ launches (w_trace w') = launches (w_trace w)
    ∧ dumps (w_heap w') (env_config r) = Some (JObj env)
    ∧ dumps (w_heap w') (model_config r) = Some (JObj cfg)
    ∧ dumps (w_heap w') (model_def r) = Some (JObj def)
    ∧ stage_args r
      = ["--env_config";
         Py.os_path_join (work_dir v) "environment_maisi_diff_model.json";
         "--model_config"; Py.os_path_join (work_dir v) "config_maisi_diff_model.json";
         "--model_def"; Py.os_path_join (work_dir v) "config_maisi.json"]
    ∧ num_gpus r = 1%Z.
Proof.
  unfold cell_6c7b434c. intros H.
  (* the three loads *)
  step H ec w1 H1. apply json_load_Ok in H1 as (de & x1 & L1 & F1 & S1 & E1 & O1).
  step H mc w2 H2. apply json_load_Ok in H2 as (dm & x2 & L2 & F2 & S2 & E2 & O2).
  step H md w3 H3. apply json_load_Ok in H3 as (dd & x3 & L3 & F3 & S3 & E3 & O3).
  rewrite F1 in L2. rewrite F2, F1 in L3.
  pose proof (silent_trans _ _ _ (silent_trans _ _ _ S1 S2) S3) as S.
  clear S1 S2 S3 F1 F2 F3.
  assert (∃ h3, stored h3 ec de ∧ stored h3 mc dm ∧ stored h3 md dd
                ∧ agree 0 (length h3) h3 (w_heap w3)) as (h3 & O1' & O2' & O3' & A).
  { exists (w_heap w3). split_and!; [| |by eexists _, _|done].
    - eexists _, _. rewrite E3, E2, <- app_assoc. by apply holds_app.
    - eexists _, _. rewrite E3. by apply holds_app. }
  clear O1 O2 O3 E1 E2 E3 x1 x2 x3. rename O1' into O1, O2' into O2, O3' into O3.
  pose proof (proj1 A) as N3.
  (* the three copies *)
  step H eo w4 H4. destruct (stored_agree _ _ _ _ O1 A) as (ia & ib & O).
  eapply copy_deepcopy_Ok in H4 as (x4 & S4 & E4 & C1); [|exact O]. clear ia ib O.
  apply (agree_extend _ _ _ x4) in A; [|done]. rewrite <- E4 in A.
  step H mo w5 H5. destruct (stored_agree _ _ _ _ O2 A) as (ia & ib & O).
  eapply copy_deepcopy_Ok in H5 as (x5 & S5 & E5 & C2); [|exact O]. clear ia ib O.
  apply (agree_extend _ _ _ x5) in A; [|done]. rewrite <- E5 in A.
  step H do w6 H6. destruct (stored_agree _ _ _ _ O3 A) as (ia & ib & O).
  eapply copy_deepcopy_Ok in H6 as (x6 & S6 & E6 & C3); [|exact O]. clear ia ib O.
  apply (agree_extend _ _ _ x6) in A; [|done]. rewrite <- E6 in A.
  apply (holds_app _ x5) in C1. rewrite <- E5 in C1.
  apply (holds_app _ x6) in C1, C2. rewrite <- E6 in C1, C2.
  pose proof (holds_le _ _ _ _ _ C1) as B1.
  pose proof (holds_le _ _ _ _ _ C2) as B2.
  pose proof (holds_le _ _ _ _ _ C3) as B3.
  pose proof (silent_trans _ _ _ (silent_trans _ _ _ (silent_trans _ _ _ S S4) S5) S6)
    as S'. clear S S4 S5 S6 E4 E5 E6 x4 x5 x6. rename S' into S.
  revert N3 A C1 C2 C3 B1 B2 B3.
  generalize (length (w_heap w3)) as n3, (length (w_heap w4)) as n4,
    (length (w_heap w5)) as n5. intros n3 n4 n5 N3 A C1 C2 C3 B1 B2 B3.
  clear w1 w2 w3 w4 w5.
  set (n6 := length (w_heap w6)) in *.
  assert (Q : same_outside n3 n4 (w_heap w6) (w_heap w6)) by apply same_outside_refl.
  revert C2 C3 A Q. generalize (w_heap w6) at 1 2 3 4 as h6. intros h6 C2 C3 A Q.
  (* the environment configuration *)
  set_step H C1 Q S env Ek. subst de.
  path_step H C1 e Ke.
  set_step H C1 Q S k Ek. injection Ek as <-.
  set_step H C1 Q S k Ek. injection Ek as <-.
  path_step H C1 m Km.
  set_step H C1 Q S k Ek. injection Ek as <-.
  path_step H C1 o Ko.
  set_step H C1 Q S k Ek. injection Ek as <-.
  set_step H C1 Q S k Ek. injection Ek as <-.
  path_step H C1 e' Ke'. mkdir_step H C1 Q S.
  path_step H C1 m' Km'. mkdir_step H C1 Q S.
  path_step H C1 o' Ko'. mkdir_step H C1 Q S.
  clear e' m' o' Ke' Km' Ko'.
  rewrite assoc_set_ne in Ke by done.
  rewrite !assoc_set_ne in Km by done.
  rewrite !assoc_set_ne in Ko by done.
  fold (patch_env v e m o env) in C1.
  (* the first file *)
  step H u1 wa D1. destruct u1.
  apply json_dump_Ok in D1 as (doc1 & Hd1 & Eh1 & Et1).
  rewrite (holds_dumps _ _ _ _ _ C1) in Hd1. injection Hd1 as <-.
  rewrite <- Eh1 in C1, Q. clear Eh1.
  (* the model configuration *)
  apply (holds_outside _ (w_heap wa)) with (a' := n3) (b' := n4) in C2 as C2';
    [|done|lia].
  step H x wb Hg.
  destruct (getitem_Ok _ _ _ _ _ _ _ _ C2' Hg)
    as (-> & cfg & jx & a2 & b2 & -> & Kt & La2 & Lb2 & Hx & Put2). clear Hg.
  step H u2 wc Hs. destruct u2.
  eapply setitem_Ok in Hs as (train & Ek & S2 & Cx & Q2); [|exact Hx|reflexivity].
  subst jx.
  specialize (Put2 _ _ Q2 Cx). clear Cx Hx C2' C2.
  step H u2 wd D2. destruct u2.
  apply json_dump_Ok in D2 as (doc2 & Hd2 & Eh2 & Et2).
  rewrite (holds_dumps _ _ _ _ _ Put2) in Hd2. injection Hd2 as <-.
  rewrite <- Eh2 in Put2, Q2. clear Eh2.
  (* the model definition *)
  apply (holds_outside _ (w_heap wa)) with (a' := n3) (b' := n4) in C3 as C3';
    [|done|lia].
  apply (holds_outside _ (w_heap wd)) with (a' := a2) (b' := b2) in C3';
    [|done|lia].
  step H x' we Hg.
  destruct (getitem_Ok _ _ _ _ _ _ _ _ C3' Hg)
    as (-> & def & jy & a3 & b3 & -> & Ka & La3 & Lb3 & Hy & Put3). clear Hg.
  step H u3 wf Hs. destruct u3.
  eapply setitem_Ok in Hs as (ae & Ek & S3 & Cy & Q3); [|exact Hy|reflexivity].
  subst jy.
  specialize (Put3 _ _ Q3 Cy). clear Cy Hy C3' C3.
  step H u3 wg D3. destruct u3.
  apply json_dump_Ok in D3 as (doc3 & Hd3 & Eh3 & Et3).
  rewrite (holds_dumps _ _ _ _ _ Put3) in Hd3. injection Hd3 as <-.
  rewrite <- Eh3 in Put3, Q3. clear Eh3.
  (* the two log lines *)
  step H names wh Hl. apply os_listdir_Ok in Hl as ->.
  step H u4 wi G1. destruct u4. apply logger_info_Ok in G1 as (Eh4 & S4).
  step H u5 wj G2. destruct u5. apply logger_info_Ok in G2 as (Eh5 & S5).
  apply ret_Ok in H as (-> & ->).
  rewrite Eh5, Eh4.
  assert (A' : agree 0 (length h3) h3 (w_heap wg)).
  { eapply agree_outside; [|exact Q3|lia].
    eapply agree_outside; [|exact Q2|lia].
    eapply agree_outside; [|exact Q|lia]. done. }
  exists env, cfg, def, e, m, o, train, ae.
  split_and!; try done.
  - destruct S as [S _], S2 as [S2 _], S3 as [S3 _], S4 as [S4 _], S5 as [S5 _].
    rewrite S5, S4, Et3, writes_app, S3, Et2, writes_app, S2, Et1, writes_app, S.
    by rewrite <- !app_assoc.
  - destruct S as [_ S], S2 as [_ S2], S3 as [_ S3], S4 as [_ S4], S5 as [_ S5].
    rewrite S5, S4, Et3, launches_app, S3, Et2, launches_app, S2, Et1, launches_app, S.
    cbn. by rewrite !app_nil_r.
  - cbn. eapply stored_dumps, stored_agree; done.
  - cbn. eapply stored_dumps, stored_agree; done.
  - cbn. eapply stored_dumps, stored_agree; done.
Qed.

(** ** The step that writes the files beside the embeddings *)




(** ** The cell of the simulated data *)

Lemma os_path_isdir_Ok path b w w' : os_path_isdir path w = Ok b w' → w' = w.
Proof. by intros [= _ <-]. Qed.

Lemma write_file_Ok path f w w' :
  write_file path f w = Ok tt w' →
  w_heap w' = w_heap w ∧ w_cwd w' = w_cwd w
  ∧ w_trace w' = w_trace w ++ [EvWrite path f]
  ∧ lookup_path path w' = Some (Fs.File f).
Proof.
  unfold write_file, lookup_path.
  destruct (Fs.resolve (w_cwd w) path) as [p|] eqn:Hp; [|done]. cbn.
  destruct (Fs.put p f (w_fs w)) as [t'|] eqn:Hput; [|done].
  intros [= <-]. cbn. rewrite Hp. cbn. split_and!; try done. by eapply put_get_same.
Qed.

Lemma write_file_other path f q w w' cp cq :
  write_file path f w = Ok tt w' →
  Fs.resolve (w_cwd w) path = Some cp → Fs.resolve (w_cwd w) q = Some cq →
  cq ≠ cp → Fs.is_dir (lookup_path q w) = false →
  lookup_path q w' = lookup_path q w.
Proof.
  unfold write_file, lookup_path. intros H Hp Hq Hne. rewrite Hp in H. cbn in H.
  destruct (Fs.put cp f (w_fs w)) as [t'|] eqn:Hput; [|done].
  injection H as <-. cbn. rewrite Hq. cbn. intros Hdir. by eapply put_get_other.
Qed.

Lemma logger_info_lookup msg args w w' p :
  logger_info msg args w = Ok tt w' → lookup_path p w' = lookup_path p w.
Proof. by intros [= <-]. Qed.

Lemma when_makedirs_Ok b path w w' :
  when b (os_makedirs path false) w = Ok tt w' →
  w_heap w' = w_heap w ∧ silent w w'.
Proof.
  intros [[_ H]|[_ ->]]%when_Ok; [by eapply os_makedirs_Ok|].
  split; [done|apply silent_refl].
Qed.

Lemma silent_writes_step w0 w w' ws p f :
  writes (w_trace w) = writes (w_trace w0) ++ ws →
  w_trace w' = w_trace w ++ [EvWrite p f] →
  writes (w_trace w') = writes (w_trace w0) ++ ws ++ [(p, f)].
Proof. intros Hw ->. by rewrite writes_app, Hw, <- app_assoc. Qed.

Lemma resolve_datalist cwd :
  Fs.resolve cwd "./temp_work_dir/sim_datalist.json"
  = Some (cwd ++ ["temp_work_dir"; "sim_datalist.json"]).
Proof. unfold Fs.resolve. cbn. by rewrite <- app_assoc. Qed.

Lemma resolve_image_1 cwd :
  Fs.resolve cwd "./temp_work_dir/sim_dataroot/tr_image_001.nii.gz"
  = Some (cwd ++ ["temp_work_dir"; "sim_dataroot"; "tr_image_001.nii.gz"]).
Proof. unfold Fs.resolve. cbn. by rewrite <- !app_assoc. Qed.

Lemma resolve_image_2 cwd :
  Fs.resolve cwd "./temp_work_dir/sim_dataroot/tr_image_002.nii.gz"
  = Some (cwd ++ ["temp_work_dir"; "sim_dataroot"; "tr_image_002.nii.gz"]).
Proof. unfold Fs.resolve. cbn. by rewrite <- !app_assoc. Qed.

Section SimulatedData.

Context (rng : Type) (RandomState : Z → rng).
Context (create_test_image_3d :
           Z → Z → Z → Z → Z → rng → (Fs.ndarray * Fs.ndarray) * rng).
Context (zooms_of_affine : list (list float) → list Fs.float32).

Lemma cell_1b199078_spec w r w' :
  cell_1b199078 rng RandomState create_test_image_3d zooms_of_affine w = Ok r w' →
  r = the_sim_vars
  ∧ writes (w_trace w')
    = writes (w_trace w)
      ++ sim_writes rng RandomState create_test_image_3d zooms_of_affine
  ∧ launches (w_trace w') = launches (w_trace w)
  ∧ w_heap w' = w_heap w
  ∧ Forall (λ wr, lookup_path wr.1 w' = Some (Fs.File wr.2))
      (sim_writes rng RandomState create_test_image_3d zooms_of_affine).
Proof.
  unfold cell_1b199078. intros H.
  step H b1 w1 H1. apply os_path_isdir_Ok in H1 as ->.
  step H u1 w1 H1. destruct u1. apply when_makedirs_Ok in H1 as (E1 & S1).
  step H b2 w2 H2. apply os_path_isdir_Ok in H2 as ->.
  step H u2 w2 H2. destruct u2. apply when_makedirs_Ok in H2 as (E2 & S2).
  step H u3 w3 H3. destruct u3. apply write_file_Ok in H3 as (E3 & D3 & T3 & L3).
  step H tr w4 H4. apply ret_Ok in H4 as (-> & ->).
  step H items w4 H4. apply ret_Ok in H4 as (-> & ->).
  step H u5 w5 H5. destruct u5.
  step H u6 w6 H6. destruct u6.
  pose proof (λ p, logger_info_lookup _ _ _ _ p H6) as F6.
  apply logger_info_Ok in H6 as (E6 & S6).
  apply ret_Ok in H as (-> & ->).
  cbn [for_] in H5. unfold sim_dim in H5. cbn [fst snd] in H5.
  destruct (create_test_image_3d 224 224 96 10 1 (RandomState 42))
    as [[im seg] rs] eqn:Him.
  step H5 u7 w7 H7. destruct u7.
  step H7 n1 w8 H8. apply ret_Ok in H8 as (-> & ->).
  step H7 n1 w8 H8. apply ret_Ok in H8 as (-> & ->).
  pose proof (write_file_other _ _ _ _ _ _ _ H7 (resolve_image_1 _) (resolve_datalist _))
    as F7.
  apply write_file_Ok in H7 as (E7 & D7 & T7 & L7).
  step H5 u9 w9 H9. destruct u9. apply ret_Ok in H5 as (_ & ->).
  step H9 n2 w10 H10. apply ret_Ok in H10 as (-> & ->).
  step H9 n2 w10 H10. apply ret_Ok in H10 as (-> & ->).
  pose proof (write_file_other _ _ _ _ _ _ _ H9 (resolve_image_2 _) (resolve_datalist _))
    as F9.
  pose proof (write_file_other _ _ _ _ _ _ _ H9 (resolve_image_2 _) (resolve_image_1 _))
    as G9.
  apply write_file_Ok in H9 as (E9 & D9 & T9 & L9).
  split_and!.
  - done.
  - destruct S6 as [-> _]. rewrite T9, T7, T3, !writes_app.
    destruct S2 as [-> _], S1 as [-> _]. unfold sim_writes, sim_image. rewrite Him.
    by rewrite <- !app_assoc.
  - destruct S6 as [_ ->]. rewrite T9, T7, T3, !launches_app.
    destruct S2 as [_ ->], S1 as [_ ->]. cbn. by rewrite !app_nil_r.
  - congruence.
  - unfold sim_writes, sim_image. rewrite Him.
    change (lookup_path "./temp_work_dir/sim_datalist.json" w3 =
            Some (Fs.File (Fs.JsonFile sim_datalist))) in L3.
    change (Py.os_path_join _ _) with "./temp_work_dir/sim_dataroot/tr_image_001.nii.gz"
      in L7.
    change (Py.os_path_join _ _) with "./temp_work_dir/sim_dataroot/tr_image_002.nii.gz"
      in L9.
    assert (N : ∀ (l : list string) a b c d, l ++ [a; b] ≠ l ++ [a; c; d]).
    { intros l a b c d E. by apply app_inv_head in E. }
    repeat apply Forall_cons_2; [..|done]; cbn [fst snd]; rewrite F6.
    + rewrite F9, F7, L3; [done|apply N|by rewrite L3|apply N|].
      by rewrite F7, L3; [|apply N|by rewrite L3].
    + rewrite G9, L7; [done| |by rewrite L7].
      intros E. by apply app_inv_head in E.
    + done.
Qed.

End SimulatedData.

(** ** The cells around the stages *)

Lemma writes_prints out : writes (map EvPrint out) = [].
Proof. by induction out. Qed.

Lemma getitem_same d key x w w' : getitem d key w = Ok x w' → w' = w.
Proof.
  unfold getitem. destruct d as [| | | | |l]; try done.
  destruct (w_heap w !! l) as [[?|ms]|]; try done.
  destruct (Json.assoc key ms); [|done]. by intros [= _ <-].
Qed.

Lemma nib_load_Ok path img w w' :
  nib_load path w = Ok img w' → w' = w ∧ image_at path w = Some img.
Proof.
  unfold nib_load, image_at.
  destruct (lookup_path path w) as [[[]|?]|]; try done. by intros [= <- <-].
Qed.

Lemma create_json_files_Ok gzs w w' :
  create_json_files gzs w = Ok tt w' →
  w_heap w' = w_heap w
  ∧ launches (w_trace w') = launches (w_trace w)
  ∧ ∃ ws, writes (w_trace w') = writes (w_trace w) ++ ws ∧ Forall2 sidecar_for gzs ws.
Proof.
  unfold create_json_files. revert w.
  induction gzs as [|p gzs IH]; intros w H.
  - apply ret_Ok in H as (_ & ->). split_and!; [done..|].
    exists []. split; [by rewrite app_nil_r|constructor].
  - cbn [for_] in H. step H u w1 H1. destruct u.
    step H1 img w2 H2. apply nib_load_Ok in H2 as (-> & Himg).
    step H1 u w2 H2. destruct u. apply logger_info_Ok in H2 as (E2 & S2 & L2).
    apply write_file_Ok in H1 as (E1 & _ & T1 & _).
    apply IH in H as (E & L & ws & W & F).
    split_and!.
    + congruence.
    + by rewrite L, T1, launches_app, L2, app_nil_r.
    + exists ((p +:+ ".json", Fs.JsonFile (sidecar img)) :: ws). split.
      * by rewrite W, T1, writes_app, S2, <- app_assoc.
      * constructor; [by exists img|done].
Qed.

Lemma cell_0221a658_Ok v w w' :
  cell_0221a658 v w = Ok tt w' →
  w_heap w' = w_heap w
  ∧ launches (w_trace w') = launches (w_trace w)
  ∧ ∃ gzs ws, writes (w_trace w') = writes (w_trace w) ++ ws
              ∧ Forall2 sidecar_for gzs ws.
Proof.
  unfold cell_0221a658. intros H.
  step H x w1 H1. apply getitem_same in H1 as ->.
  step H folder w1 H1. apply as_path_Ok in H1 as (_ & ->).
  step H gzs w1 H1. rewrite list_gz_files_run in H1. injection H1 as <- <-.
  step H u w1 H1. destruct u. apply create_json_files_Ok in H1 as (E & L & ws & W & F).
  apply logger_info_Ok in H as (E' & S' & L').
  split_and!; [congruence|congruence|].
  exists (gz_files_of folder w), ws. split; [congruence|done].
Qed.

Section Stages.

Context (spawn : list string → gmap string string → world → option Proc.popen).

(** Whatever becomes of the child, [run_torchrun] has called
    [subprocess.Popen] once and has written no file. *)
Lemma run_torchrun_trace module module_args num_gpus w :
  let w' := world_of (run_torchrun spawn module module_args num_gpus w) in
  launches (w_trace w')
  = launches (w_trace w)
    ++ [(torchrun_command module module_args num_gpus,
         <["OMP_NUM_THREADS" := "1"]> (w_environ w))]
  ∧ writes (w_trace w') = writes (w_trace w)
  ∧ w_heap w' = w_heap w
  ∧ w_environ w' = w_environ w.
Proof.
  cbv zeta.
  destruct (spawn (torchrun_command module module_args num_gpus)
              (<["OMP_NUM_THREADS" := "1"]> (w_environ w)) w) as [p|] eqn:Hsp.
  - destruct (run_torchrun_returns _ _ _ _ _ _ Hsp) as (p' & out & -> & _).
    cbn. rewrite !launches_app, !writes_app, launches_prints, writes_prints.
    cbn. by rewrite !app_nil_r.
  - rewrite run_torchrun_unfold. cbv zeta. rewrite Hsp. cbn.
    rewrite !launches_app, !writes_app. cbn. by rewrite !app_nil_r.
Qed.

Lemma run_torchrun_Ok module module_args num_gpus w w' :
  run_torchrun spawn module module_args num_gpus w = Ok tt w' →
  launches (w_trace w')
  = launches (w_trace w)
    ++ [(torchrun_command module module_args num_gpus,
         <["OMP_NUM_THREADS" := "1"]> (w_environ w))]
  ∧ writes (w_trace w') = writes (w_trace w)
  ∧ w_heap w' = w_heap w
  ∧ w_environ w' = w_environ w.
Proof.
  intros H. pose proof (run_torchrun_trace module module_args num_gpus w) as T.
  cbv zeta in T. by rewrite H in T.
Qed.

End Stages.

(** ** The stages *)

Lemma volumes_app ws1 ws2 : volumes (ws1 ++ ws2) = volumes ws1 ++ volumes ws2.
Proof. unfold volumes. by rewrite omap_app. Qed.

Lemma logger_info_eq msg args w w' :
  logger_info msg args w = Ok tt w' → w' = emit (EvLog msg args) w.
Proof. by intros [= <-]. Qed.

Lemma bind_run {A B} (c : M A) (k : A → M B) w a w1 :
  c w = Ok a w1 → (c ≫= k) w = k a w1.
Proof. unfold mbind, M_bind. by intros ->. Qed.

Section Pipeline.

Context (spawn : list string → gmap string string → world → option Proc.popen).

(** One stage cell without its last log line. *)
Lemma stage_Ok msg module v w w' :
  (logger_info msg [];; run_torchrun spawn module (stage_args v) (num_gpus v)) w
  = Ok tt w' →
  launches (w_trace w')
  = launches (w_trace w)
    ++ [(torchrun_command module (stage_args v) (num_gpus v),
         <["OMP_NUM_THREADS" := "1"]> (w_environ w))]
  ∧ writes (w_trace w') = writes (w_trace w)
  ∧ w_heap w' = w_heap w
  ∧ w_environ w' = w_environ w.
Proof.
  intros H. step H u w1 H1. destruct u. apply logger_info_eq in H1 as ->.
  apply run_torchrun_Ok in H as (L & W & E & V). cbn in L, W, E, V.
  by rewrite launches_app, writes_app, !app_nil_r in *.
Qed.



Lemma cell_1626526d_Ok v w w' :
  cell_1626526d spawn v w = Ok tt w' →
  launches (w_trace w')
  = launches (w_trace w)
    ++ [(torchrun_command "scripts.diff_model_infer" (stage_args v) (num_gpus v),
         <["OMP_NUM_THREADS" := "1"]> (w_environ w))]
  ∧ writes (w_trace w') = writes (w_trace w)
  ∧ w_heap w' = w_heap w.
Proof.
  unfold cell_1626526d. intros H.
  step H u w1 H1. destruct u. apply logger_info_eq in H1 as ->.
  step H u w1 H1. destruct u. apply logger_info_eq in H as ->.
  apply run_torchrun_Ok in H1 as (L & W & E & V). cbn in *.
  by rewrite !launches_app, !writes_app, !app_nil_r in *.
Qed.



End Pipeline.

Section Run.

Context (rng : Type) (RandomState : Z → rng).
Context (create_test_image_3d :
           Z → Z → Z → Z → Z → rng → (Fs.ndarray * Fs.ndarray) * rng).
Context (zooms_of_affine : list (list float) → list Fs.float32).
Context (spawn : list string → gmap string string → world → option Proc.popen).

Lemma notebook_spec w w' :
  notebook rng RandomState create_test_image_3d zooms_of_affine spawn w = Ok tt w' →
  ∃ env cfg def gzs ws,
    writes (w_trace w')
    = writes (w_trace w)
      ++ sim_writes rng RandomState create_test_image_3d zooms_of_affine
      ++ config_writes the_sim_vars (JObj env) (JObj cfg) (JObj def)
      ++ ws
    ∧ Forall2 sidecar_for gzs ws
    ∧ map fst (launches (w_trace w'))
      = map fst (launches (w_trace w)) ++ the_stage_commands.
Proof.
  unfold notebook. intros H.
  step H u w1 H1. destruct u. injection H1 as <-.
  step H u w2 H2. destruct u. injection H2 as <-.
  step H v1 w3 H3. apply cell_1b199078_spec in H3 as (-> & W3 & L3 & _).
  step H v2 w4 H4.
  apply cell_6c7b434c_spec in H4
    as (env & cfg & def & e & m & o & train & ae & _ & _ & _ & _ & _ & _ & _ & _
        & W4 & L4 & _ & _ & _ & A4 & G4).
  step H u w5 H5. destruct u. apply stage_Ok in H5 as (L5 & W5 & _).
  step H u w6 H6. destruct u. apply cell_0221a658_Ok in H6 as (_ & L6 & gzs & ws & W6 & F6).
  step H u w7 H7. destruct u. apply stage_Ok in H7 as (L7 & W7 & _).
  apply cell_1626526d_Ok in H as (L8 & W8 & _).
  rewrite A4, G4 in L5, L7, L8. cbn in W3, L3.
  rewrite !writes_app, !app_nil_r in W3. rewrite !launches_app, !app_nil_r in L3.
  eexists _, _, _, gzs, ws. split_and!; [|done|].
  - rewrite W8, W7, W6, W5, W4, W3. by rewrite <- !app_assoc.
  - rewrite L8, L7, L6, L5, L4, L3, !map_app. by rewrite <- !app_assoc.
Qed.

End Run.

(** * The claims *)

Section Claims.

Context (rng : Type) (RandomState : Z → rng).
Context (create_test_image_3d :
           Z → Z → Z → Z → Z → rng → (Fs.ndarray * Fs.ndarray) * rng).
Context (zooms_of_affine : list (list float) → list Fs.float32).
Context (spawn : list string → gmap string string → world → option Proc.popen).

(** C1: a run of the notebook that comes to its end has called
    [subprocess.Popen] exactly three times, with the [torchrun] command lines
    of [scripts.diff_model_create_training_data], [scripts.diff_model_train]
    and [scripts.diff_model_infer] in this order, each followed by the same
    three configuration files. *)
Theorem notebook_launches_three_stages (w w' : world) :
  notebook rng RandomState create_test_image_3d zooms_of_affine spawn w = Ok tt w' →
  map fst (launches (w_trace w'))
  = map fst (launches (w_trace w))
    ++ map (λ module,
              ["torchrun"; "--nproc_per_node"; "1"; "--nnodes"; "1"; "-m"; module;
               "--env_config"; "./temp_work_dir/environment_maisi_diff_model.json";
               "--model_config"; "./temp_work_dir/config_maisi_diff_model.json";
               "--model_def"; "./temp_work_dir/config_maisi.json"])
         ["scripts.diff_model_create_training_data"; "scripts.diff_model_train";
          "scripts.diff_model_infer"].
Proof.
  intros H. by apply notebook_spec in H as (_ & _ & _ & _ & _ & _ & _ & H).
Qed.


(** C5: the cell of the simulated data, when it returns, has written the
    data list, whose training list names [tr_image_001.nii.gz] and
    [tr_image_002.nii.gz], to [sim_datalist.json] in the work directory, and
    then, for each of the two names in turn, one NIfTI image under that name
    in the data root; the image is the array [create_test_image_3d] gives for
    224, 224 and 96, so of these dimensions if that function keeps to them,
    with the 4x4 identity as affine; the three files are there afterwards. *)
Theorem simulated_data_written (w w' : world) (r : sim_vars) :
  (∀ rs,
     Fs.nd_shape (create_test_image_3d 224 224 96 10 1 rs).1.1 = [224; 224; 96]%Z) →
  cell_1b199078 rng RandomState create_test_image_3d zooms_of_affine w = Ok r w' →
  ∃ img new,
    let names := ["tr_image_001.nii.gz"; "tr_image_002.nii.gz"] in
    writes (w_trace w') = writes (w_trace w) ++ new
    ∧ new = (datalist_file r, Fs.JsonFile sim_datalist)
            :: map (λ name, (Py.os_path_join (dataroot_dir r) name, Fs.NiftiFile img))
                 names
    ∧ Json.member "training" sim_datalist
      = Some (JArr (map (λ name, JObj [("image", JStr name)]) names))
    ∧ work_dir r = "./temp_work_dir"
    ∧ datalist_file r = Py.os_path_join (work_dir r) "sim_datalist.json"
    ∧ dataroot_dir r = Py.os_path_join (work_dir r) "sim_dataroot"
    ∧ Fs.nii_data img = (create_test_image_3d 224 224 96 10 1 (RandomState 42)).1.1
    ∧ Fs.nii_shape img = [224; 224; 96]%Z
    ∧ Fs.nii_affine img
      = [[1; 0; 0; 0]; [0; 1; 0; 0]; [0; 0; 1; 0]; [0; 0; 0; 1]]%float
    ∧ Forall (λ wr, lookup_path wr.1 w' = Some (Fs.File wr.2)) new.
Proof.
  intros Hshape H. apply cell_1b199078_spec in H as (-> & W & _ & _ & F).
  eexists _, _. cbv zeta. split_and!; [exact W|done..|apply Hshape|done|exact F].
Qed.

(** C8: any two runs of the cell of the simulated data that return write
    the same two images, and the image written as [tr_image_001.nii.gz] is
    the one written as [tr_image_002.nii.gz]: each is made from the array
    that [create_test_image_3d] gives for a new [RandomState(42)]. *)
Theorem simulated_images_deterministic (w1 w1' w2 w2' : world) (r1 r2 : sim_vars) :
  cell_1b199078 rng RandomState create_test_image_3d zooms_of_affine w1 = Ok r1 w1' →
  cell_1b199078 rng RandomState create_test_image_3d zooms_of_affine w2 = Ok r2 w2' →
  ∃ img new,
    volumes (writes (w_trace w1')) = volumes (writes (w_trace w1)) ++ new
    ∧ volumes (writes (w_trace w2')) = volumes (writes (w_trace w2)) ++ new
    ∧ new = [("./temp_work_dir/sim_dataroot/tr_image_001.nii.gz", img);
             ("./temp_work_dir/sim_dataroot/tr_image_002.nii.gz", img)]
    ∧ Fs.nii_data img = (create_test_image_3d 224 224 96 10 1 (RandomState 42)).1.1.
Proof.
  intros H1 H2.
  apply cell_1b199078_spec in H1 as (_ & W1 & _).
  apply cell_1b199078_spec in H2 as (_ & W2 & _).
  eexists _, _. rewrite W1, W2, !volumes_app. by split_and!.
Qed.

(** C3: whatever becomes of the child, [run_torchrun] calls
    [subprocess.Popen] exactly once, with the command line [torchrun
    --nproc_per_node str(num_gpus) --nnodes 1 -m module] followed by the
    module's arguments, and with the environment of the caller in which
    [OMP_NUM_THREADS] is ["1"]. *)
Theorem run_torchrun_command_and_env (module : string) (module_args : list string)
    (num_gpus : Z) (w : world) :
  ∃ env,
    launches (w_trace (world_of (run_torchrun spawn module module_args num_gpus w)))
    = launches (w_trace w)
      ++ [(["torchrun"; "--nproc_per_node"; Py.str_int num_gpus; "--nnodes"; "1";
            "-m"; module] ++ module_args, env)]
    ∧ env !! "OMP_NUM_THREADS" = Some "1"
    ∧ ∀ name, name ≠ "OMP_NUM_THREADS" → env !! name = w_environ w !! name.
Proof.
  exists (<["OMP_NUM_THREADS" := "1"]> (w_environ w)).
  destruct (run_torchrun_trace spawn module module_args num_gpus w) as (L & _).
  split_and!; [exact L|apply lookup_insert_eq|].
  intros name Hne. by apply lookup_insert_ne.
Qed.



End Claims.



(** C10: when the configuration cell returns, the three dictionaries loaded
    from the files under [./configs] denote what these files held when they
    were read: the cell has changed the copies only. *)
Theorem loaded_configs_not_mutated (v : sim_vars) (w w' : world) (r : cfg_vars) :
  cell_6c7b434c v w = Ok r w' →
  ∃ env cfg def,
    lookup_path "./configs/environment_maisi_diff_model.json" w
    = Some (Fs.File (Fs.JsonFile env))
    ∧ lookup_path "./configs/config_maisi_diff_model.json" w
      = Some (Fs.File (Fs.JsonFile cfg))
    ∧ lookup_path "./configs/config_maisi.json" w = Some (Fs.File (Fs.JsonFile def))
    ∧ Heap.dumps (w_heap w') (env_config r) = Some env
    ∧ Heap.dumps (w_heap w') (model_config r) = Some cfg
    ∧ Heap.dumps (w_heap w') (model_def r) = Some def.
Proof.
  intros H. apply cell_6c7b434c_spec in H
    as (env & cfg & def & _ & _ & _ & _ & _ & L1 & L2 & L3 & _ & _ & _ & _ & _
        & _ & _ & D1 & D2 & D3 & _).
  by exists (JObj env), (JObj cfg), (JObj def).
Qed.

(** ** The claims on the sample run *)

(** The sample run comes to its end, and has launched the three stages. *)
Lemma notebook_launches_three_stages_witness :
  ∃ w', sample_run = Ok tt w'
        ∧ map fst (launches (w_trace w')) = the_stage_commands.
Proof.
  exists (world_of sample_run).
  assert (H : sample_run = Ok tt (world_of sample_run)) by (vm_compute; exact eq_refl).
  split; [exact H|].
  rewrite (notebook_launches_three_stages Z id sample_create sample_zooms sample_spawn
             sample_world (world_of sample_run) H).
  vm_compute. exact eq_refl.
Defined.



(** The cell of the simulated data in the sample world. *)
Lemma simulated_data_written_witness :
  ∃ r w', cell_1b199078 Z id sample_create sample_zooms sample_world = Ok r w'
          ∧ length (writes (w_trace w')) = 3.
Proof.
  destruct (cell_1b199078 Z id sample_create sample_zooms sample_world)
    as [r w'|e w'|w'] eqn:H; [|by vm_compute in H..].
  exists r, w'. split; [reflexivity|].
  destruct (simulated_data_written Z id sample_create sample_zooms sample_world w' r
              (λ _, eq_refl) H) as (img & new & W & -> & _).
  rewrite W. reflexivity.
Defined.

(** Two runs of that cell, in two worlds. *)
Lemma simulated_images_deterministic_witness :
  ∃ r1 w1' r2 w2',
    cell_1b199078 Z id sample_create sample_zooms sample_world = Ok r1 w1'
    ∧ cell_1b199078 Z id sample_create sample_zooms sample_embeddings = Ok r2 w2'
    ∧ volumes (writes (w_trace w1')) = volumes (writes (w_trace w2')).
Proof.
  destruct (cell_1b199078 Z id sample_create sample_zooms sample_world)
    as [r1 w1'|e w1'|w1'] eqn:H1; [|by vm_compute in H1..].
  destruct (cell_1b199078 Z id sample_create sample_zooms sample_embeddings)
    as [r2 w2'|e w2'|w2'] eqn:H2; [|by vm_compute in H2..].
  exists r1, w1', r2, w2'. split_and!; [reflexivity..|].
  destruct (simulated_images_deterministic Z id sample_create sample_zooms
              sample_world w1' sample_embeddings w2' r1 r2 H1 H2)
    as (img & new & V1 & V2 & _).
  rewrite V1, V2. reflexivity.
Defined.






(** The environment loaded in the sample world, after the cell. *)
Lemma loaded_configs_not_mutated_witness :
  ∃ r w', cell_6c7b434c the_sim_vars sample_world = Ok r w'
          ∧ Heap.dumps (w_heap w') (env_config r) = Some sample_env.
Proof.
  destruct (cell_6c7b434c the_sim_vars sample_world) as [r w'|e w'|w'] eqn:H;
    [|by vm_compute in H..].
  exists r, w'. split; [reflexivity|].
  destruct (loaded_configs_not_mutated the_sim_vars sample_world w' r H)
    as (env & cfg & def & L1 & _ & _ & D1 & _).
  rewrite D1. vm_compute in L1. injection L1 as <-. exact eq_refl.
Defined.

(** * Further properties *)

(** ** Making directories *)

Lemma mkdirs_nil t : Fs.mkdirs [] t = match t with Fs.Dir _ => Some t | _ => None end.
Proof. by destruct t. Qed.

Lemma mkdirs_cons n p es :
  Fs.mkdirs (n :: p) (Fs.Dir es)
  = c' ← Fs.mkdirs p (default (Fs.Dir []) (Json.assoc n es));
    Some (Fs.Dir (Json.assoc_set n c' es)).
Proof. done. Qed.

Lemma get_cons n p es :
  Fs.get (Fs.Dir es) (n :: p) = c ← Json.assoc n es; Fs.get c p.
Proof. done. Qed.

(** A directory that was not there is empty once made. *)
Lemma mkdirs_fresh p t t' :
  Fs.mkdirs p t = Some t' →
  Fs.get t p = None ∨ t = Fs.Dir [] →
  Fs.get t' p = Some (Fs.Dir []).
Proof.
  revert t t'. induction p as [|n p IH]; intros t t' Hmk Hget.
  - destruct Hget as [Hget| ->]; [done|]. by injection Hmk as <-.
  - destruct t as [f|es]; [done|]. rewrite mkdirs_cons in Hmk.
    destruct (Fs.mkdirs p _) as [c'|] eqn:Hc; [|done]. injection Hmk as <-.
    rewrite get_cons, assoc_set_eq. cbn. apply (IH _ _ Hc).
    destruct Hget as [Hget|[= ->]]; [|by right].
    rewrite get_cons in Hget. destruct (Json.assoc n es) as [c|]; [by left|by right].
Qed.

(** A new entry of a directory that is there can be made. *)
Lemma mkdirs_child d n t :
  Fs.is_dir (Fs.get t d) = true → Fs.get t (d ++ [n]) = None →
  is_Some (Fs.mkdirs (d ++ [n]) t).
Proof.
  revert t. induction d as [|m d IH]; intros t Hdir Hnone.
  - destruct t as [f|es]; [done|]. cbn [app] in *. rewrite mkdirs_cons.
    rewrite get_cons in Hnone. destruct (Json.assoc n es) as [c|]; [done|].
    by eexists.
  - destruct t as [f|es]; [done|]. cbn [app] in *.
    rewrite get_cons in Hdir, Hnone. rewrite mkdirs_cons.
    destruct (Json.assoc m es) as [c|]; [|done]. cbn in *.
    destruct (IH c Hdir Hnone) as [c' ->]. by eexists.
Qed.

(** Directories are made along the path only. *)
Lemma mkdirs_is_dir_inv p t t' q :
  Fs.mkdirs p t = Some t' →
  Fs.is_dir (Fs.get t' q) = true →
  Fs.is_dir (Fs.get t q) = true ∨ ∃ r, p = q ++ r.
Proof.
  revert t t' q. induction p as [|n p IH]; intros t t' q Hmk Hdir.
  - rewrite mkdirs_nil in Hmk. destruct t; [done|]. injection Hmk as <-. by left.
  - destruct t as [f|es]; [done|]. rewrite mkdirs_cons in Hmk.
    destruct (Fs.mkdirs p _) as [c'|] eqn:Hc; [|done]. injection Hmk as <-.
    destruct q as [|m q]; [by left|].
    rewrite get_cons, assoc_set_lookup in Hdir. rewrite get_cons.
    destruct (String.eqb m n) eqn:E.
    + apply String.eqb_eq in E as ->. cbn in Hdir.
      destruct (IH _ _ q Hc Hdir) as [Hq|[r ->]]; [|right; by exists r].
      destruct (Json.assoc n es) as [c|]; [by left|]. cbn in Hq.
      destruct q; [|done]. right. by exists p.
    + by left.
Qed.

(** Directories that are there stay. *)
Lemma mkdirs_is_dir_mono p t t' q :
  Fs.mkdirs p t = Some t' →
  Fs.is_dir (Fs.get t q) = true → Fs.is_dir (Fs.get t' q) = true.
Proof.
  revert t t' q. induction p as [|n p IH]; intros t t' q Hmk Hdir.
  - rewrite mkdirs_nil in Hmk. destruct t; [done|]. by injection Hmk as <-.
  - destruct t as [f|es]; [by destruct q|]. rewrite mkdirs_cons in Hmk.
    destruct (Fs.mkdirs p _) as [c'|] eqn:Hc; [|done]. injection Hmk as <-.
    destruct q as [|m q]; [done|].
    rewrite get_cons, assoc_set_lookup. rewrite get_cons in Hdir.
    destruct (String.eqb m n) eqn:E; [|done].
    apply String.eqb_eq in E as ->. cbn.
    destruct (Json.assoc n es) as [c|]; [|done]. cbn in *. by eapply IH.
Qed.

Lemma mkdirs_not_dir p t t' q :
  Fs.mkdirs p t = Some t' →
  Fs.is_dir (Fs.get t q) = false → (∀ r, p ≠ q ++ r) →
  Fs.is_dir (Fs.get t' q) = false.
Proof.
  intros Hmk Hq Hne. destruct (Fs.is_dir (Fs.get t' q)) eqn:E; [|done].
  destruct (mkdirs_is_dir_inv _ _ _ _ Hmk E) as [Hd|[r ->]]; [congruence|].
  by destruct (Hne r).
Qed.

(** ** Running the cell of the simulated data *)

(** [if not os.path.isdir(path): os.makedirs(path)] for a directory that is
    there or can be made. *)
Lemma when_makedirs_runs path p w :
  Fs.resolve (w_cwd w) path = Some p →
  Fs.is_dir (Fs.get (w_fs w) p) = true
  ∨ (Fs.get (w_fs w) p = None ∧ is_Some (Fs.mkdirs p (w_fs w))) →
  ∃ w',
    when (negb (Fs.is_dir (lookup_path path w))) (os_makedirs path false) w = Ok tt w'
    ∧ w_cwd w' = w_cwd w
    ∧ Fs.is_dir (Fs.get (w_fs w') p) = true
    ∧ (w_fs w' = w_fs w
       ∨ (Fs.get (w_fs w) p = None ∧ Fs.mkdirs p (w_fs w) = Some (w_fs w'))).
Proof.
  intros Hp Hcond. unfold lookup_path, os_makedirs. rewrite Hp. cbn.
  destruct Hcond as [Hdir|[Hnone [t' Hmk]]].
  - rewrite Hdir. cbn. exists w. split_and!; [done..|by left].
  - rewrite Hnone. cbn. rewrite Hp, Hnone, Hmk.
    eexists. split_and!; [done|done| |right; by split].
    cbn. by rewrite (mkdirs_fresh _ _ _ Hmk) by by left.
Qed.

(** Writing a file into a directory that is there, where no directory is in
    the way. *)
Lemma write_file_runs path f w d n :
  Fs.resolve (w_cwd w) path = Some (d ++ [n]) →
  Fs.is_dir (Fs.get (w_fs w) d) = true →
  Fs.is_dir (Fs.get (w_fs w) (d ++ [n])) = false →
  ∃ w',
    write_file path f w = Ok tt w'
    ∧ w_cwd w' = w_cwd w
    ∧ ∀ q, Fs.is_dir (Fs.get (w_fs w') q) = Fs.is_dir (Fs.get (w_fs w) q).
Proof.
  intros Hp Hd Hn. unfold write_file. rewrite Hp. cbn.
  destruct (put_succeeds f d (w_fs w) n Hd Hn) as [t' Hput]. rewrite Hput.
  eexists. split_and!; [done..|]. intros q. cbn. by eapply put_is_dir.
Qed.

Lemma resolve_work_dir cwd :
  Fs.resolve cwd "./temp_work_dir" = Some (cwd ++ ["temp_work_dir"]).
Proof. done. Qed.

Lemma resolve_dataroot cwd :
  Fs.resolve cwd "./temp_work_dir/sim_dataroot"
  = Some ((cwd ++ ["temp_work_dir"]) ++ ["sim_dataroot"]).
Proof. done. Qed.

Section SimulatedDataRuns.

Context (rng : Type) (RandomState : Z → rng).
Context (create_test_image_3d :
           Z → Z → Z → Z → Z → rng → (Fs.ndarray * Fs.ndarray) * rng).
Context (zooms_of_affine : list (list float) → list Fs.float32).

Lemma cell_1b199078_runs w :
  sim_precondition w = true →
  ∃ r w', cell_1b199078 rng RandomState create_test_image_3d zooms_of_affine w = Ok r w'.
Proof.
  unfold sim_precondition. cbv zeta.
  set (p := w_cwd w ++ ["temp_work_dir"]).
  rewrite !andb_true_iff, !orb_true_iff, !andb_true_iff, !negb_true_iff,
    !bool_decide_eq_true.
  intros ((((HA & HB) & Hdl) & Hi1) & Hi2).
  unfold cell_1b199078.
  (* the work directory *)
  rewrite (bind_run (os_path_isdir "./temp_work_dir") _ w _ w eq_refl).
  destruct (when_makedirs_runs "./temp_work_dir" p w (resolve_work_dir _) HA)
    as (w1 & H1 & C1 & D1 & R1).
  rewrite (bind_run _ _ _ _ _ H1).
  (* the data root *)
  rewrite (bind_run (os_path_isdir _) _ w1 _ w1 eq_refl).
  destruct (when_makedirs_runs "./temp_work_dir/sim_dataroot" (p ++ ["sim_dataroot"]) w1)
    as (w2 & H2 & C2 & D2 & R2).
  { rewrite C1. apply resolve_dataroot. }
  { destruct (Fs.is_dir (Fs.get (w_fs w1) (p ++ ["sim_dataroot"]))) eqn:E; [by left|].
    right. assert (Fs.get (w_fs w1) (p ++ ["sim_dataroot"]) = None) as Hn.
    { destruct R1 as [E1|[Hnone Hmk]].
      - rewrite E1 in E |- *. destruct HB as [HB|HB]; [congruence|done].
      - rewrite get_app, (mkdirs_fresh _ _ _ Hmk (or_introl Hnone)). done. }
    split; [done|]. by apply mkdirs_child. }
  rewrite (bind_run _ _ _ _ _ H2).
  (* no directory is in the way of the three files *)
  assert (N : ∀ q, Fs.is_dir (Fs.get (w_fs w) (p ++ q)) = false → q ≠ [] →
                   (∀ r, ["sim_dataroot"] ≠ q ++ r) →
                   Fs.is_dir (Fs.get (w_fs w2) (p ++ q)) = false).
  { intros q Hq Hne Hsd.
    assert (Fs.is_dir (Fs.get (w_fs w1) (p ++ q)) = false) as Hq1.
    { destruct R1 as [E1|[_ Hmk]]; [by rewrite E1|]. eapply mkdirs_not_dir; [done..|].
      intros r E. rewrite <- app_assoc in E.
      rewrite <- (app_nil_r p) in E at 1. apply app_inv_head in E.
      by destruct q. }
    destruct R2 as [E2|[_ Hmk]]; [by rewrite E2|]. eapply mkdirs_not_dir; [done..|].
    intros r E. rewrite <- app_assoc in E. apply app_inv_head in E. by eapply Hsd. }
  assert (Fs.is_dir (Fs.get (w_fs w2) p) = true) as Dp.
  { destruct R2 as [E2|[_ Hmk]]; [by rewrite E2|]. by eapply mkdirs_is_dir_mono. }
  (* the data list *)
  destruct (write_file_runs "./temp_work_dir/sim_datalist.json"
              (Fs.JsonFile sim_datalist) w2 p "sim_datalist.json")
    as (w3 & H3 & C3 & F3); [by rewrite C2, C1|done|..].
  { apply N; [done|done|]. by intros [|? [|??]] [=]. }
  unfold json_dump_doc.
  rewrite (bind_run _ _ _ _ _ H3).
  erewrite (bind_run (doc_getitem sim_datalist "training") _ w3) by reflexivity.
  erewrite (bind_run (doc_iter _) _ w3) by reflexivity.
  cbn [for_]. unfold sim_dim. cbn [fst snd].
  destruct (create_test_image_3d 224 224 96 10 1 (RandomState 42)) as [[im seg] rs].
  (* the two images *)
  destruct (write_file_runs "./temp_work_dir/sim_dataroot/tr_image_001.nii.gz"
              (Fs.NiftiFile (Nifti1Image zooms_of_affine im (np_eye 4))) w3
              (p ++ ["sim_dataroot"]) "tr_image_001.nii.gz")
    as (w4 & H4 & C4 & F4); [by rewrite C3, C2, C1|by rewrite F3|..].
  { rewrite F3, <- app_assoc. apply N; [done|done|]. by intros [|? [|??]] [=]. }
  destruct (write_file_runs "./temp_work_dir/sim_dataroot/tr_image_002.nii.gz"
              (Fs.NiftiFile (Nifti1Image zooms_of_affine im (np_eye 4))) w4
              (p ++ ["sim_dataroot"]) "tr_image_002.nii.gz")
    as (w5 & H5 & C5 & F5); [by rewrite C4, C3, C2, C1|by rewrite F4, F3|..].
  { rewrite F4, F3, <- app_assoc. apply N; [done|done|]. by intros [|? [|??]] [=]. }
  erewrite (bind_run _ _ w3 tt w5).
  - by eexists _, _.
  - erewrite (bind_run _ _ w3 tt w4); [|exact H4].
    erewrite (bind_run _ _ w4 tt w5); [|exact H5]. done.
Qed.

End SimulatedDataRuns.

(** Once the three files are there, the cell can be run. *)
Lemma sim_precondition_files w f1 f2 f3 :
  lookup_path "./temp_work_dir/sim_datalist.json" w = Some (Fs.File f1) →
  lookup_path "./temp_work_dir/sim_dataroot/tr_image_001.nii.gz" w = Some (Fs.File f2) →
  lookup_path "./temp_work_dir/sim_dataroot/tr_image_002.nii.gz" w = Some (Fs.File f3) →
  sim_precondition w = true.
Proof.
  unfold lookup_path. rewrite resolve_datalist, resolve_image_1, resolve_image_2. cbn.
  intros H1 H2 H3. unfold sim_precondition. cbv zeta.
  set (p := w_cwd w ++ ["temp_work_dir"]).
  assert (E1 : Fs.get (w_fs w) (p ++ ["sim_datalist.json"]) = Some (Fs.File f1))
    by by (unfold p; rewrite <- app_assoc).
  assert (E2 : Fs.get (w_fs w) ((p ++ ["sim_dataroot"]) ++ ["tr_image_001.nii.gz"])
               = Some (Fs.File f2)) by by (unfold p; rewrite <- !app_assoc).
  assert (E3 : Fs.get (w_fs w) ((p ++ ["sim_dataroot"]) ++ ["tr_image_002.nii.gz"])
               = Some (Fs.File f3)) by by (unfold p; rewrite <- !app_assoc).
  rewrite (get_parent_is_dir _ _ _ _ E1), (get_parent_is_dir _ _ _ _ E2).
  rewrite <- app_assoc in E2, E3. cbn [app] in E2, E3.
  by rewrite E1, E2, E3.
Qed.

(** ** Steps that leave the files alone *)

Lemma kept_refl w : kept w w.
Proof. done. Qed.

Lemma kept_trans w1 w2 w3 : kept w1 w2 → kept w2 w3 → kept w1 w3.
Proof. intros (?&?&?) (?&?&?). unfold kept. split_and!; congruence. Qed.

Lemma kept_set_heap h w : kept w (set_heap h w).
Proof. done. Qed.

Lemma json_load_kept path v w w' : json_load path w = Ok v w' → kept w w'.
Proof.
  unfold json_load. intros (f & w1 & Hread & Hload)%bind_Ok.
  unfold read_file in Hread.
  destruct (lookup_path path w) as [[f'|?]|]; [|done|done].
  inversion Hread; subst f' w1. destruct f as [doc|?|?]; [|done|done].
  unfold on_heap in Hload. destruct (load doc (w_heap w)) as [[v0 h']|]; [|done].
  by inversion Hload.
Qed.

Lemma copy_deepcopy_kept x y w w' : copy_deepcopy x w = Ok y w' → kept w w'.
Proof.
  unfold copy_deepcopy, on_heap.
  destruct (deepcopy_top x (w_heap w)) as [[v0 h']|]; [|done]. by intros [= _ <-].
Qed.

Lemma setitem_kept d key v w w' :
  setitem d key v w = Ok tt w' → kept w w'.
Proof.
  unfold setitem. destruct d as [| | | | |l]; try done.
  destruct (w_heap w !! l) as [[?|ms]|]; [done| |done]. by intros [= <-].
Qed.

Lemma getitem_kept d key x w w' : getitem d key w = Ok x w' → kept w w'.
Proof. by intros ->%getitem_same. Qed.

Lemma as_path_kept v s w w' : as_path v w = Ok s w' → kept w w'.
Proof. by intros [_ ->]%as_path_Ok. Qed.

Lemma logger_info_kept msg args w w' : logger_info msg args w = Ok tt w' → kept w w'.
Proof.
  intros [= <-]. unfold kept. cbn. by rewrite writes_app, app_nil_r.
Qed.

(** ** Steps that make directories or write one file *)

Lemma grows_refl w : grows [] w w.
Proof. done. Qed.

Lemma kept_grows w w' : kept w w' → grows [] w w'.
Proof. intros (Hfs & Hcwd & _). unfold grows. by rewrite Hfs, Hcwd. Qed.

Lemma grows_trans l1 l2 w1 w2 w3 :
  grows l1 w1 w2 → grows l2 w2 w3 → grows (l1 ++ l2) w1 w3.
Proof.
  intros (C1 & D1 & F1) (C2 & D2 & F2). split_and!.
  - congruence.
  - intros q Hq. by apply D2, D1.
  - intros q f Hq Hn. rewrite elem_of_app in Hn.
    apply F2; [apply F1; [done|]|]; tauto.
Qed.

Lemma mkdirs_keeps_file p : ∀ t t' q f,
  Fs.mkdirs p t = Some t' → Fs.get t q = Some (Fs.File f) →
  Fs.get t' q = Some (Fs.File f).
Proof.
  induction p as [|n p IH]; intros t t' q f Hmk Hget.
  - rewrite mkdirs_nil in Hmk. destruct t; [done|]. by injection Hmk as <-.
  - destruct t as [g|es]; [done|]. rewrite mkdirs_cons in Hmk.
    destruct (Fs.mkdirs p _) as [c'|] eqn:Hc; [|done]. injection Hmk as <-.
    destruct q as [|m q]; [done|].
    rewrite get_cons, assoc_set_lookup. rewrite get_cons in Hget.
    destruct (String.eqb m n) eqn:E; [|done].
    apply String.eqb_eq in E as ->. cbn.
    destruct (Json.assoc n es) as [c|]; [|done]. cbn in *. by eapply IH.
Qed.

(** [os.makedirs(path, exist_ok=True)]: the directory is there afterwards. *)
Lemma os_makedirs_made path w w' :
  os_makedirs path true w = Ok tt w' →
  w_heap w' = w_heap w
  ∧ writes (w_trace w') = writes (w_trace w)
  ∧ grows [] w w'
  ∧ Fs.is_dir (lookup_path path w') = true.
Proof.
  unfold os_makedirs, lookup_path.
  destruct (Fs.resolve (w_cwd w) path) as [p|] eqn:Hr; [|done].
  destruct (Fs.get (w_fs w) p) as [[?|es]|] eqn:Hg; [done| |].
  - intros [= <-]. rewrite Hr. cbn. by rewrite Hg.
  - destruct (Fs.mkdirs p (w_fs w)) as [t'|] eqn:Hmk; [|done]. intros [= <-].
    cbn. rewrite Hr. cbn. split_and!; [done|by rewrite writes_app, app_nil_r| |].
    + split_and!; [done| |]; cbn.
      * intros q. apply (mkdirs_is_dir_mono _ _ _ _ Hmk).
      * intros q f Hq _. by eapply mkdirs_keeps_file.
    + by rewrite (mkdirs_fresh _ _ _ Hmk) by by left.
Qed.

(** [json.dump(obj, f)] into the file at [path]. *)
Lemma json_dump_put obj path sk ind w w' :
  json_dump obj path sk ind w = Ok tt w' →
  ∃ doc cp,
    dumps (w_heap w) obj = Some doc
    ∧ Fs.resolve (w_cwd w) path = Some cp
    ∧ Fs.put cp (Fs.JsonFile doc) (w_fs w) = Some (w_fs w')
    ∧ w_heap w' = w_heap w
    ∧ writes (w_trace w') = writes (w_trace w) ++ [(path, Fs.JsonFile doc)]
    ∧ grows [cp] w w'.
Proof.
  unfold json_dump. destruct (dumps (w_heap w) obj) as [doc|].
  - unfold json_dump_doc, write_file.
    destruct (Fs.resolve (w_cwd w) path) as [cp|]; [|done]. cbn.
    destruct (Fs.put cp (Fs.JsonFile doc) (w_fs w)) as [t'|] eqn:Hput; [|done].
    intros [= <-]. exists doc, cp. cbn. split_and!; try done.
    + by rewrite writes_app.
    + split_and!; [done| |]; cbn.
      * intros q. by rewrite (put_is_dir _ _ _ _ q Hput).
      * intros q f Hq Hn. rewrite (put_get_other _ _ _ _ _ Hput); [done| |by rewrite Hq].
        intros ->. apply Hn. apply list_elem_of_here.
  - intros (? & ? & _ & H)%bind_Ok. done.
Qed.

(** What [d[key]] reads is what [json.dump(d)] writes for [key]. *)
Lemma dumps_getitem d key x s doc w w1 w2 :
  getitem d key w = Ok x w1 → as_path x w1 = Ok s w2 →
  dumps (w_heap w) d = Some doc →
  ∃ kvs, doc = JObj kvs ∧ Json.assoc key kvs = Some (JStr s).
Proof.
  unfold getitem, dumps. destruct d as [| | | | |l]; try done.
  destruct (w_heap w !! l) as [[?|ms]|] eqn:Hl; [done| |done].
  destruct (Json.assoc key ms) as [v|] eqn:Hk; [|done].
  intros [= <- <-] [-> _]%as_path_Ok.
  destruct (length (w_heap w)) as [|n]; [done|]. cbn [reify]. rewrite Hl.
  destruct (mapM _ ms) as [kvs|] eqn:Hm; [|done]. intros [= <-].
  exists kvs. split; [done|]. clear Hl.
  revert kvs Hm. induction ms as [|[k y] ms IH]; intros kvs Hm; [done|].
  cbn in Hm. destruct (reify n (w_heap w) y) as [j|] eqn:Hy; [|done]. cbn in Hm.
  destruct (mapM _ ms) as [kvs'|] eqn:Hm'; [|done]. cbn in Hm.
  injection Hm as <-. cbn in Hk |- *.
  destruct (String.eqb key k).
  - injection Hk as ->. destruct n; cbn in Hy; by rewrite <- Hy.
  - by apply IH.
Qed.

Lemma resolve_is_dir path w :
  Fs.is_dir (lookup_path path w) = true → ∃ p, Fs.resolve (w_cwd w) path = Some p.
Proof.
  unfold lookup_path. destruct (Fs.resolve (w_cwd w) path) as [p|]; [|done].
  by exists p.
Qed.

Lemma grows_is_dir l w w' path :
  grows l w w' → Fs.is_dir (lookup_path path w) = true →
  Fs.is_dir (lookup_path path w') = true.
Proof.
  intros (C & D & _). unfold lookup_path. rewrite C.
  destruct (Fs.resolve (w_cwd w) path) as [p|]; [|done]. cbn. apply D.
Qed.

Lemma name_ok_config n : n ∈ config_names → Fs.name_ok n = true.
Proof.
  unfold config_names. rewrite !elem_of_cons, elem_of_nil.
  intros [->|[->|[->|[]]]]; done.
Qed.

Ltac kstep H K :=
  let x := fresh "x" in let wn := fresh "w" in let Hx := fresh "Hx" in
  apply bind_Ok in H as (x & wn & Hx & H);
  first [apply json_load_kept in Hx | apply copy_deepcopy_kept in Hx
        | destruct x; apply setitem_kept in Hx | apply getitem_kept in Hx
        | apply as_path_kept in Hx | destruct x; apply logger_info_kept in Hx];
  apply (kept_trans _ _ _ K) in Hx; clear K; rename Hx into K.

(** The files and directories after the configuration cell. *)
Lemma cell_6c7b434c_disk v w r w' :
  cell_6c7b434c v w = Ok r w' →
  ∃ pt doc1 doc2 doc3 kvs e m o,
    Fs.resolve (w_cwd w) (work_dir v) = Some pt
    ∧ writes (w_trace w') = writes (w_trace w) ++ config_writes v doc1 doc2 doc3
    ∧ Fs.get (w_fs w') (pt ++ ["environment_maisi_diff_model.json"])
      = Some (Fs.File (Fs.JsonFile doc1))
    ∧ Fs.get (w_fs w') (pt ++ ["config_maisi_diff_model.json"])
      = Some (Fs.File (Fs.JsonFile doc2))
    ∧ Fs.get (w_fs w') (pt ++ ["config_maisi.json"])
      = Some (Fs.File (Fs.JsonFile doc3))
    ∧ grows (map (λ n, pt ++ [n]) config_names) w w'
    ∧ doc1 = JObj kvs
    ∧ Json.assoc "embedding_base_dir" kvs = Some (JStr e)
    ∧ Json.assoc "model_dir" kvs = Some (JStr m)
    ∧ Json.assoc "output_dir" kvs = Some (JStr o)
    ∧ Fs.is_dir (lookup_path e w') = true
    ∧ Fs.is_dir (lookup_path m w') = true
    ∧ Fs.is_dir (lookup_path o w') = true
    ∧ env_config_filepath r
      = Py.os_path_join (work_dir v) "environment_maisi_diff_model.json"
    ∧ model_config_filepath r
      = Py.os_path_join (work_dir v) "config_maisi_diff_model.json"
    ∧ model_def_filepath r = Py.os_path_join (work_dir v) "config_maisi.json".
Proof.
  unfold cell_6c7b434c. intros H.
  pose proof (kept_refl w) as K.
  (* loads, copies and the six assignments *)
  do 3 kstep H K. rename x into ec, x0 into mc, x1 into md.
  do 3 kstep H K. rename x into eo, x0 into mo, x1 into do.
  do 12 kstep H K. clear x x0 x1 x2 x3 x4.
  match type of K with kept _ ?x => rename x into wP end.
  (* the three directories *)
  step H x1 wa G1. pose proof (getitem_same _ _ _ _ _ G1) as ->.
  step H e wb P1. pose proof (proj2 (as_path_Ok _ _ _ _ P1)) as ->.
  step H u wc M1. destruct u.
  apply os_makedirs_made in M1 as (Eh1 & Ew1 & Gr1 & D1).
  step H x2 wd G2. pose proof (getitem_same _ _ _ _ _ G2) as ->.
  step H m we P2. pose proof (proj2 (as_path_Ok _ _ _ _ P2)) as ->.
  step H u wf M2. destruct u.
  apply os_makedirs_made in M2 as (Eh2 & Ew2 & Gr2 & D2).
  step H x3 wg G3. pose proof (getitem_same _ _ _ _ _ G3) as ->.
  step H o wh P3. pose proof (proj2 (as_path_Ok _ _ _ _ P3)) as ->.
  step H u wi M3. destruct u.
  apply os_makedirs_made in M3 as (Eh3 & Ew3 & Gr3 & D3).
  (* the first file *)
  step H u wj J1. destruct u.
  apply json_dump_put in J1 as (doc1 & cp1 & Hd1 & R1 & Put1 & Eh4 & Ew4 & Gr4).
  destruct (dumps_getitem _ _ _ _ doc1 _ _ _ G3 P3) as (kvs & -> & Ko);
    [by rewrite <- Eh3|].
  destruct (dumps_getitem _ _ _ _ (JObj kvs) _ _ _ G2 P2) as (kvs' & [= <-] & Km);
    [by rewrite <- Eh2, <- Eh3|].
  destruct (dumps_getitem _ _ _ _ (JObj kvs) _ _ _ G1 P1) as (kvs' & [= <-] & Ke);
    [by rewrite <- Eh1, <- Eh2, <- Eh3|].
  clear G1 G2 G3 P1 P2 P3 x1 x2 x3 Hd1 Eh1 Eh2 Eh3 Eh4.
  (* the second file *)
  pose proof (kept_refl wj) as K2.
  do 2 kstep H K2. clear x.
  match type of K2 with kept _ ?x => rename x into wQ end.
  step H u wk J2. destruct u.
  apply json_dump_put in J2 as (doc2 & cp2 & _ & R2 & Put2 & _ & Ew5 & Gr5).
  (* the third file *)
  pose proof (kept_refl wk) as K3.
  do 2 kstep H K3. clear x.
  match type of K3 with kept _ ?x => rename x into wR end.
  step H u wl J3. destruct u.
  apply json_dump_put in J3 as (doc3 & cp3 & _ & R3 & Put3 & _ & Ew6 & Gr6).
  (* the listing and the log lines *)
  step H names wm L.
  assert (Hdir : Fs.is_dir (lookup_path (work_dir v) wl) = true).
  { unfold os_listdir in L. by destruct (lookup_path (work_dir v) wl) as [[?|?]|]. }
  apply os_listdir_Ok in L as ->.
  pose proof (kept_refl wl) as K4. do 2 kstep H K4.
  apply ret_Ok in H as (-> & ->). cbn [env_config_filepath model_config_filepath
                                       model_def_filepath].
  (* the paths *)
  pose proof (kept_grows _ _ K) as GA. pose proof (kept_grows _ _ K2) as GK2.
  pose proof (kept_grows _ _ K3) as GK3. pose proof (kept_grows _ _ K4) as GK4.
  destruct K as (Kf & Kc & Kw), K2 as (K2f & K2c & K2w), K3 as (K3f & K3c & K3w),
    K4 as (K4f & K4c & K4w).
  pose proof (proj1 Gr1) as C1. pose proof (proj1 Gr2) as C2.
  pose proof (proj1 Gr3) as C3. pose proof (proj1 Gr4) as C4.
  pose proof (proj1 Gr5) as C5. pose proof (proj1 Gr6) as C6.
  assert (Cl : w_cwd wl = w_cwd w) by congruence.
  destruct (resolve_is_dir _ _ Hdir) as [pt Hpt]. rewrite Cl in Hpt.
  assert (R : ∀ n, n ∈ config_names →
              Fs.resolve (w_cwd w) (Py.os_path_join (work_dir v) n) = Some (pt ++ [n])).
  { intros n Hn. apply resolve_join; [done|by apply name_ok_config]. }
  assert (w_cwd wi = w_cwd w) as Ci by congruence.
  assert (w_cwd wQ = w_cwd w) as Cj by congruence.
  assert (w_cwd wR = w_cwd w) as Ck by congruence.
  rewrite Ci, R in R1 by (unfold config_names; set_solver). injection R1 as <-.
  rewrite Cj, R in R2 by (unfold config_names; set_solver). injection R2 as <-.
  rewrite Ck, R in R3 by (unfold config_names; set_solver). injection R3 as <-.
  match type of GK4 with grows _ _ ?x => rename x into wz end.
  (* from the first file on *)
  assert (GB : grows (map (λ n, pt ++ [n]) config_names) wi wz).
  { exact (grows_trans _ _ _ _ _ Gr4
             (grows_trans _ _ _ _ _ GK2
                (grows_trans _ _ _ _ _ Gr5
                   (grows_trans _ _ _ _ _ GK3 (grows_trans _ _ _ _ _ Gr6 GK4))))). }
  assert (F1 : Fs.get (w_fs wz) (pt ++ ["environment_maisi_diff_model.json"])
               = Some (Fs.File (Fs.JsonFile (JObj kvs)))).
  { rewrite K4f. apply (proj2 (proj2 Gr6)); [|by intros [_ [=]]%list_elem_of_singleton%snoc_inj].
    rewrite K3f. apply (proj2 (proj2 Gr5)); [|by intros [_ [=]]%list_elem_of_singleton%snoc_inj].
    rewrite K2f. by eapply put_get_same. }
  assert (F2 : Fs.get (w_fs wz) (pt ++ ["config_maisi_diff_model.json"])
               = Some (Fs.File (Fs.JsonFile doc2))).
  { rewrite K4f. apply (proj2 (proj2 Gr6)); [|by intros [_ [=]]%list_elem_of_singleton%snoc_inj].
    rewrite K3f. by eapply put_get_same. }
  assert (F3 : Fs.get (w_fs wz) (pt ++ ["config_maisi.json"])
               = Some (Fs.File (Fs.JsonFile doc3))).
  { rewrite K4f. by eapply put_get_same. }
  exists pt, (JObj kvs), doc2, doc3, kvs, e, m, o.
  split_and!; try done.
  - rewrite K4w, Ew6, K3w, Ew5, K2w, Ew4, Ew3, Ew2, Ew1, Kw.
    by rewrite <- !app_assoc.
  - exact (grows_trans _ _ _ _ _ GA
             (grows_trans _ _ _ _ _ Gr1
                (grows_trans _ _ _ _ _ Gr2 (grows_trans _ _ _ _ _ Gr3 GB)))).
  - apply (grows_is_dir _ _ _ _ GB), (grows_is_dir _ _ _ _ Gr3).
    by apply (grows_is_dir _ _ _ _ Gr2).
  - apply (grows_is_dir _ _ _ _ GB). by apply (grows_is_dir _ _ _ _ Gr3).
  - by apply (grows_is_dir _ _ _ _ GB).
Qed.


(** ** What the cell of the simulated data needs *)

Lemma put_not_dir p f : ∀ T T', Fs.put p f T = Some T' → Fs.is_dir (Fs.get T p) = false.
Proof.
  induction p as [|n p IH]; intros T T' H; [done|].
  destruct (put_inv _ _ _ _ H) as (n' & p' & es & [= <- <-] & -> & Hcase).
  destruct Hcase as [(-> & Hn & _)|(Hp & c & c' & Ha & Hput & _)]; cbn.
  - by destruct (Json.assoc n es) as [[|]|].
  - rewrite Ha. cbn. by eapply IH.
Qed.

(** [if not os.path.isdir(path): os.makedirs(path)], when it returns. *)
Lemma when_makedirs_inv path w w' :
  when (negb (Fs.is_dir (lookup_path path w))) (os_makedirs path false) w = Ok tt w' →
  w_cwd w' = w_cwd w
  ∧ (∀ q, Fs.is_dir (Fs.get (w_fs w) q) = true → Fs.is_dir (Fs.get (w_fs w') q) = true)
  ∧ ((Fs.is_dir (lookup_path path w) = true ∧ w' = w)
     ∨ ∃ p, Fs.resolve (w_cwd w) path = Some p ∧ Fs.get (w_fs w) p = None
            ∧ Fs.mkdirs p (w_fs w) = Some (w_fs w')).
Proof.
  intros [[Hb H]|[Hb ->]]%when_Ok.
  - unfold os_makedirs in H.
    destruct (Fs.resolve (w_cwd w) path) as [p|] eqn:Hr; [|done].
    destruct (Fs.get (w_fs w) p) as [[?|es]|] eqn:Hg; [done|done|].
    destruct (Fs.mkdirs p (w_fs w)) as [t'|] eqn:Hmk; [|done]. injection H as <-.
    cbn. split_and!; [done| |right; by exists p].
    intros q. apply (mkdirs_is_dir_mono _ _ _ _ Hmk).
  - apply negb_false_iff in Hb. split_and!; [done|done|by left].
Qed.

Lemma write_file_inv path f w w' :
  write_file path f w = Ok tt w' →
  w_cwd w' = w_cwd w
  ∧ (∀ q, Fs.is_dir (Fs.get (w_fs w') q) = Fs.is_dir (Fs.get (w_fs w) q))
  ∧ Fs.is_dir (lookup_path path w) = false.
Proof.
  unfold write_file, lookup_path.
  destruct (Fs.resolve (w_cwd w) path) as [p|]; [|done]. cbn.
  destruct (Fs.put p f (w_fs w)) as [t'|] eqn:Hput; [|done]. intros [= <-]. cbn.
  split_and!; [done| |by eapply put_not_dir].
  intros q. by eapply put_is_dir.
Qed.

Section SimulatedDataExtras.

Context (rng : Type) (RandomState : Z → rng).
Context (create_test_image_3d :
           Z → Z → Z → Z → Z → rng → (Fs.ndarray * Fs.ndarray) * rng).
Context (zooms_of_affine : list (list float) → list Fs.float32).

(** X1: the cell of the simulated data returns exactly where the work
    directory is there or can be made, no regular file has the name of the
    data root and no directory the name of one of the three files; in no
    other world does it return. *)
Theorem simulated_data_cell_runs (w : world) :
  sim_precondition w = true
  ↔ ∃ r w', cell_1b199078 rng RandomState create_test_image_3d zooms_of_affine w
            = Ok r w'.
Proof.
  split; [apply cell_1b199078_runs|].
  intros (r & w' & H). unfold cell_1b199078 in H.
  step H b1 w1 H1. apply os_path_isdir_Ok in H1 as H1'. subst w1.
  injection H1 as <-.
  step H u1 w1 H1. destruct u1. apply when_makedirs_inv in H1 as (C1 & M1 & A1).
  step H b2 w2 H2. apply os_path_isdir_Ok in H2 as H2'. subst w2.
  injection H2 as <-.
  step H u2 w2 H2. destruct u2. apply when_makedirs_inv in H2 as (C2 & M2 & A2).
  step H u3 w3 H3. destruct u3. apply write_file_inv in H3 as (C3 & M3 & D3).
  step H tr w4 H4. apply ret_Ok in H4 as (-> & ->).
  step H items w4 H4. apply ret_Ok in H4 as (-> & ->).
  step H u5 w5 H5. destruct u5. clear H.
  cbn [for_] in H5. unfold sim_dim in H5. cbn [fst snd] in H5.
  destruct (create_test_image_3d 224 224 96 10 1 (RandomState 42))
    as [[im seg] rs] eqn:Him.
  step H5 u7 w7 H7. destruct u7.
  step H7 n1 w8 H8. apply ret_Ok in H8 as (-> & ->).
  step H7 n1 w8 H8. apply ret_Ok in H8 as (-> & ->).
  apply write_file_inv in H7 as (C7 & M7 & D7).
  step H5 u9 w9 H9. destruct u9. clear H5.
  step H9 n2 w10 H10. apply ret_Ok in H10 as (-> & ->).
  step H9 n2 w10 H10. apply ret_Ok in H10 as (-> & ->).
  apply write_file_inv in H9 as (C9 & M9 & D9).
  (* back to the first world *)
  unfold lookup_path in D3, D7, D9, A1, A2.
  rewrite C7, C3, C2, C1 in D9. rewrite C3, C2, C1 in D7. rewrite C2, C1 in D3.
  rewrite C1 in A2.
  change (Py.os_path_join "./temp_work_dir" "sim_datalist.json")
    with "./temp_work_dir/sim_datalist.json" in D3.
  change (Py.os_path_join _ "tr_image_001.nii.gz")
    with "./temp_work_dir/sim_dataroot/tr_image_001.nii.gz" in D7.
  change (Py.os_path_join _ "tr_image_002.nii.gz")
    with "./temp_work_dir/sim_dataroot/tr_image_002.nii.gz" in D9.
  change (Py.os_path_join "./temp_work_dir" "sim_dataroot")
    with "./temp_work_dir/sim_dataroot" in A2.
  rewrite resolve_datalist in D3. rewrite resolve_image_1 in D7.
  rewrite resolve_image_2 in D9. rewrite resolve_work_dir in A1.
  rewrite resolve_dataroot in A2. cbn [mbind option_bind] in D3, D7, D9, A1, A2.
  rewrite M7, M3 in D9. rewrite M3 in D7.
  assert (N : ∀ q, Fs.is_dir (Fs.get (w_fs w2) q) = false →
              Fs.is_dir (Fs.get (w_fs w) q) = false).
  { intros q Hq. destruct (Fs.is_dir (Fs.get (w_fs w) q)) eqn:E; [|done].
    apply M1, M2 in E. congruence. }
  apply N in D3, D7, D9.
  unfold sim_precondition. cbn zeta.
  rewrite <- !app_assoc. cbn [app].
  rewrite D3, D7, D9. rewrite !andb_true_r.
  apply andb_true_iff. split.
  - destruct A1 as [[A1 _]|(p & [= <-] & G & Mk)]; [by rewrite A1|].
    rewrite G, Mk. by cbn.
  - destruct A1 as [[_ ->]|(p & [= <-] & G & Mk)].
    + destruct A2 as [[A2 _]|(p & [= <-] & G & Mk)].
      * rewrite <- app_assoc in A2. cbn [app] in A2. by rewrite A2.
      * rewrite <- app_assoc in G. cbn [app] in G. rewrite G.
        apply orb_true_iff. right. by apply bool_decide_eq_true.
    + apply orb_true_iff. right. apply bool_decide_eq_true.
      change (w_cwd w ++ ["temp_work_dir"; "sim_dataroot"])
        with (w_cwd w ++ ["temp_work_dir"] ++ ["sim_dataroot"]).
      rewrite app_assoc, get_app, G. done.
Qed.

(** X2: the cell of the simulated data can be run again: after a run that
    returned, a second run returns too, leaves the same variables and writes
    the same three files with the same content. *)
Theorem simulated_data_cell_rerun (w w' : world) (r : sim_vars) :
  cell_1b199078 rng RandomState create_test_image_3d zooms_of_affine w = Ok r w' →
  ∃ w'' new,
    cell_1b199078 rng RandomState create_test_image_3d zooms_of_affine w' = Ok r w''
    ∧ writes (w_trace w') = writes (w_trace w) ++ new
    ∧ writes (w_trace w'') = writes (w_trace w') ++ new
    ∧ Forall (λ wr, lookup_path wr.1 w'' = Some (Fs.File wr.2)) new.
Proof.
  intros H. apply cell_1b199078_spec in H as (-> & W & _ & _ & F).
  assert (Hpre : sim_precondition w' = true).
  { unfold sim_writes in F. rewrite !Forall_cons in F. destruct F as (F1 & F2 & F3 & _).
    by eapply sim_precondition_files. }
  destruct (cell_1b199078_runs rng RandomState create_test_image_3d zooms_of_affine
              w' Hpre) as (r2 & w'' & H2).
  apply cell_1b199078_spec in H2 as H2'. destruct H2' as (-> & W2 & _ & _ & F2).
  by exists w'', (sim_writes rng RandomState create_test_image_3d zooms_of_affine).
Qed.

End SimulatedDataExtras.

(** ** The launcher *)

Section RunTorchrunExtras.

Context (spawn : list string → gmap string string → world → option Proc.popen).

(** X3: [subprocess.Popen] is called before the [try]: when the program
    cannot be started, [run_torchrun] raises the error of [Popen] and has
    printed nothing, and the cell of the first stage raises it too. *)
Theorem run_torchrun_popen_error (module : string) (module_args : list string)
    (num_gpus : Z) (v : cfg_vars) (w : world) :
  (∀ argv env w, spawn argv env w = None) →
  (∃ w', run_torchrun spawn module module_args num_gpus w = Raise (OSError "torchrun") w'
         ∧ prints (w_trace w') = prints (w_trace w)
         ∧ w_procs w' = w_procs w ∧ w_fs w' = w_fs w)
  ∧ (∃ w', cell_f45ea863 spawn v w = Raise (OSError "torchrun") w'
           ∧ prints (w_trace w') = prints (w_trace w)).
Proof.
  intros Hsp. split.
  - rewrite run_torchrun_unfold. cbv zeta. rewrite Hsp. eexists. split; [done|].
    cbn. by rewrite prints_app, app_nil_r.
  - unfold cell_f45ea863. cbv zeta.
    rewrite (bind_run (logger_info "Creating training data..." []) _ w tt _ eq_refl).
    rewrite run_torchrun_unfold. cbv zeta. rewrite Hsp. eexists. split; [done|].
    cbn. by rewrite !prints_app, !app_nil_r.
Qed.


(** X5: [run_torchrun] sets [OMP_NUM_THREADS] for the child only: whatever
    becomes of the child, [os.environ] is as before, and so is every object
    of the notebook; the helper itself writes no file. *)
Theorem run_torchrun_keeps_environ (module : string) (module_args : list string)
    (num_gpus : Z) (w : world) :
  w_environ (world_of (run_torchrun spawn module module_args num_gpus w)) = w_environ w
  ∧ w_heap (world_of (run_torchrun spawn module module_args num_gpus w)) = w_heap w
  ∧ writes (w_trace (world_of (run_torchrun spawn module module_args num_gpus w)))
    = writes (w_trace w).
Proof.
  destruct (run_torchrun_trace spawn module module_args num_gpus w) as (_ & W & H & E).
  done.
Qed.

End RunTorchrunExtras.

(** ** Names with a suffix *)

Lemma split_path_append s t :
  Fs.has_sep t = false →
  ∃ init n, Fs.split_path s = init ++ [n] ∧ Fs.split_path (s +:+ t) = init ++ [n +:+ t].
Proof.
  intros Ht. induction s as [|c s (init & n & Hs & Hst)].
  - exists [], "". split; [done|]. by apply split_path_name.
  - rewrite append_cons. cbn [Fs.split_path]. rewrite Hs, Hst.
    destruct (Ascii.eqb c "/").
    + by exists ("" :: init), n.
    + destruct init as [|h init]; cbn.
      * by exists [], (String c n).
      * by exists (String c h :: init), n.
Qed.

Lemma norm_step_suffix acc n t :
  3 ≤ String.length t → Fs.norm_step acc (n +:+ t) = acc ++ [n +:+ t].
Proof.
  intros Ht. unfold Fs.norm_step.
  assert (Hne : ∀ u, String.length u < 3 → String.eqb (n +:+ t) u = false).
  { intros u Hu. apply eqb_longer. rewrite length_append. lia. }
  rewrite !Hne; [done|cbn; lia..].
Qed.

(** The last name of a path that ends in a suffix ends in it. *)
Lemma resolve_suffix cwd p t q :
  Fs.has_sep t = false → 3 ≤ String.length t →
  Fs.resolve cwd (p +:+ t) = Some q → ∃ d n, q = d ++ [n +:+ t].
Proof.
  intros Hsep Hlen. unfold Fs.resolve.
  destruct (String.eqb (p +:+ t) ""); [done|]. intros [= <-].
  destruct (split_path_append p t Hsep) as (init & n & _ & ->).
  rewrite fold_left_app. cbn [fold_left]. rewrite norm_step_suffix by done.
  by eexists _, _.
Qed.

Lemma append_gz_not_json s : s +:+ ".gz" ≠ ".json".
Proof.
  do 4 (destruct s as [|? s]; [done|]). intros H.
  apply (f_equal String.length) in H. cbn in H. rewrite length_append in H.
  cbn in H. lia.
Qed.

(** A name that ends in [".gz"] does not end in [".json"]. *)
Lemma endswith_gz_json s : Py.endswith (s +:+ ".gz") ".json" = false.
Proof.
  induction s as [|c s IH]; [done|].
  rewrite append_cons. cbn [Py.endswith]. rewrite IH, orb_false_r.
  rewrite <- append_cons. apply String.eqb_neq, append_gz_not_json.
Qed.

(** ** What [create_json_files] leaves alone *)

Lemma write_json_keeps p f w w' q n :
  write_file (p +:+ ".json") f w = Ok tt w' →
  last q = Some n → Py.endswith n ".json" = false →
  Fs.is_dir (Fs.get (w_fs w) q) = false →
  Fs.get (w_fs w') q = Fs.get (w_fs w) q.
Proof.
  intros Hw Hlast Hn Hnd. unfold write_file in Hw.
  destruct (Fs.resolve (w_cwd w) (p +:+ ".json")) as [cp|] eqn:Hr; [|done].
  cbn in Hw. destruct (Fs.put cp f (w_fs w)) as [t'|] eqn:Hput; [|done].
  inversion Hw; subst w'. cbn.
  apply (put_get_other _ _ _ _ _ Hput); [|done].
  intros ->. apply resolve_suffix in Hr as (d & m & ->); [|done|cbn; lia].
  rewrite last_snoc in Hlast. inversion Hlast; subst n.
  assert (Py.endswith (m +:+ ".json") ".json" = true) by (apply endswith_spec; by eexists).
  congruence.
Qed.

Lemma write_file_same path f w :
  same_but_files w (world_of (write_file path f w)).
Proof.
  unfold write_file. by destruct (Fs.resolve (w_cwd w) path ≫= _).
Qed.

Lemma for_cons {A} (x : A) xs body w :
  for_ (x :: xs) body w
  = match body x w with
    | Ok _ w1 => for_ xs body w1
    | Raise e w1 => Raise e w1
    | Spin w1 => Spin w1
    end.
Proof. done. Qed.

Lemma create_json_files_cons p gzs w :
  create_json_files (p :: gzs) w
  = match sidecar_turn p w with
    | Ok _ w1 => create_json_files gzs w1
    | Raise e w1 => Raise e w1
    | Spin w1 => Spin w1
    end.
Proof. done. Qed.

(** One turn of the loop, however it ends, changes files and the trace
    only. *)
Lemma sidecar_turn_same p w : same_but_files w (world_of (sidecar_turn p w)).
Proof.
  unfold sidecar_turn, mbind, M_bind, nib_load.
  destruct (lookup_path p w) as [[[doc|img|text]|es]|]; try done.
  cbn. unfold json_dump_doc.
  pose proof (write_file_same (p +:+ ".json") (Fs.JsonFile (sidecar img))
                (emit (EvLog "data: {}." [sidecar img]) w)) as H.
  by destruct (write_file _ _ _).
Qed.

Lemma sidecar_turn_keeps p w q n :
  last q = Some n → Py.endswith n ".json" = false →
  Fs.is_dir (Fs.get (w_fs w) q) = false →
  Fs.get (w_fs (world_of (sidecar_turn p w))) q = Fs.get (w_fs w) q.
Proof.
  intros Hlast Hn Hnd. unfold sidecar_turn, mbind, M_bind, nib_load.
  destruct (lookup_path p w) as [[[doc|img|text]|es]|]; try done.
  cbn. unfold json_dump_doc.
  destruct (write_file (p +:+ ".json") (Fs.JsonFile (sidecar img))
              (emit (EvLog "data: {}." [sidecar img]) w)) as [[] w'|e w'|w'] eqn:Hw.
  - cbn. by apply (write_json_keeps _ _ _ _ q n Hw).
  - unfold write_file in Hw. destruct (_ ≫= _) in Hw; by inversion Hw.
  - unfold write_file in Hw. destruct (_ ≫= _) in Hw; by inversion Hw.
Qed.

Lemma create_json_files_same gzs : ∀ w,
  same_but_files w (world_of (create_json_files gzs w)).
Proof.
  induction gzs as [|p gzs IH]; intros w; [done|].
  rewrite create_json_files_cons. pose proof (sidecar_turn_same p w) as Hturn.
  destruct (sidecar_turn p w) as [[] w1|e w1|w1]; cbn [world_of] in Hturn; [|done..].
  destruct Hturn as (H1 & H2 & H3 & H4), (IH w1) as (K1 & K2 & K3 & K4).
  unfold same_but_files. by rewrite K1, K2, K3, K4.
Qed.

(** Whatever is no directory and has a name that does not end in [.json] is
    as it was after [create_json_files], however that ends. *)
Lemma create_json_files_keeps gzs : ∀ w q n,
  last q = Some n → Py.endswith n ".json" = false →
  Fs.is_dir (Fs.get (w_fs w) q) = false →
  Fs.get (w_fs (world_of (create_json_files gzs w))) q = Fs.get (w_fs w) q.
Proof.
  induction gzs as [|p gzs IH]; intros w q n Hlast Hn Hnd; [done|].
  rewrite create_json_files_cons.
  pose proof (sidecar_turn_keeps p w q n Hlast Hn Hnd) as Hturn.
  destruct (sidecar_turn p w) as [[] w1|e w1|w1]; cbn [world_of] in Hturn; [|done..].
  rewrite (IH w1 q n Hlast Hn); [done|by rewrite Hturn].
Qed.

(** The file a [.gz] path denotes is not touched. *)
Lemma create_json_files_keeps_gz gzs w p :
  Py.endswith p ".gz" = true →
  Fs.is_dir (lookup_path p w) = false →
  lookup_path p (world_of (create_json_files gzs w)) = lookup_path p w.
Proof.
  intros [pre ->]%endswith_spec Hnd. unfold lookup_path in *.
  destruct (create_json_files_same gzs w) as (_ & -> & _).
  destruct (Fs.resolve (w_cwd w) (pre +:+ ".gz")) as [q|] eqn:Hr; [|done]. cbn in *.
  pose proof Hr as (d & n & ->)%resolve_suffix; [|done|cbn; lia].
  apply (create_json_files_keeps gzs w _ (n +:+ ".gz")); [apply last_snoc| |done].
  apply endswith_gz_json.
Qed.

Lemma for_app {A} (xs ys : list A) body w :
  for_ (xs ++ ys) body w = (for_ xs body;; for_ ys body) w.
Proof.
  revert w. induction xs as [|x xs IH]; intros w; [done|].
  cbn [app for_]. unfold mbind, M_bind. destruct (body x w); [|done..].
  apply IH.
Qed.

(** X6: [create_json_files] changes no regular file whose name does not end in
    [.json], and creates none: whatever such a path held before holds after,
    also when the function stops with an exception.  In particular every
    [.gz] file it was given is as it was. *)
Theorem create_json_files_touches_json_only (gzs : list string) (w : world) :
  (∀ q n, last q = Some n → Py.endswith n ".json" = false →
          Fs.is_dir (Fs.get (w_fs w) q) = false →
          Fs.get (w_fs (world_of (create_json_files gzs w))) q = Fs.get (w_fs w) q)
  ∧ (∀ p, Py.endswith p ".gz" = true → Fs.is_dir (lookup_path p w) = false →
          lookup_path p (world_of (create_json_files gzs w)) = lookup_path p w).
Proof.
  split.
  - intros q n Hl Hn Hnd. by apply (create_json_files_keeps gzs w q n).
  - intros p Hp Hnd. by apply create_json_files_keeps_gz.
Qed.

(** X7: [create_json_files] stops at the first file nibabel cannot load, with
    the error of that file: the [.json] files of the images before it are
    written, nothing is written for the files after it. *)
Theorem create_json_files_stops (good : list string) (bad : string)
    (rest : list string) (w : world) (file : Fs.file) :
  Forall (ready w) good →
  Py.endswith bad ".gz" = true →
  lookup_path bad w = Some (Fs.File file) →
  (∀ img, file ≠ Fs.NiftiFile img) →
  ∃ w', create_json_files (good ++ bad :: rest) w = Raise (ImageFileError bad) w'
        ∧ writes (w_trace w') = writes (w_trace w) ++ omap (sidecar_write w) good
        ∧ Forall (settled w') good.
Proof.
  intros Hgood Hgz Hbad Hfile.
  destruct (create_json_files_spec _ _ Hgood) as (w1 & Hrun & Htr & _ & Hset & _).
  exists w1. split_and!; [|by rewrite Htr, writes_app, writes_sidecar_events|done].
  pose proof (create_json_files_keeps_gz good w bad Hgz) as Hkeep.
  rewrite Hrun, Hbad in Hkeep. specialize (Hkeep eq_refl). cbn in Hkeep.
  unfold create_json_files in *. rewrite for_app.
  unfold mbind at 1, M_bind at 1. rewrite Hrun. cbn [for_].
  unfold mbind, M_bind, nib_load. rewrite Hkeep.
  destruct file as [doc|img|text]; [done| |done]. by destruct (Hfile img).
Qed.

(** X8: when the folder is missing, or is a regular file, the walk yields
    nothing: no file is listed, and the step ends normally without a write
    or a log line. *)
Theorem write_sidecars_no_folder (folder : string) (w : world) :
  Fs.is_dir (lookup_path folder w) = false →
  list_gz_files folder w = Ok [] w ∧ write_sidecars folder w = Ok tt w.
Proof.
  intros Hnd.
  assert (H : list_gz_files folder w = Ok [] w).
  { rewrite list_gz_files_run. f_equal. unfold gz_files_of.
    by destruct (lookup_path folder w) as [[f|es]|]. }
  split; [done|]. unfold write_sidecars, mbind, M_bind. by rewrite H.
Qed.

(** ** No file is listed twice *)

Lemma distinct_NoDup ns : Fs.distinct ns = true → NoDup ns.
Proof.
  induction ns as [|n ns IH]; cbn; [constructor|].
  intros [Hn Hd]%andb_true_iff. constructor; [|by apply IH].
  apply negb_true_iff in Hn. intros Hin%existsb_eqb_elem. congruence.
Qed.

Lemma filenames_sublist es : Fs.filenames es `sublist_of` map fst es.
Proof.
  induction es as [|[n [f|x]] es IH]; [done| |]; cbn.
  - by apply sublist_skip.
  - by apply sublist_cons.
Qed.

Lemma gz_nodes_nonempty t q : q ∈ gz_nodes t → q ≠ [].
Proof.
  destruct t as [f|es]; cbn; [by intros ?%elem_of_nil|].
  rewrite elem_of_app. intros [Hq|Hq].
  - apply list_elem_of_In, in_map_iff in Hq as (f & <- & _). done.
  - apply list_elem_of_In, in_flat_map in Hq as ([n c] & _ & Hq).
    apply in_map_iff in Hq as (q' & <- & _). done.
Qed.

Lemma gz_nodes_children_elem es q :
  q ∈ flat_map (λ e : string * Fs.node,
                  match e with (n, c) => map (cons n) (gz_nodes c) end) es →
  ∃ n c q', (n, c) ∈ es ∧ q = n :: q' ∧ q' ∈ gz_nodes c.
Proof.
  intros ([n c] & Hin & Hq)%list_elem_of_In%in_flat_map.
  apply in_map_iff in Hq as (q' & <- & Hq').
  exists n, c, q'. by rewrite !list_elem_of_In.
Qed.

Lemma gz_nodes_NoDup t : Fs.well_formed t = true → NoDup (gz_nodes t).
Proof.
  induction t as [f|es IH] using node_ind'; intros Hwf; [constructor|].
  destruct (well_formed_dir es Hwf) as [Hd Hall]. cbn [gz_nodes].
  apply NoDup_app. split_and!.
  - apply NoDup_fmap_2_strong; [by intros ? ? _ _ [=]|].
    apply NoDup_filter.
    eapply sublist_NoDup; [by apply distinct_NoDup|apply filenames_sublist].
  - intros q (f & <- & _)%list_elem_of_In%in_map_iff Hq.
    apply gz_nodes_children_elem in Hq as (n & c & q' & _ & [= _ <-] & Hq').
    by apply gz_nodes_nonempty in Hq'.
  - clear Hwf. induction es as [|[n c] es IHes]; [constructor|].
    cbn [flat_map]. cbn in Hd. apply andb_true_iff in Hd as [Hn Hd].
    apply negb_true_iff in Hn. inversion IH as [|? ? IHc IHrest]; subst.
    apply NoDup_app. split_and!.
    + apply NoDup_fmap_2_strong; [by intros ? ? _ _ [=]|].
      apply IHc. apply (Hall n c). apply list_elem_of_here.
    + intros q (q0 & <- & _)%list_elem_of_In%in_map_iff Hq.
      apply gz_nodes_children_elem in Hq as (n' & c' & q' & Hin & [= <- _] & _).
      apply not_true_iff_false in Hn. apply Hn, existsb_eqb_elem.
      apply list_elem_of_In, in_map_iff. exists (n, c'). split; [done|].
      by apply list_elem_of_In.
    + apply IHes; [done|done|]. intros n' c' Hin. apply Hall.
      by apply list_elem_of_further.
Qed.

Lemma gz_of_flat_map {A} (f : A → list (string * list string * list string)) l :
  gz_of (flat_map f l) = flat_map (λ x, gz_of (f x)) l.
Proof.
  induction l as [|x l IH]; [done|]. cbn [flat_map]. by rewrite gz_of_app, IH.
Qed.

Lemma Forall2_flat_map {A B C} (R : B → C → Prop) (f : A → list B) (g : A → list C) l :
  (∀ x, x ∈ l → Forall2 R (f x) (g x)) → Forall2 R (flat_map f l) (flat_map g l).
Proof.
  induction l as [|x l IH]; intros H; [constructor|]. cbn [flat_map].
  apply Forall2_app; [apply H, list_elem_of_here|].
  apply IH. intros y Hy. by apply H, list_elem_of_further.
Qed.

Lemma gz_of_walk_nodes cwd t : ∀ top pt,
  Fs.well_formed t = true → Fs.resolve cwd top = Some pt →
  Forall2 (leads cwd pt t) (gz_of (Fs.walk top t)) (gz_nodes t).
Proof.
  induction t as [f|es IH] using node_ind'; intros top pt Hwf Hres; [constructor|].
  destruct (well_formed_dir es Hwf) as [Hd Hall].
  rewrite gz_of_walk_dir. cbn [gz_nodes]. apply Forall2_app.
  - apply Forall2_fmap, Forall_Forall2_diag, Forall_forall.
    intros f [_ Hf]%list_elem_of_filter.
    apply filenames_elem in Hf as [file Hin].
    destruct (Hall f _ Hin) as [Hname _]. split.
    + by apply resolve_join.
    + exists file. cbn. by rewrite (assoc_distinct f _ es Hd Hin).
  - rewrite gz_of_flat_map. apply Forall2_flat_map. intros [n c] Hin.
    destruct (Hall n c Hin) as [Hn Hc]. rewrite Forall_forall in IH.
    apply Forall2_fmap_r.
    eapply Forall2_impl;
      [apply (IH (n, c) Hin (Py.os_path_join top n) (pt ++ [n]) Hc);
       by apply resolve_join|].
    intros p q [Hp [file Hq]]. split; [by rewrite <- app_assoc in Hp|].
    exists file. cbn. by rewrite (assoc_distinct n c es Hd Hin).
Qed.

Lemma Forall2_NoDup {A B} (R : A → B → Prop) l k :
  Forall2 R l k → (∀ x y y', R x y → R x y' → y = y') → NoDup k → NoDup l.
Proof.
  intros HF Hfun. induction HF as [|x y l k Hxy HF IH]; intros Hk; [constructor|].
  inversion Hk as [|? ? Hy Hk']; subst. constructor; [|by apply IH].
  intros Hx. apply list_elem_of_lookup in Hx as [i Hi].
  destruct (Forall2_lookup_l _ _ _ _ _ HF Hi) as (y' & Hi' & Hxy').
  rewrite (Hfun _ _ _ Hxy Hxy') in Hy. apply Hy. by eapply list_elem_of_lookup_2.
Qed.

(** X9: in a tree with proper and distinct names, every path [list_gz_files]
    returns leads to a regular file, and no file is listed twice: the paths
    are distinct, and so are the files they lead to. *)
Theorem list_gz_files_distinct (folder : string) (w : world) :
  Fs.well_formed (w_fs w) = true →
  ∃ gzs nodes,
    list_gz_files folder w = Ok gzs w
    ∧ Forall2 (λ p q, Fs.resolve (w_cwd w) p = Some q
                      ∧ ∃ file, Fs.get (w_fs w) q = Some (Fs.File file)) gzs nodes
    ∧ NoDup nodes
    ∧ NoDup gzs.
Proof.
  intros Hwf. rewrite list_gz_files_run, gz_files_of_under. unfold lookup_path.
  destruct (Fs.resolve (w_cwd w) folder) as [pt|] eqn:Hres;
    [|exists [], []; split_and!; by constructor].
  cbn. destruct (Fs.get (w_fs w) pt) as [t|] eqn:Hg;
    [|exists [], []; split_and!; by constructor].
  cbn. pose proof (get_well_formed _ _ _ Hwf Hg) as Hwft.
  pose proof (gz_of_walk_nodes (w_cwd w) t folder pt Hwft Hres) as HF.
  pose proof (gz_nodes_NoDup t Hwft) as Hnd.
  exists (gz_of (Fs.walk folder t)), (map (app pt) (gz_nodes t)).
  split_and!; [done| | |].
  - apply Forall2_fmap_r. eapply Forall2_impl; [exact HF|].
    intros p q [Hp [file Hq]]. split; [done|]. exists file.
    by rewrite get_app, Hg.
  - apply NoDup_fmap_2_strong; [|done]. intros ? ? _ _ E. by apply app_inv_head in E.
  - eapply Forall2_NoDup; [exact HF| |exact Hnd].
    intros p q q' [Hq _] [Hq' _]. rewrite Hq in Hq'. injection Hq' as E.
    by apply app_inv_head in E.
Qed.

(** ** The configuration cell: what is on disk afterwards *)

Lemma lookup_config v w pt n :
  Fs.resolve (w_cwd w) (work_dir v) = Some pt → n ∈ config_names →
  lookup_path (Py.os_path_join (work_dir v) n) w = Fs.get (w_fs w) (pt ++ [n]).
Proof.
  intros Hpt Hn. apply lookup_path_get. apply resolve_join; [done|].
  by apply name_ok_config.
Qed.

(** X10: when the configuration cell returns, each of the three files it wrote
    holds the document written to it, at the path the stages are given, and
    every other regular file holds what it held before the cell. *)
Theorem config_cell_files (v : sim_vars) (w w' : world) (r : cfg_vars) :
  cell_6c7b434c v w = Ok r w' →
  ∃ pt doc1 doc2 doc3,
    Fs.resolve (w_cwd w) (work_dir v) = Some pt
    ∧ writes (w_trace w') = writes (w_trace w) ++ config_writes v doc1 doc2 doc3
    ∧ lookup_path (env_config_filepath r) w' = Some (Fs.File (Fs.JsonFile doc1))
    ∧ lookup_path (model_config_filepath r) w' = Some (Fs.File (Fs.JsonFile doc2))
    ∧ lookup_path (model_def_filepath r) w' = Some (Fs.File (Fs.JsonFile doc3))
    ∧ stage_args r
      = ["--env_config"; Py.os_path_join (work_dir v) "environment_maisi_diff_model.json";
         "--model_config"; Py.os_path_join (work_dir v) "config_maisi_diff_model.json";
         "--model_def"; Py.os_path_join (work_dir v) "config_maisi.json"]
    ∧ ∀ q f, Fs.get (w_fs w) q = Some (Fs.File f) →
             q ∉ map (λ n, pt ++ [n]) config_names →
             Fs.get (w_fs w') q = Some (Fs.File f).
Proof.
  intros H.
  destruct (cell_6c7b434c_disk v w r w' H)
    as (pt & doc1 & doc2 & doc3 & kvs & e & m & o & Hpt & Hw & F1 & F2 & F3 & G
        & _ & _ & _ & _ & _ & _ & _ & P1 & P2 & P3).
  pose proof (proj1 G) as Hcwd. rewrite <- Hcwd in Hpt.
  exists pt, doc1, doc2, doc3. unfold stage_args. rewrite P1, P2, P3.
  rewrite !(lookup_config v w' pt) by (done || (unfold config_names; set_solver)).
  rewrite Hcwd in Hpt. split_and!; try done. apply G.
Qed.

(** X11: when the configuration cell returns, the environment file it wrote
    names under [embedding_base_dir], [model_dir] and [output_dir] three
    directories that exist, and no directory that was there is gone. *)
Theorem config_cell_directories (v : sim_vars) (w w' : world) (r : cfg_vars) :
  cell_6c7b434c v w = Ok r w' →
  ∃ kvs,
    lookup_path (env_config_filepath r) w' = Some (Fs.File (Fs.JsonFile (JObj kvs)))
    ∧ Forall (λ key, ∃ d, Json.assoc key kvs = Some (JStr d)
                          ∧ Fs.is_dir (lookup_path d w') = true)
        ["embedding_base_dir"; "model_dir"; "output_dir"]
    ∧ ∀ p, Fs.is_dir (lookup_path p w) = true → Fs.is_dir (lookup_path p w') = true.
Proof.
  intros H.
  destruct (cell_6c7b434c_disk v w r w' H)
    as (pt & doc1 & doc2 & doc3 & kvs & e & m & o & Hpt & Hw & F1 & F2 & F3 & G
        & -> & Ke & Km & Ko & De & Dm & Do & P1 & _ & _).
  pose proof (proj1 G) as Hcwd. rewrite <- Hcwd in Hpt.
  exists kvs. rewrite P1.
  rewrite (lookup_config v w' pt) by (done || (unfold config_names; set_solver)).
  split_and!; [done| |].
  - repeat constructor; by eexists.
  - intros p. by apply grows_is_dir with (l := map (λ n, pt ++ [n]) config_names).
Qed.

(** A file under [./configs] is as it was after the configuration cell, run
    with [./temp_work_dir] as work directory. *)
Lemma cell_6c7b434c_sources w w' r path q f :
  cell_6c7b434c the_sim_vars w = Ok r w' →
  lookup_path path w = Some (Fs.File f) →
  Fs.resolve (w_cwd w) path = Some (w_cwd w ++ "configs" :: q) →
  lookup_path path w' = Some (Fs.File f).
Proof.
  intros H Hl Hr.
  destruct (cell_6c7b434c_disk _ w r w' H)
    as (pt & _ & _ & _ & _ & _ & _ & _ & Hpt & _ & _ & _ & _ & (Hcwd & _ & G) & _).
  cbn [work_dir the_sim_vars] in Hpt. rewrite resolve_work_dir in Hpt.
  injection Hpt as <-.
  unfold lookup_path in *. rewrite Hcwd, Hr in *. cbn in *.
  apply G; [done|]. rewrite !elem_of_cons, elem_of_nil, <- !app_assoc.
  intros [E|[E|[E|[]]]]; by apply app_inv_head in E.
Qed.

Lemma resolve_env_config cwd :
  Fs.resolve cwd env_config_path
  = Some (cwd ++ ["configs"; "environment_maisi_diff_model.json"]).
Proof. unfold Fs.resolve. cbn. by rewrite <- app_assoc. Qed.

Lemma resolve_model_config cwd :
  Fs.resolve cwd model_config_path
  = Some (cwd ++ ["configs"; "config_maisi_diff_model.json"]).
Proof. unfold Fs.resolve. cbn. by rewrite <- app_assoc. Qed.

Lemma resolve_model_def cwd :
  Fs.resolve cwd model_def_path = Some (cwd ++ ["configs"; "config_maisi.json"]).
Proof. unfold Fs.resolve. cbn. by rewrite <- app_assoc. Qed.

(** X12: as the notebook calls it, with [./temp_work_dir] as work directory,
    the configuration cell leaves the three files under [./configs] as they
    are: what it changes goes into the copies it writes. *)
Theorem config_cell_keeps_sources (w w' : world) (r : cfg_vars) :
  cell_6c7b434c the_sim_vars w = Ok r w' →
  Forall (λ p, ∃ doc, lookup_path p w = Some (Fs.File (Fs.JsonFile doc))
                      ∧ lookup_path p w' = Some (Fs.File (Fs.JsonFile doc)))
    [env_config_path; model_config_path; model_def_path].
Proof.
  intros H.
  destruct (cell_6c7b434c_spec _ _ _ _ H)
    as (env & cfg & def & _ & _ & _ & _ & _ & L1 & L2 & L3 & _).
  repeat constructor.
  - exists (JObj env). split; [done|].
    eapply cell_6c7b434c_sources; [done|done|apply resolve_env_config].
  - exists (JObj cfg). split; [done|].
    eapply cell_6c7b434c_sources; [done|done|apply resolve_model_config].
  - exists (JObj def). split; [done|].
    eapply cell_6c7b434c_sources; [done|done|apply resolve_model_def].
Qed.

Section DataAndConfiguration.

Context (rng : Type) (RandomState : Z → rng).
Context (create_test_image_3d :
           Z → Z → Z → Z → Z → rng → (Fs.ndarray * Fs.ndarray) * rng).
Context (zooms_of_affine : list (list float) → list Fs.float32).

(** X13: after the cell of the simulated data and the configuration cell, the
    environment file written names under [json_data_list] the data list the
    first cell wrote and under [data_base_dir] a directory that holds, for
    each image the data list names, a NIfTI file. *)
Theorem environment_points_at_data (w w1 w2 : world) (v : sim_vars) (r : cfg_vars) :
  cell_1b199078 rng RandomState create_test_image_3d zooms_of_affine w = Ok v w1 →
  cell_6c7b434c v w1 = Ok r w2 →
  ∃ kvs list_path root,
    lookup_path (env_config_filepath r) w2 = Some (Fs.File (Fs.JsonFile (JObj kvs)))
    ∧ Json.assoc "json_data_list" kvs = Some (JStr list_path)
    ∧ lookup_path list_path w2 = Some (Fs.File (Fs.JsonFile sim_datalist))
    ∧ Json.assoc "data_base_dir" kvs = Some (JStr root)
    ∧ Forall (λ name, ∃ img, lookup_path (Py.os_path_join root name) w2
                             = Some (Fs.File (Fs.NiftiFile img)))
        ["tr_image_001.nii.gz"; "tr_image_002.nii.gz"].
Proof.
  intros H1 H2.
  destruct (cell_1b199078_spec _ _ _ _ _ _ _ H1) as (-> & _ & _ & _ & Hfiles).
  destruct (cell_6c7b434c_spec _ _ _ _ H2)
    as (env & cfg & def & e & m & o & train & ae & _ & _ & _ & _ & _ & _ & _ & _ & W & _).
  destruct (cell_6c7b434c_disk _ _ _ _ H2)
    as (pt & doc1 & doc2 & doc3 & kvs & e' & m' & o' & Hpt & W' & F1 & _ & _
        & (Hcwd & _ & G) & -> & _ & _ & _ & _ & _ & _ & P1 & _ & _).
  rewrite W in W'. apply app_inv_head in W'. injection W' as E1 _ _. subst kvs.
  cbn [work_dir the_sim_vars] in Hpt. rewrite resolve_work_dir in Hpt.
  injection Hpt as <-.
  assert (K : ∀ path q f,
            lookup_path path w1 = Some (Fs.File f) →
            Fs.resolve (w_cwd w1) path = Some (w_cwd w1 ++ "temp_work_dir" :: q) →
            (∀ n, n ∈ config_names → q ≠ [n]) →
            lookup_path path w2 = Some (Fs.File f)).
  { intros path q f Hl Hr Hq. unfold lookup_path in *. rewrite Hcwd, Hr in *. cbn in *.
    apply G; [done|]. rewrite !elem_of_cons, elem_of_nil, <- !app_assoc.
    intros [E|[E|[E|[]]]]; apply app_inv_head in E; injection E as E;
      (eapply Hq; [|exact E]); unfold config_names; set_solver. }
  inversion Hfiles as [|? ? L1 Hrest]; subst.
  inversion Hrest as [|? ? L2 Hrest']; subst.
  inversion Hrest' as [|? ? L3 _]; subst. cbn [fst snd] in L1, L2, L3.
  exists (patch_env the_sim_vars e m o env), (datalist_file the_sim_vars),
    (dataroot_dir the_sim_vars).
  split_and!.
  - rewrite P1. unfold lookup_path. rewrite Hcwd.
    rewrite (resolve_join _ "./temp_work_dir" _ _ (resolve_work_dir _)) by done.
    done.
  - unfold patch_env. by rewrite !assoc_set_ne, assoc_set_eq by done.
  - apply (K _ ["sim_datalist.json"] _ L1).
    + by rewrite resolve_datalist.
    + unfold config_names. intros n. rewrite !elem_of_cons, elem_of_nil.
      by intros [->|[->|[->|[]]]].
  - unfold patch_env. by rewrite !assoc_set_ne, assoc_set_eq by done.
  - repeat constructor.
    + eexists. apply (K _ ["sim_dataroot"; "tr_image_001.nii.gz"] _ L2);
        [by rewrite resolve_image_1|done].
    + eexists. apply (K _ ["sim_dataroot"; "tr_image_002.nii.gz"] _ L3);
        [by rewrite resolve_image_2|done].
Qed.

End DataAndConfiguration.

(** ** Running the first steps of the configuration cell *)

Lemma bind_raise {A B} (c : M A) (k : A → M B) w e w1 :
  c w = Raise e w1 → (c ≫= k) w = Raise e w1.
Proof. unfold mbind, M_bind. by intros ->. Qed.

Lemma json_load_run path doc w :
  lookup_path path w = Some (Fs.File (Fs.JsonFile doc)) →
  ∃ v ext,
    json_load path w = Ok v (set_heap (w_heap w ++ ext) w)
    ∧ holds (w_heap w ++ ext) v (length (w_heap w))
        (length (w_heap w) + length ext) doc.
Proof.
  intros Hl. destruct (load_spec doc (w_heap w)) as (v & ext & Hload & Hh).
  exists v, ext. split; [|done].
  unfold json_load, mbind, M_bind, read_file. rewrite Hl. unfold on_heap.
  by rewrite Hload.
Qed.

Lemma copy_deepcopy_run x a b doc w :
  holds (w_heap w) x a b doc →
  ∃ y ext,
    copy_deepcopy x w = Ok y (set_heap (w_heap w ++ ext) w)
    ∧ holds (w_heap w ++ ext) y (length (w_heap w))
        (length (w_heap w) + length ext) doc.
Proof.
  intros Hx. destruct (deepcopy_top_holds _ _ _ _ _ Hx) as (y & ext & Hcp & Hy).
  exists y, ext. split; [|done]. unfold copy_deepcopy, on_heap. by rewrite Hcp.
Qed.

Lemma holds_obj_ref h v a b kvs : holds h v a b (JObj kvs) → ∃ l, v = VRef l.
Proof.
  intros [_ [n Hre]]. destruct v; try (by destruct n). by eexists.
Qed.

Lemma assoc_zip_None {A B} key (ms : list (string * A)) (js : list B) :
  length js = length ms → Json.assoc key (zip ms.*1 js) = None →
  Json.assoc key ms = None.
Proof.
  revert js. induction ms as [|[k x] ms IH]; intros [|j js] Hlen; try done.
  cbn. destruct (String.eqb key k); [done|]. apply IH. by injection Hlen.
Qed.

(** A key the document lacks is missing in the dictionary loaded or copied
    from it. *)
Lemma holds_missing h l a b kvs key :
  holds h (VRef l) a b (JObj kvs) → Json.assoc key kvs = None →
  ∃ ms, h !! l = Some (ODict ms) ∧ Json.assoc key ms = None.
Proof.
  intros Hh Hk.
  destruct (holds_dict_inv _ _ _ _ _ Hh) as (ms & n & js & Hl & _ & _ & Hm & ->).
  exists ms. split; [done|]. apply (assoc_zip_None _ _ js); [|done].
  apply length_mapM in Hm. by rewrite length_fmap in Hm.
Qed.

(** X14: when the environment file has no [embedding_base_dir], the
    configuration cell stops with [KeyError] at the first read of that key:
    no directory is made and no file is written. *)
Theorem config_cell_missing_key (v : sim_vars) (w : world)
    (env : list (string * json)) (cfg def : json) :
  lookup_path env_config_path w = Some (Fs.File (Fs.JsonFile (JObj env))) →
  lookup_path model_config_path w = Some (Fs.File (Fs.JsonFile cfg)) →
  lookup_path model_def_path w = Some (Fs.File (Fs.JsonFile def)) →
  Json.assoc "embedding_base_dir" env = None →
  ∃ w',
    cell_6c7b434c v w = Raise (KeyError "embedding_base_dir") w'
    ∧ w_fs w' = w_fs w
    ∧ w_trace w' = w_trace w.
Proof.
  intros L1 L2 L3 Hk. unfold cell_6c7b434c.
  destruct (json_load_run _ _ w L1) as (ec & x1 & R1 & O1).
  rewrite (bind_run _ _ _ _ _ R1).
  destruct (json_load_run _ _ (set_heap (w_heap w ++ x1) w) L2) as (mc & x2 & R2 & O2).
  rewrite (bind_run _ _ _ _ _ R2). cbn [w_heap set_heap] in R2, O2 |- *.
  set (w2 := set_heap ((w_heap w ++ x1) ++ x2) (set_heap (w_heap w ++ x1) w)) in *.
  destruct (json_load_run _ _ w2 L3) as (md & x3 & R3 & O3).
  rewrite (bind_run _ _ _ _ _ R3).
  set (w3 := set_heap (w_heap w2 ++ x3) w2) in *.
  (* the three copies *)
  apply (holds_app _ x2), (holds_app _ x3) in O1. apply (holds_app _ x3) in O2.
  destruct (copy_deepcopy_run ec _ _ _ w3 O1) as (eo & x4 & R4 & C1).
  rewrite (bind_run _ _ _ _ _ R4).
  set (w4 := set_heap (w_heap w3 ++ x4) w3) in *.
  apply (holds_app _ x4) in O2.
  destruct (copy_deepcopy_run mc _ _ _ w4 O2) as (mo & x5 & R5 & C2).
  rewrite (bind_run _ _ _ _ _ R5).
  set (w5 := set_heap (w_heap w4 ++ x5) w4) in *.
  apply (holds_app _ x4), (holds_app _ x5) in O3.
  destruct (copy_deepcopy_run md _ _ _ w5 O3) as (do & x6 & R6 & C3).
  rewrite (bind_run _ _ _ _ _ R6).
  set (w6 := set_heap (w_heap w5 ++ x6) w5) in *.
  (* the first assignment and the read that fails *)
  apply (holds_app _ x5), (holds_app _ x6) in C1.
  destruct (holds_obj_ref _ _ _ _ _ C1) as [l ->].
  destruct (holds_missing _ _ _ _ _ _ C1 Hk) as (ms & Hl & Hms).
  change (w_heap w6 !! l = Some (ODict ms)) in Hl.
  assert (Hs : setitem (VRef l) "data_base_dir" (VStr (dataroot_dir v)) w6
               = Ok tt (set_heap (<[l := ODict (Json.assoc_set "data_base_dir"
                                                  (VStr (dataroot_dir v)) ms)]>
                                    (w_heap w6)) w6)).
  { unfold setitem. by rewrite Hl. }
  rewrite (bind_run _ _ _ _ _ Hs).
  exists (set_heap (<[l := ODict (Json.assoc_set "data_base_dir"
                                   (VStr (dataroot_dir v)) ms)]> (w_heap w6)) w6).
  split; [|done].
  apply bind_raise. unfold getitem. cbn [w_heap set_heap].
  rewrite list_lookup_insert_eq by (by eapply lookup_lt_Some).
  by rewrite assoc_set_ne, Hms.
Qed.

(** X15: the configuration cell can be run again without compounding its
    changes: a second run, when it returns, reads the same three files under
    [./configs] and writes the same three documents to the same paths as the
    first, so that no path is prefixed with the work directory twice. *)
Theorem config_cell_rerun (w w' w'' : world) (r r' : cfg_vars) :
  cell_6c7b434c the_sim_vars w = Ok r w' →
  cell_6c7b434c the_sim_vars w' = Ok r' w'' →
  ∃ new,
    writes (w_trace w') = writes (w_trace w) ++ new
    ∧ writes (w_trace w'') = writes (w_trace w') ++ new
    ∧ length new = 3
    ∧ Forall (λ wr, lookup_path wr.1 w'' = Some (Fs.File wr.2)) new
    ∧ stage_args r' = stage_args r.
Proof.
  intros H1 H2.
  destruct (cell_6c7b434c_spec _ _ _ _ H1)
    as (env & cfg & def & e & m & o & train & ae & L1 & L2 & L3 & Ke & Km & Ko & Kt
        & Ka & W1 & _ & _ & _ & _ & A1 & _).
  destruct (cell_6c7b434c_spec _ _ _ _ H2)
    as (env' & cfg' & def' & e' & m' & o' & train' & ae' & L1' & L2' & L3' & Ke' & Km'
        & Ko' & Kt' & Ka' & W2 & _ & _ & _ & _ & A2 & _).
  rewrite (cell_6c7b434c_sources w w' r _ ["environment_maisi_diff_model.json"] _ H1 L1)
    in L1' by apply resolve_env_config.
  rewrite (cell_6c7b434c_sources w w' r _ ["config_maisi_diff_model.json"] _ H1 L2)
    in L2' by apply resolve_model_config.
  rewrite (cell_6c7b434c_sources w w' r _ ["config_maisi.json"] _ H1 L3)
    in L3' by apply resolve_model_def.
  injection L1' as <-. injection L2' as <-. injection L3' as <-.
  rewrite Ke in Ke'. rewrite Km in Km'. rewrite Ko in Ko'. rewrite Kt in Kt'.
  rewrite Ka in Ka'.
  injection Ke' as <-. injection Km' as <-. injection Ko' as <-.
  injection Kt' as <-. injection Ka' as <-.
  eexists. split_and!; [exact W1|exact W2|done| |by rewrite A1, A2].
  destruct (cell_6c7b434c_disk _ _ _ _ H2)
    as (pt & doc1 & doc2 & doc3 & kvs & _ & _ & _ & Hpt & W' & F1 & F2 & F3
        & (Hcwd & _) & _).
  rewrite W2 in W'. apply app_inv_head in W'. injection W' as <- <- <-.
  unfold config_writes, lookup_path. rewrite Hcwd.
  repeat constructor; cbn [fst snd];
    rewrite (resolve_join _ _ _ _ Hpt) by done; done.
Qed.

(** ** The configuration cell and the cell that writes the [.json] files *)

(** The three dictionaries the configuration cell has patched, when it
    returns. *)
Lemma cell_6c7b434c_out v w r w' :
  cell_6c7b434c v w = Ok r w' →
  ∃ env cfg def e m o train ae,
    lookup_path env_config_path w = Some (Fs.File (Fs.JsonFile (JObj env)))
    ∧ lookup_path model_config_path w = Some (Fs.File (Fs.JsonFile (JObj cfg)))
    ∧ lookup_path model_def_path w = Some (Fs.File (Fs.JsonFile (JObj def)))
    ∧ Json.assoc "embedding_base_dir" env = Some (JStr e)
    ∧ Json.assoc "model_dir" env = Some (JStr m)
    ∧ Json.assoc "output_dir" env = Some (JStr o)
    ∧ Json.assoc "diffusion_unet_train" cfg = Some (JObj train)
    ∧ Json.assoc "autoencoder_def" def = Some (JObj ae)
    ∧ writes (w_trace w')
      = writes (w_trace w)
        ++ config_writes v (JObj (patch_env v e m o env))
             (JObj (patch_sub "diffusion_unet_train" "n_epochs" (JInt 2) train cfg))
             (JObj (patch_sub "autoencoder_def" "num_splits" (JInt 4) ae def))
    ∧ stored (w_heap w') (env_config_out r) (JObj (patch_env v e m o env))
    ∧ stored (w_heap w') (model_config_out r)
        (JObj (patch_sub "diffusion_unet_train" "n_epochs" (JInt 2) train cfg))
    ∧ stored (w_heap w') (model_def_out r)
        (JObj (patch_sub "autoencoder_def" "num_splits" (JInt 4) ae def)).
Proof.
  unfold cell_6c7b434c. intros H.
  (* the three loads *)
  step H ec w1 H1. apply json_load_Ok in H1 as (de & x1 & L1 & F1 & S1 & E1 & O1).
  step H mc w2 H2. apply json_load_Ok in H2 as (dm & x2 & L2 & F2 & S2 & E2 & O2).
  step H md w3 H3. apply json_load_Ok in H3 as (dd & x3 & L3 & F3 & S3 & E3 & O3).
  rewrite F1 in L2. rewrite F2, F1 in L3.
  pose proof (silent_trans _ _ _ (silent_trans _ _ _ S1 S2) S3) as S.
  clear S1 S2 S3 F1 F2 F3.
  assert (∃ h3, stored h3 ec de ∧ stored h3 mc dm ∧ stored h3 md dd
                ∧ agree 0 (length h3) h3 (w_heap w3)) as (h3 & O1' & O2' & O3' & A).
  { exists (w_heap w3). split_and!; [| |by eexists _, _|done].
    - eexists _, _. rewrite E3, E2, <- app_assoc. by apply holds_app.
    - eexists _, _. rewrite E3. by apply holds_app. }
  clear O1 O2 O3 E1 E2 E3 x1 x2 x3. rename O1' into O1, O2' into O2, O3' into O3.
  pose proof (proj1 A) as N3.
  (* the three copies *)
  step H eo w4 H4. destruct (stored_agree _ _ _ _ O1 A) as (ia & ib & O).
  eapply copy_deepcopy_Ok in H4 as (x4 & S4 & E4 & C1); [|exact O]. clear ia ib O.
  apply (agree_extend _ _ _ x4) in A; [|done]. rewrite <- E4 in A.
  step H mo w5 H5. destruct (stored_agree _ _ _ _ O2 A) as (ia & ib & O).
  eapply copy_deepcopy_Ok in H5 as (x5 & S5 & E5 & C2); [|exact O]. clear ia ib O.
  apply (agree_extend _ _ _ x5) in A; [|done]. rewrite <- E5 in A.
  step H do w6 H6. destruct (stored_agree _ _ _ _ O3 A) as (ia & ib & O).
  eapply copy_deepcopy_Ok in H6 as (x6 & S6 & E6 & C3); [|exact O]. clear ia ib O.
  apply (agree_extend _ _ _ x6) in A; [|done]. rewrite <- E6 in A.
  apply (holds_app _ x5) in C1. rewrite <- E5 in C1.
  apply (holds_app _ x6) in C1, C2. rewrite <- E6 in C1, C2.
  pose proof (holds_le _ _ _ _ _ C1) as B1.
  pose proof (holds_le _ _ _ _ _ C2) as B2.
  pose proof (holds_le _ _ _ _ _ C3) as B3.
  pose proof (silent_trans _ _ _ (silent_trans _ _ _ (silent_trans _ _ _ S S4) S5) S6)
    as S'. clear S S4 S5 S6 E4 E5 E6 x4 x5 x6. rename S' into S.
  revert N3 A C1 C2 C3 B1 B2 B3.
  generalize (length (w_heap w3)) as n3, (length (w_heap w4)) as n4,
    (length (w_heap w5)) as n5. intros n3 n4 n5 N3 A C1 C2 C3 B1 B2 B3.
  clear w1 w2 w3 w4 w5.
  set (n6 := length (w_heap w6)) in *.
  assert (Q : same_outside n3 n4 (w_heap w6) (w_heap w6)) by apply same_outside_refl.
  revert C2 C3 A Q. generalize (w_heap w6) at 1 2 3 4 as h6. intros h6 C2 C3 A Q.
  (* the environment configuration *)
  set_step H C1 Q S env Ek. subst de.
  path_step H C1 e Ke.
  set_step H C1 Q S k Ek. injection Ek as <-.
  set_step H C1 Q S k Ek. injection Ek as <-.
  path_step H C1 m Km.
  set_step H C1 Q S k Ek. injection Ek as <-.
  path_step H C1 o Ko.
  set_step H C1 Q S k Ek. injection Ek as <-.
  set_step H C1 Q S k Ek. injection Ek as <-.
  path_step H C1 e' Ke'. mkdir_step H C1 Q S.
  path_step H C1 m' Km'. mkdir_step H C1 Q S.
  path_step H C1 o' Ko'. mkdir_step H C1 Q S.
  clear e' m' o' Ke' Km' Ko'.
  rewrite assoc_set_ne in Ke by done.
  rewrite !assoc_set_ne in Km by done.
  rewrite !assoc_set_ne in Ko by done.
  fold (patch_env v e m o env) in C1.
  (* the first file *)
  step H u1 wa D1. destruct u1.
  apply json_dump_Ok in D1 as (doc1 & Hd1 & Eh1 & Et1).
  rewrite (holds_dumps _ _ _ _ _ C1) in Hd1. injection Hd1 as <-.
  rewrite <- Eh1 in C1, Q. clear Eh1.
  (* the model configuration *)
  apply (holds_outside _ (w_heap wa)) with (a' := n3) (b' := n4) in C2 as C2';
    [|done|lia].
  step H x wb Hg.
  destruct (getitem_Ok _ _ _ _ _ _ _ _ C2' Hg)
    as (-> & cfg & jx & a2 & b2 & -> & Kt & La2 & Lb2 & Hx & Put2). clear Hg.
  step H u2 wc Hs. destruct u2.
  eapply setitem_Ok in Hs as (train & Ek & S2 & Cx & Q2); [|exact Hx|reflexivity].
  subst jx.
  specialize (Put2 _ _ Q2 Cx). clear Cx Hx C2' C2.
  step H u2 wd D2. destruct u2.
  apply json_dump_Ok in D2 as (doc2 & Hd2 & Eh2 & Et2).
  rewrite (holds_dumps _ _ _ _ _ Put2) in Hd2. injection Hd2 as <-.
  rewrite <- Eh2 in Put2, Q2. clear Eh2.
  (* the model definition *)
  apply (holds_outside _ (w_heap wa)) with (a' := n3) (b' := n4) in C3 as C3';
    [|done|lia].
  apply (holds_outside _ (w_heap wd)) with (a' := a2) (b' := b2) in C3';
    [|done|lia].
  step H x' we Hg.
  destruct (getitem_Ok _ _ _ _ _ _ _ _ C3' Hg)
    as (-> & def & jy & a3 & b3 & -> & Ka & La3 & Lb3 & Hy & Put3). clear Hg.
  step H u3 wf Hs. destruct u3.
  eapply setitem_Ok in Hs as (ae & Ek & S3 & Cy & Q3); [|exact Hy|reflexivity].
  subst jy.
  specialize (Put3 _ _ Q3 Cy). clear Cy Hy C3' C3.
  step H u3 wg D3. destruct u3.
  apply json_dump_Ok in D3 as (doc3 & Hd3 & Eh3 & Et3).
  rewrite (holds_dumps _ _ _ _ _ Put3) in Hd3. injection Hd3 as <-.
  rewrite <- Eh3 in Put3, Q3. clear Eh3.
  (* the two log lines *)
  step H names wh Hl. apply os_listdir_Ok in Hl as ->.
  step H u4 wi G1. destruct u4. apply logger_info_Ok in G1 as (Eh4 & S4).
  step H u5 wj G2. destruct u5. apply logger_info_Ok in G2 as (Eh5 & S5).
  apply ret_Ok in H as (-> & ->).
  rewrite Eh5, Eh4.
  assert (A' : agree 0 (length h3) h3 (w_heap wg)).
  { eapply agree_outside; [|exact Q3|lia].
    eapply agree_outside; [|exact Q2|lia].
    eapply agree_outside; [|exact Q|lia]. done. }
  exists env, cfg, def, e, m, o, train, ae.
  cbn [env_config_out model_config_out model_def_out].
  split_and!; try done.
  - destruct S as [S _], S2 as [S2 _], S3 as [S3 _], S4 as [S4 _], S5 as [S5 _].
    rewrite S5, S4, Et3, writes_app, S3, Et2, writes_app, S2, Et1, writes_app, S.
    by rewrite <- !app_assoc.
  - exists n3, n4. eapply holds_outside; [|exact Q3|lia].
    eapply holds_outside; [exact C1|exact Q2|lia].
  - exists n4, n5. eapply holds_outside; [exact Put2|exact Q3|lia].
  - by exists n5, n6.
Qed.

Lemma reify_str n h x s : reify n h x = Some (JStr s) → x = VStr s.
Proof.
  destruct x as [| | | |s'|l]; try (by destruct n).
  - destruct n; cbn; by intros [= ->].
  - destruct n as [|n]; [done|]. rewrite reify_ref.
    destruct (h !! l) as [[vs|ms]|]; cbn; [| |done].
    + by destruct (mapM (reify n h) vs).
    + by destruct (mapM (reify n h) ms.*2).
Qed.

Lemma assoc_zip_str n h key s (ms : list (string * val)) : ∀ js,
  mapM (reify n h) ms.*2 = Some js →
  Json.assoc key (zip ms.*1 js) = Some (JStr s) →
  Json.assoc key ms = Some (VStr s).
Proof.
  induction ms as [|[k x] ms IH]; intros js Hm Hk.
  - cbn in Hm. injection Hm as <-. done.
  - cbn in Hm. destruct (reify n h x) as [j|] eqn:Hx; [|done]. cbn in Hm.
    destruct (mapM (reify n h) ms.*2) as [js'|] eqn:Hm'; [|done]. cbn in Hm.
    injection Hm as <-. cbn in Hk |- *.
    destruct (String.eqb key k).
    + injection Hk as ->. by rewrite (reify_str _ _ _ _ Hx).
    + by apply (IH js').
Qed.

(** Reading a string entry of a dictionary that stands for a document. *)
Lemma stored_getitem d kvs key s w :
  stored (w_heap w) d (JObj kvs) → Json.assoc key kvs = Some (JStr s) →
  getitem d key w = Ok (VStr s) w.
Proof.
  intros (a & b & Hd) Hk. destruct (holds_obj_ref _ _ _ _ _ Hd) as [l ->].
  destruct (holds_dict_inv _ _ _ _ _ Hd) as (ms & n & js & Hl & _ & _ & Hm & ->).
  unfold getitem. rewrite Hl. by rewrite (assoc_zip_str _ _ _ _ _ _ Hm Hk).
Qed.

(** X16: the cell that writes the [.json] files, run after the configuration
    cell in a world with the objects that cell left (a stage changes none),
    walks the directory the written environment file names under
    [embedding_base_dir], which the configuration cell has made: it is the
    step that lists the [.gz] files below that directory and writes their
    [.json] files, followed by the log line. *)
Theorem sidecar_cell_folder (v : sim_vars) (w w' w3 : world) (r : cfg_vars) :
  cell_6c7b434c v w = Ok r w' →
  w_heap w3 = w_heap w' →
  ∃ kvs folder,
    lookup_path (env_config_filepath r) w' = Some (Fs.File (Fs.JsonFile (JObj kvs)))
    ∧ Json.assoc "embedding_base_dir" kvs = Some (JStr folder)
    ∧ Fs.is_dir (lookup_path folder w') = true
    ∧ cell_0221a658 r w3
      = (write_sidecars folder;;
         logger_info "Completed creating .json files for all embedding files." []) w3.
Proof.
  intros H Hh.
  destruct (cell_6c7b434c_out _ _ _ _ H)
    as (env & cfg & def & e & m & o & train & ae & _ & _ & _ & _ & _ & _ & _ & _
        & W & O1 & _ & _).
  destruct (cell_6c7b434c_disk _ _ _ _ H)
    as (pt & doc1 & doc2 & doc3 & kvs & e' & m' & o' & Hpt & W' & F1 & _ & _
        & (Hcwd & _) & -> & Ke & _ & _ & De & _ & _ & P1 & _ & _).
  rewrite W in W'. apply app_inv_head in W'. injection W' as <- _ _.
  exists (patch_env v e m o env), e'. split_and!; [|done|done|].
  - rewrite P1. unfold lookup_path. rewrite Hcwd.
    by rewrite (resolve_join _ _ _ _ Hpt).
  - rewrite <- Hh in O1.
    pose proof (stored_getitem _ _ _ _ w3 O1 Ke) as Hg.
    unfold cell_0221a658.
    rewrite (bind_run _ _ _ _ _ Hg).
    rewrite (bind_run (as_path (VStr e')) _ w3 e' w3 eq_refl).
    unfold write_sidecars, mbind, M_bind. rewrite list_gz_files_run. done.
Qed.

(** ** The properties on the sample worlds *)

Lemma simulated_data_cell_runs_witness :
  ∃ r w', cell_1b199078 Z id sample_create sample_zooms sample_world = Ok r w'.
Proof.
  apply (proj1 (simulated_data_cell_runs Z id sample_create sample_zooms sample_world)).
  vm_compute. exact eq_refl.
Defined.

Lemma simulated_data_cell_rerun_witness :
  ∃ r w' w'',
    cell_1b199078 Z id sample_create sample_zooms sample_world = Ok r w'
    ∧ cell_1b199078 Z id sample_create sample_zooms w' = Ok r w''.
Proof.
  destruct (cell_1b199078 Z id sample_create sample_zooms sample_world)
    as [r w'|e w'|w'] eqn:H; [|by vm_compute in H..].
  destruct (simulated_data_cell_rerun Z id sample_create sample_zooms sample_world w' r H)
    as (w'' & new & H2 & _).
  by exists r, w', w''.
Defined.

Lemma run_torchrun_popen_error_witness :
  ∃ w', run_torchrun missing_spawn "scripts.diff_model_train" [] 1 sample_world
        = Raise (OSError "torchrun") w'.
Proof.
  destruct (run_torchrun_popen_error missing_spawn "scripts.diff_model_train" [] 1
              sample_cfg_vars sample_world (λ _ _ _, eq_refl)) as [(w' & H & _) _].
  by exists w'.
Defined.


Lemma create_json_files_touches_json_only_witness :
  lookup_path "embeddings/notes.txt"
    (world_of (create_json_files (gz_files_of "embeddings" sample_embeddings)
                 sample_embeddings))
  = Some (Fs.File (Fs.OtherFile "two volumes")).
Proof.
  destruct (create_json_files_touches_json_only
              (gz_files_of "embeddings" sample_embeddings) sample_embeddings) as [H _].
  unfold lookup_path.
  destruct (create_json_files_same (gz_files_of "embeddings" sample_embeddings)
              sample_embeddings) as (_ & -> & _).
  change (Fs.resolve (w_cwd sample_embeddings) "embeddings/notes.txt")
    with (Some ["embeddings"; "notes.txt"]).
  cbn [mbind option_bind].
  rewrite (H ["embeddings"; "notes.txt"] "notes.txt"); [|exact eq_refl..].
  vm_compute. exact eq_refl.
Defined.

Lemma create_json_files_stops_witness :
  ∃ w', create_json_files
          ["embeddings/tr_image_001_emb.nii.gz"; "embeddings/broken.nii.gz";
           "embeddings/tr_image_003_emb.nii.gz"] damaged_embeddings
        = Raise (ImageFileError "embeddings/broken.nii.gz") w'
        ∧ length (writes (w_trace w')) = 1.
Proof.
  destruct (create_json_files_stops ["embeddings/tr_image_001_emb.nii.gz"]
              "embeddings/broken.nii.gz" ["embeddings/tr_image_003_emb.nii.gz"]
              damaged_embeddings (Fs.OtherFile "cut short"))
    as (w' & H & W & _).
  - constructor; [|constructor].
    exists ["embeddings"], "tr_image_001_emb.nii.gz", sample_embedding.
    split; [split_and!|]; vm_compute; exact eq_refl.
  - vm_compute. exact eq_refl.
  - vm_compute. exact eq_refl.
  - intros img. discriminate.
  - exists w'. split; [exact H|]. rewrite W. vm_compute. exact eq_refl.
Defined.

Lemma write_sidecars_no_folder_witness :
  write_sidecars "embeddings" sample_world = Ok tt sample_world.
Proof.
  apply (write_sidecars_no_folder "embeddings" sample_world). vm_compute. exact eq_refl.
Defined.

Lemma list_gz_files_distinct_witness :
  ∃ gzs, list_gz_files "embeddings" sample_embeddings = Ok gzs sample_embeddings
         ∧ NoDup gzs ∧ length gzs = 2.
Proof.
  destruct (list_gz_files_distinct "embeddings" sample_embeddings)
    as (gzs & nodes & H & _ & _ & N).
  - vm_compute. exact eq_refl.
  - exists gzs. split_and!; [exact H|exact N|].
    rewrite list_gz_files_run in H. injection H as <-. vm_compute. exact eq_refl.
Defined.

Lemma config_cell_files_witness :
  ∃ r w', cell_6c7b434c the_sim_vars sample_world = Ok r w'
          ∧ is_Some (lookup_path (env_config_filepath r) w').
Proof.
  destruct (cell_6c7b434c the_sim_vars sample_world) as [r w'|e w'|w'] eqn:H;
    [|by vm_compute in H..].
  exists r, w'. split; [reflexivity|].
  destruct (config_cell_files the_sim_vars sample_world w' r H)
    as (pt & d1 & d2 & d3 & _ & _ & L & _).
  rewrite L. by eexists.
Defined.

Lemma config_cell_directories_witness :
  ∃ r w', cell_6c7b434c the_sim_vars sample_world = Ok r w'
          ∧ is_Some (lookup_path (env_config_filepath r) w').
Proof.
  destruct (cell_6c7b434c the_sim_vars sample_world) as [r w'|e w'|w'] eqn:H;
    [|by vm_compute in H..].
  exists r, w'. split; [reflexivity|].
  destruct (config_cell_directories the_sim_vars sample_world w' r H) as (kvs & L & _).
  rewrite L. by eexists.
Defined.

Lemma config_cell_keeps_sources_witness :
  ∃ r w', cell_6c7b434c the_sim_vars sample_world = Ok r w'
          ∧ lookup_path env_config_path w'
            = Some (Fs.File (Fs.JsonFile sample_env)).
Proof.
  destruct (cell_6c7b434c the_sim_vars sample_world) as [r w'|e w'|w'] eqn:H;
    [|by vm_compute in H..].
  exists r, w'. split; [reflexivity|].
  pose proof (config_cell_keeps_sources sample_world w' r H) as F.
  inversion F as [|? ? (doc & L & L') _]; subst.
  rewrite L'. rewrite <- L. vm_compute. exact eq_refl.
Defined.

Lemma environment_points_at_data_witness :
  ∃ v w1 r w2 kvs,
    cell_1b199078 Z id sample_create sample_zooms sample_world = Ok v w1
    ∧ cell_6c7b434c v w1 = Ok r w2
    ∧ lookup_path (env_config_filepath r) w2 = Some (Fs.File (Fs.JsonFile (JObj kvs)))
    ∧ is_Some (Json.assoc "json_data_list" kvs).
Proof.
  destruct (cell_1b199078 Z id sample_create sample_zooms sample_world)
    as [v w1|e w1|w1] eqn:H1; [|by vm_compute in H1..].
  destruct (cell_6c7b434c v w1) as [r w2|e w2|w2] eqn:H2.
  - destruct (environment_points_at_data Z id sample_create sample_zooms
                sample_world w1 w2 v r H1 H2)
      as (kvs & lp & root & Hf & Hk & _).
    exists v, w1, r, w2, kvs. split_and!; [reflexivity|exact H2|exact Hf|].
    rewrite Hk. by eexists.
  - exfalso. vm_compute in H1. injection H1 as <- <-. by vm_compute in H2.
  - exfalso. vm_compute in H1. injection H1 as <- <-. by vm_compute in H2.
Defined.

Lemma config_cell_missing_key_witness :
  ∃ w', cell_6c7b434c the_sim_vars short_world
        = Raise (KeyError "embedding_base_dir") w'
        ∧ w_fs w' = w_fs short_world.
Proof.
  destruct (config_cell_missing_key the_sim_vars short_world
              [("data_base_dir", JStr "./data"); ("model_dir", JStr "./models");
               ("output_dir", JStr "./predictions")] sample_config sample_def)
    as (w' & H & F & _); try (vm_compute; exact eq_refl).
  exists w'. split; [exact H|exact F].
Defined.

Lemma config_cell_rerun_witness :
  ∃ r w' r' w'',
    cell_6c7b434c the_sim_vars sample_world = Ok r w'
    ∧ cell_6c7b434c the_sim_vars w' = Ok r' w''
    ∧ length (writes (w_trace w'')) = 6.
Proof.
  destruct (cell_6c7b434c the_sim_vars sample_world) as [r w'|e w'|w'] eqn:H1;
    [|by vm_compute in H1..].
  destruct (cell_6c7b434c the_sim_vars w') as [r' w''|e w''|w''] eqn:H2.
  - exists r, w', r', w''. split_and!; [reflexivity|exact H2|].
    destruct (config_cell_rerun sample_world w' w'' r r' H1 H2)
      as (new & W1 & W2 & N & _).
    rewrite W2, W1, !length_app, N. reflexivity.
  - exfalso. vm_compute in H1. injection H1 as <- <-. by vm_compute in H2.
  - exfalso. vm_compute in H1. injection H1 as <- <-. by vm_compute in H2.
Defined.

Lemma sidecar_cell_folder_witness :
  ∃ r w' kvs folder,
    cell_6c7b434c the_sim_vars sample_world = Ok r w'
    ∧ lookup_path (env_config_filepath r) w' = Some (Fs.File (Fs.JsonFile (JObj kvs)))
    ∧ Json.assoc "embedding_base_dir" kvs = Some (JStr folder)
    ∧ cell_0221a658 r w'
      = (write_sidecars folder;;
         logger_info "Completed creating .json files for all embedding files." []) w'.
Proof.
  destruct (cell_6c7b434c the_sim_vars sample_world) as [r w'|e w'|w'] eqn:H;
    [|by vm_compute in H..].
  destruct (sidecar_cell_folder the_sim_vars sample_world w' w' r H eq_refl)
    as (kvs & folder & L & K & _ & E).
  exists r, w', kvs, folder. split_and!; [reflexivity|exact L|exact K|exact E].
Defined.
